(** * pyairview_realtimeplot: the three RSSI spectrum viewers

    A shallow embedding of [realtime_plot.py] (console variant),
    [gui-untested.py] (basic GUI) and [gui_untested_too.py] (extended GUI),
    and the properties of their frequency axes, log parser, queue consumers,
    CSV writers and scanner threads, followed by those of the printed log
    line, the limits set from the spin boxes, the port box, and the stop
    and close handlers.

    Conventions of the embedding.
    - Python floats are modelled by exact rationals [Q]; the configured
      defaults 2399.0, 2485.0 and 0.5 are dyadic, so the concrete
      evaluations below are exact in binary64 as well. Where the rounding
      of other settings matters, for the frequency axes, the computation
      is also given in binary64 (module [B64], the names ending in [_b64]),
      bit for bit as the interpreter and numpy carry it out.
    - RSSI readings are Python integers, modelled by [Z].
    - Text is ASCII: a [string], or a [list ascii] inside the parser. The
      control flow of the parser is also given over any kind of text, with
      [re.search] and [int] as parameters ([Console.parse_with]).
    - Code that calls the vendor library or prints is a program over a
      trace of events; the position of an event in the trace is the logical
      time at which it happened, and the vendor library, the stop flag and
      the keyboard are oracles indexed by that time. *)

From Stdlib Require Import QArith ZArith String Ascii List Lia Lqa SpecFloat.
From stdpp Require Import gmap strings list pretty sorting.

Close Scope Q_scope.

(** ** Python: exceptions, programs, builtins *)

Module Py.

(** The two exception classes the sources distinguish: [Exception] (with
    the text [str(e)] gives) and [KeyboardInterrupt], which is not an
    [Exception]. *)
Inductive exn :=
| Exception (msg : string)
| KeyboardInterrupt.

Inductive outcome (A : Type) :=
| Return (a : A)
| Raise (e : exn).
Arguments Return {A} a.
Arguments Raise {A} e.

(** What a call into the vendor library does: it returns, or it raises an
    [Exception] carrying a message. *)
Inductive result (A : Type) :=
| Ok (a : A)
| Fail (msg : string).
Arguments Ok {A} a.
Arguments Fail {A} msg.

(** What a scanning function does that the rest of the world can see, in
    the order of the trace: a line printed, a vendor call with what it
    gave, a test of the stop flag with what it found, the beginning of a
    [time.sleep] (or of the last one, cut short by Ctrl-C), a message
    handed to the window's callback, and the console's plotting calls. *)
Inductive event :=
| Stdout (line : string)
| Connect (port : string) (r : result bool)
| StartScan (r : result unit)
| IsSet (b : bool)
| IsScanning (r : result bool)
| Sleep (secs : Q) (interrupted : bool)
| StopScan (r : result unit)
| Disconnect (r : result unit)
| Callback (tag payload : string)
| StartPlotThread
| PltIoff
| PltShow.

Definition trace := list event.

(** A program extends the trace and returns or raises; [None] is a loop
    that has not finished within its fuel. *)
Definition prog (A : Type) := trace -> option (outcome A * trace).

Definition ret {A} (a : A) : prog A := fun tr => Some (Return a, tr).

Definition raise {A} (e : exn) : prog A := fun tr => Some (Raise e, tr).

Definition bind {A B} (m : prog A) (k : A -> prog B) : prog B :=
  fun tr =>
    match m tr with
    | None => None
    | Some (Return a, tr') => k a tr'
    | Some (Raise e, tr') => Some (Raise e, tr')
    end.

Definition out_of_fuel {A} : prog A := fun _ => None.

(** An action that cannot fail. *)
Definition emit (e : event) : prog unit := fun tr => Some (Return tt, tr ++ [e]).

(** An observation of an oracle at the current time. *)
Definition observe {A} (f : nat -> A) (mk : A -> event) : prog A :=
  fun tr => let a := f (length tr) in Some (Return a, tr ++ [mk a]).

(** A vendor call at the current time. *)
Definition call {A} (f : nat -> result A) (mk : result A -> event) : prog A :=
  fun tr =>
    let r := f (length tr) in
    Some (match r with Ok a => Return a | Fail m => Raise (Exception m) end,
          tr ++ [mk r]).

(** [try: body except ...: handler]; [handler e = None] when no clause
    matches [e], which then propagates. *)
Definition try_except {A} (body : prog A) (handler : exn -> option (prog A))
  : prog A :=
  fun tr =>
    match body tr with
    | None => None
    | Some (Return a, tr') => Some (Return a, tr')
    | Some (Raise e, tr') =>
        match handler e with
        | Some h => h tr'
        | None => Some (Raise e, tr')
        end
    end.

(** [except Exception as e: h(str(e))]. *)
Definition except_Exception {A} (h : string -> prog A) (e : exn)
  : option (prog A) :=
  match e with
  | Exception msg => Some (h msg)
  | KeyboardInterrupt => None
  end.

(** [try: body finally: fin]. *)
Definition try_finally {A} (body : prog A) (fin : prog unit) : prog A :=
  fun tr =>
    match body tr with
    | None => None
    | Some (o, tr') =>
        match fin tr' with
        | None => None
        | Some (Return _, tr'') => Some (o, tr'')
        | Some (Raise e, tr'') => Some (Raise e, tr'')
        end
    end.

Definition print (line : string) : prog unit := emit (Stdout line).

(** *** [str.split] with a one-character separator *)

Fixpoint split (sep : ascii) (s : list ascii) : list (list ascii) :=
  match s with
  | [] => [[]]
  | c :: s' =>
      if Ascii.eqb c sep then [] :: split sep s'
      else match split sep s' with
           | p :: ps => (c :: p) :: ps
           | [] => [[c]]
           end
  end.

(** *** [repr] of an ASCII [str] *)

Definition hex_digit (n : N) : ascii :=
  ascii_of_N (if (n <? 10)%N then 48 + n else 87 + n).

Definition repr_char (quote : ascii) (c : ascii) : list ascii :=
  let n := N_of_ascii c in
  if Ascii.eqb c "\" then ["\"; "\"]%char
  else if Ascii.eqb c quote then ["\"%char; quote]
  else if (n =? 10)%N then ["\"; "n"]%char
  else if (n =? 13)%N then ["\"; "r"]%char
  else if (n =? 9)%N then ["\"; "t"]%char
  else if ((n <? 32) || (126 <? n))%N then
    ["\"; "x"; hex_digit (n / 16); hex_digit (n mod 16)]%char
  else [c].

Definition single_quote : ascii := ascii_of_N 39.

Definition double_quote : ascii := ascii_of_N 34.

(** [repr] quotes with single quotes, unless the text holds a single quote
    and no double quote. *)
Definition repr (s : list ascii) : list ascii :=
  let has c := existsb (Ascii.eqb c) s in
  let quote :=
    if has single_quote && negb (has double_quote) then double_quote
    else single_quote in
  quote :: flat_map (repr_char quote) s ++ [quote].

(** *** [int(str)], base 10 *)

(** [Py_ISSPACE]: tab, line feed, vertical tab, form feed, carriage return,
    space. *)
Definition is_space (c : ascii) : bool :=
  let n := N_of_ascii c in ((9 <=? n) && (n <=? 13) || (n =? 32))%N.

Definition is_digit (c : ascii) : bool :=
  let n := N_of_ascii c in ((48 <=? n) && (n <=? 57))%N.

Definition digit_value (c : ascii) : Z := Z.of_N (N_of_ascii c) - 48.

Fixpoint take_while {A} (p : A -> bool) (l : list A) : list A :=
  match l with
  | x :: l' => if p x then x :: take_while p l' else []
  | [] => []
  end.

Fixpoint drop_while {A} (p : A -> bool) (l : list A) : list A :=
  match l with
  | x :: l' => if p x then drop_while p l' else l
  | [] => []
  end.

(** A run of digits and underscores is well formed when it starts with a
    digit and every underscore stands between two digits. [prev_digit]
    tells whether the previous character was a digit. *)
Fixpoint digits_ok (prev_digit : bool) (run : list ascii) : bool :=
  match run with
  | [] => prev_digit
  | c :: run' =>
      if is_digit c then digits_ok true run'
      else prev_digit && digits_ok false run'
  end.

Definition digits_value (run : list ascii) : Z :=
  fold_left (fun acc c => if is_digit c then 10 * acc + digit_value c else acc)%Z
            run 0%Z.

(** The message is formatted with [%.200R]: the [repr] of the text, cut after
    its first 200 characters. *)
Definition invalid_literal (s : list ascii) : exn :=
  Exception ("invalid literal for int() with base 10: "
             +:+ string_of_list_ascii (take 200 (repr s))).

Definition exceeds_limit (limit ndigits : nat) : exn :=
  Exception ("Exceeds the limit (" +:+ pretty limit
             +:+ " digits) for integer string conversion: value has "
             +:+ pretty ndigits
             +:+ " digits; use sys.set_int_max_str_digits() to increase the limit").

(** [int(s)] for ASCII text [s]: optional white space, an optional sign,
    decimal digits with single underscores between them, optional white
    space. [limit] is [sys.get_int_max_str_digits()]: 0 switches the check
    off, as it is in interpreters older than the limit. *)
Definition int (limit : nat) (s : list ascii) : outcome Z :=
  let s1 := drop_while is_space s in
  let '(negative, s2) :=
    match s1 with
    | c :: r =>
        if Ascii.eqb c "+" then (false, r)
        else if Ascii.eqb c "-" then (true, r)
        else (false, s1)
    | [] => (false, s1)
    end in
  let in_run c := is_digit c || Ascii.eqb c "_" in
  let run := take_while in_run s2 in
  let rest := drop_while in_run s2 in
  if negb (digits_ok false run) then Raise (invalid_literal s)
  else
    let ndigits := length (filter (fun c => is_digit c = true) run) in
    if (0 <? limit)%nat && (limit <? ndigits)%nat
    then Raise (exceeds_limit limit ndigits)
    else
      match drop_while is_space rest with
      | [] => Return (if negative then - digits_value run else digits_value run)%Z
      | _ => Raise (invalid_literal s)
      end.

(** [list(map(f, xs))]: left to right, stopping at the first exception. *)
Fixpoint list_map {A B} (f : A -> outcome B) (xs : list A) : outcome (list B) :=
  match xs with
  | [] => Return []
  | x :: xs' =>
      match f x with
      | Raise e => Raise e
      | Return y =>
          match list_map f xs' with
          | Raise e => Raise e
          | Return ys => Return (y :: ys)
          end
      end
  end.

Definition lift {A} (o : outcome A) : prog A := fun tr => Some (o, tr).

(** *** [str] of an int and of a list of ints *)

Definition conversion_limit (limit : nat) : exn :=
  Exception ("Exceeds the limit (" +:+ pretty limit
             +:+ " digits) for integer string conversion; "
             +:+ "use sys.set_int_max_str_digits() to increase the limit").

(** [str(z)]: the decimal digits of [z], after a minus sign when [z] is
    negative; it raises when there are more digits than the limit of the
    interpreter allows, as [int] does. *)
Definition str_int (limit : nat) (z : Z) : outcome (list ascii) :=
  let s := list_ascii_of_string (pretty z) in
  let ndigits := length (filter (fun c => is_digit c = true) s) in
  if (0 <? limit)%nat && (limit <? ndigits)%nat
  then Raise (conversion_limit limit)
  else Return s.

(** [sep.join(pieces)]. *)
Fixpoint join (sep : list ascii) (pieces : list (list ascii)) : list ascii :=
  match pieces with
  | [] => []
  | [p] => p
  | p :: ps => p ++ sep ++ join sep ps
  end.

(** [str(l)] for a list of ints: the [repr] of the items, separated by a
    comma and a space, between square brackets. *)
Definition str_list (limit : nat) (l : list Z) : outcome (list ascii) :=
  match list_map (str_int limit) l with
  | Raise e => Raise e
  | Return pieces =>
      Return ("["%char :: join [","; " "]%char pieces ++ ["]"%char])
  end.

(** *** [sorted(set(l))] for a list of [str] *)

(** The distinct items of [l] in increasing order; Python compares [str]
    by code points, position by position, a proper prefix coming first. *)
Definition sorted_set (l : list string) : list string :=
  merge_sort String.le (remove_dups l).

End Py.

Notation "'let!' x := m 'in' k" := (Py.bind m (fun x => k))
  (at level 10, x name, m at level 100, k at level 200).
Notation "'exec' m ; k" := (Py.bind m (fun _ => k))
  (at level 10, m at level 100, k at level 200).

(** ** Python's [re]: the fragment the log pattern uses *)

Module Re.

Inductive class := Digit | Dot.

(** A pattern is a sequence of literal characters and greedy repetitions
    of a character class; one repetition may be the capturing group. *)
Inductive item :=
| Chr (c : ascii)
| Rep (k : class) (at_least : nat) (capture : bool).

(** On ASCII text [\d] is a digit from 0 to 9; without the [DOTALL] flag
    the dot is any character but a line feed. *)
Definition in_class (k : class) (c : ascii) : bool :=
  match k with
  | Digit => Py.is_digit c
  | Dot => negb (Ascii.eqb c (ascii_of_N 10))
  end.

(** A greedy repetition first takes [n] characters, as many as it can,
    and gives them back one at a time, down to [at_least], while the rest
    of the pattern, [rest_matches], fails. *)
Fixpoint give_back (rest_matches : nat -> option (list ascii))
    (at_least n : nat) : option (list ascii) :=
  if (n <? at_least)%nat then None
  else
    match rest_matches n with
    | Some g => Some g
    | None =>
        match n with
        | O => None
        | S n' => give_back rest_matches at_least n'
        end
    end.

(** Match [p] at the start of [s]; [group] is what the capturing group
    holds so far, and the result is what it holds at the end. *)
Fixpoint match_here (p : list item) (s : list ascii) (group : list ascii)
  : option (list ascii) :=
  match p with
  | [] => Some group
  | Chr c :: p' =>
      match s with
      | x :: s' => if Ascii.eqb x c then match_here p' s' group else None
      | [] => None
      end
  | Rep k at_least capture :: p' =>
      give_back
        (fun n => match_here p' (drop n s) (if capture then take n s else group))
        at_least
        (length (Py.take_while (in_class k) s))
  end.

(** [re.search]: the first start position, from the left, with a match;
    the result is [match.group(1)]. *)
Fixpoint search (p : list item) (s : list ascii) : option (list ascii) :=
  match match_here p s [] with
  | Some g => Some g
  | None =>
      match s with
      | [] => None
      | _ :: s' => search p s'
      end
  end.

Definition literal (s : string) : list item := map Chr (list_ascii_of_string s).

End Re.

(** ** numpy *)

Module Np.

(** [numpy.arange(0, num)] as an array of floats. *)
Definition arange (num : nat) : list Q :=
  map (fun i => inject_Z (Z.of_nat i)) (seq 0 num).

(** [y[-1] = v]. *)
Definition set_last (y : list Q) (v : Q) : list Q :=
  <[pred (length y) := v]> y.

(** [numpy.linspace(start, stop, num)] with the default [endpoint=True]:
    [div = num - 1], [step = delta / div], [y = arange(0, num) * step +
    start], and the last sample is overwritten by [stop] when [num > 1].
    With [div = 0] numpy multiplies by [delta] instead of a step. These are
    the values before any rounding; [B64.linspace] below is the computation
    in binary64. *)
Definition linspace (start stop : Q) (num : nat) : list Q :=
  let div := (num - 1)%nat in
  let delta := (stop - start)%Q in
  let y := arange num in
  if (0 <? div)%nat then
    let step := (delta / inject_Z (Z.of_nat div))%Q in
    let y := map (fun v => v * step + start)%Q y in
    if (1 <? num)%nat then set_last y stop else y
  else
    map (fun v => v * delta + start)%Q y.

End Np.

(** ** binary64 *)

Module B64.

(** IEEE 754 binary64, the [float] of Python and the [float64] of numpy, on
    the Standard Library's specification of floating-point numbers: every
    operation gives the exact result rounded to nearest, ties to even. *)
Definition prec : Z := 53.
Definition emax : Z := 1024.

Definition t : Type := spec_float.

(** [float(z)] for an int [z]. *)
Definition of_Z (z : Z) : t := binary_normalize prec emax z 0 false.

Definition of_nat (n : nat) : t := of_Z (Z.of_nat n).

Definition add : t -> t -> t := SFadd prec emax.
Definition sub : t -> t -> t := SFsub prec emax.
Definition mul : t -> t -> t := SFmul prec emax.
Definition div : t -> t -> t := SFdiv prec emax.

(** [x == y]. *)
Definition eqb : t -> t -> bool := SFeqb.

Definition zero : t := S754_zero false.



(** The rational a finite float stands for. *)
Definition to_Q (x : t) : Q :=
  match x with
  | S754_finite s m e => inject_Z (if s then Z.neg m else Z.pos m) * Qpower 2 e
  | _ => 0
  end.

(** [numpy.arange(0, num)] with [dtype=float64]. *)
Definition arange (num : nat) : list t := map of_nat (seq 0 num).

(** [y[-1] = v]. *)
Definition set_last (y : list t) (v : t) : list t :=
  <[pred (length y) := v]> y.

(** [numpy.linspace(start, stop, num)] on two floats, with the default
    [endpoint=True]: [div = num - 1], [delta = stop - start], [y =
    arange(0, num)]; when [div > 0], [step = delta / div] and [y = y *
    step], or [y = (y / div) * delta] when the step is zero; otherwise [y =
    y * delta]; then [y += start], and the last sample is overwritten by
    [stop] when [num > 1]. *)
Definition linspace (start stop : t) (num : nat) : list t :=
  let n_div := (num - 1)%nat in
  let delta := sub stop start in
  let y := arange num in
  let y :=
    if (0 <? n_div)%nat then
      let step := div delta (of_nat n_div) in
      if eqb step zero then map (fun v => mul (div v (of_nat n_div)) delta) y
      else map (fun v => mul v step) y
    else map (fun v => mul v delta) y in
  let y := map (fun v => add v start) y in
  if (1 <? num)%nat then set_last y stop else y.

End B64.

(** ** The vendor library and the other threads, as oracles *)

Module Env.

(** Logical time counts the events of the scanning function: its [k]-th
    event happens at time [k]. The record tells what each vendor call
    answers when made at time [t], what the stop flag holds when tested at
    time [t], and whether a sleep that begins at time [t] is cut short by
    Ctrl-C. The other threads (the window that sets the flag, the vendor's
    reader) act through these answers, so a stop requested while the
    thread sleeps shows as a flag set at the time of the next event. *)
Record t := {
  connect : nat -> string -> Py.result bool;
  start_scan : nat -> Py.result unit;
  is_scanning : nat -> Py.result bool;
  stop_scan : nat -> Py.result unit;
  disconnect : nat -> Py.result unit;
  stop_event : nat -> bool;
  interrupt : nat -> bool
}.

End Env.

(** ** realtime_plot.py *)

Module Console.

Definition START_FREQ : Q := 2399.
Definition END_FREQ : Q := 2485.
Definition FREQ_STEP : Q := 1 # 2.
Definition RSSI_MIN : Z := -100.
Definition RSSI_MAX : Z := -40.

(** The pattern given to [re.search]: the words [Received ], one or more
    digits, the words [ RSSI level readings: ], an opening bracket, the
    group (a greedy run of any characters but line feed), a closing
    bracket. *)
Definition pattern : list Re.item :=
  Re.literal "Received " ++ [Re.Rep Re.Digit 1 false]
  ++ Re.literal " RSSI level readings: [" ++ [Re.Rep Re.Dot 0 true]
  ++ Re.literal "]".

Definition no_valid_data : string := "No valid RSSI data found in the input.".

Definition error_parsing (msg : string) : string := "Error parsing input: " +:+ msg.

(** [parse_rssi_input]; [limit] is the interpreter's digit limit of [int]. *)
Definition parse_rssi_input (limit : nat) (input_text : string)
  : Py.prog (list Z) :=
  Py.try_except
    (match Re.search pattern (list_ascii_of_string input_text) with
     | Some rssi_data =>
         let! readings := Py.lift (Py.list_map (Py.int limit) (Py.split "," rssi_data)) in
         Py.ret readings
     | None =>
         exec Py.print no_valid_data;
         Py.ret []
     end)
    (Py.except_Exception (fun msg =>
       exec Py.print (error_parsing msg);
       Py.ret [])).

(** The control flow of [parse_rssi_input] by itself, over any kind of
    text: [search] stands for [re.search] with the pattern, giving
    [match.group(1)], [split_comma] for [str.split(",")] and [to_int] for
    [int]. [parse_rssi_input] above is this control flow with the three
    functions as they are on ASCII text. *)
Definition parse_with {text : Type} (search : text -> option text)
    (split_comma : text -> list text) (to_int : text -> Py.outcome Z)
    (input_text : text) : Py.prog (list Z) :=
  Py.try_except
    (match search input_text with
     | Some rssi_data =>
         let! readings := Py.lift (Py.list_map to_int (split_comma rssi_data)) in
         Py.ret readings
     | None =>
         exec Py.print no_valid_data;
         Py.ret []
     end)
    (Py.except_Exception (fun msg =>
       exec Py.print (error_parsing msg);
       Py.ret [])).

(** [[START_FREQ + i * FREQ_STEP for i in range(num_points)]] with
    [num_points = len(rssi_values)]. *)
Definition frequencies (rssi_values : list Z) : list Q :=
  let num_points := length rssi_values in
  map (fun i => START_FREQ + inject_Z (Z.of_nat i) * FREQ_STEP)%Q
      (seq 0 num_points).

Definition END_FREQ_b64 : B64.t := B64.of_Z 2485.


(** The plotting thread: the shared queue (oldest sweep first), the line
    on the axes, and the number of [plt.pause(0.1)] calls made so far. *)
Record plot_state := {
  plot_data_queue : list (list Z);
  axes : option (list Q * list Z);
  pauses : nat
}.

(** One turn of the [while True] loop of [plot_rssi_spectrum]. *)
Definition plot_iteration (st : plot_state) : plot_state :=
  match plot_data_queue st with
  | [] => st
  | rssi_values :: rest =>
      {| plot_data_queue := rest;
         axes := Some (frequencies rssi_values, rssi_values);
         pauses := S (pauses st) |}
  end.

(** [n] turns of the loop. *)
Definition plot_rssi_spectrum (n : nat) (st : plot_state) : plot_state :=
  Nat.iter n plot_iteration st.

(** [scan_callback] seen from the plotting side: the sweep joins the queue. *)
Definition scan_callback (rssi_list : list Z) (st : plot_state) : plot_state :=
  {| plot_data_queue := plot_data_queue st ++ [rssi_list];
     axes := axes st; pauses := pauses st |}.

Definition port : string := "/dev/ttyACM0".

(** [while pyairview.is_scanning(): time.sleep(0.5)] *)
Fixpoint monitor (env : Env.t) (fuel : nat) : Py.prog unit :=
  match fuel with
  | O => Py.out_of_fuel
  | S fuel' =>
      let! scanning := Py.call (Env.is_scanning env) Py.IsScanning in
      if scanning : bool then
        let! interrupted := Py.observe (Env.interrupt env) (Py.Sleep (1 # 2)) in
        if interrupted : bool then Py.raise Py.KeyboardInterrupt
        else monitor env fuel'
      else Py.ret tt
  end.

(** [start_scan]. *)
Definition start_scan (env : Env.t) (fuel : nat) : Py.prog unit :=
  Py.try_finally
    (Py.try_except
       (let! connected := Py.call (fun t => Env.connect env t port) (Py.Connect port) in
        if negb connected then
          Py.print "Failed to connect to the device."
        else
          exec Py.print "Starting RSSI scan...";
          exec Py.call (Env.start_scan env) Py.StartScan;
          exec Py.emit Py.StartPlotThread;
          exec monitor env fuel;
          Py.call (Env.stop_scan env) Py.StopScan)
       (fun e =>
          match e with
          | Py.KeyboardInterrupt => Some (Py.print "Scan interrupted by user.")
          | Py.Exception msg => Some (Py.print ("Error during scan: " +:+ msg))
          end))
    (exec Py.try_except
       (exec Py.call (Env.disconnect env) Py.Disconnect;
        Py.print "Disconnected from Airview device.")
       (Py.except_Exception (fun msg => Py.print ("Error during cleanup: " +:+ msg)));
     exec Py.emit Py.PltIoff;
     Py.emit Py.PltShow).

(** The line [scan_callback] prints:
    [f"Received {len(rssi_list)} RSSI level readings: {rssi_list}"]. *)
Definition readings_line (limit : nat) (rssi_list : list Z) : Py.outcome string :=
  match Py.str_int limit (Z.of_nat (length rssi_list)) with
  | Py.Raise e => Py.Raise e
  | Py.Return count =>
      match Py.str_list limit rssi_list with
      | Py.Raise e => Py.Raise e
      | Py.Return items =>
          Py.Return (string_of_list_ascii
                       (list_ascii_of_string "Received " ++ count
                        ++ list_ascii_of_string " RSSI level readings: "
                        ++ items))
      end
  end.

(** [scan_callback] with its printing: the line goes to the standard
    output, then the sweep joins the queue. *)
Definition scan_callback_io (limit : nat) (rssi_list : list Z) (st : plot_state)
  : Py.prog plot_state :=
  let! line := Py.lift (readings_line limit rssi_list) in
  exec Py.print line;
  Py.ret (scan_callback rssi_list st).

End Console.

(** ** What the scanner thread hands to the window *)

Module Msg.

(** The second argument of the window's callback: a sweep with the tag
    [rssi], a text with the tags [__status__] and [__error__]. *)
Inductive payload :=
| PList (rssi_list : list Z)
| PStr (text : string).

Definition str (p : payload) : string :=
  match p with
  | PStr s => s
  | PList _ => ""
  end.

End Msg.

(** ** The widgets the scan buttons and the close box act on *)

Module Qt.

(** The stop flag shared with the scanner thread, and whether the two scan
    buttons are enabled. *)
Record controls := {
  scanner_stop_event : bool;
  start_btn : bool;
  stop_btn : bool
}.

(** As [__init__] and [_init_ui] leave them. *)
Definition init : controls :=
  {| scanner_stop_event := false; start_btn := true; stop_btn := false |}.

Definition set_stop_event (ui : controls) : controls :=
  {| scanner_stop_event := true; start_btn := start_btn ui; stop_btn := stop_btn ui |}.

Definition clear_stop_event (ui : controls) : controls :=
  {| scanner_stop_event := false; start_btn := start_btn ui; stop_btn := stop_btn ui |}.

Definition set_buttons (ui : controls) (start stop : bool) : controls :=
  {| scanner_stop_event := scanner_stop_event ui;
     start_btn := start; stop_btn := stop |}.

End Qt.

(** ** gui-untested.py *)

Module Gui.

Definition DEFAULT_START_FREQ : Q := 2399.
Definition DEFAULT_END_FREQ : Q := 2485.
Definition DEFAULT_FREQ_STEP : Q := 1 # 2.
Definition DEFAULT_RSSI_MIN : Z := -100.
Definition DEFAULT_RSSI_MAX : Z := -40.

Module SpectrumCanvas.

(** The canvas fields, and [drawn]: the line currently on the axes. *)
Record t := {
  start_freq : Q;
  end_freq : Q;
  rssi_min : Z;
  rssi_max : Z;
  freq_step : Q;
  drawn : option (list Q * list Z)
}.

Definition with_drawn (self : t) (d : option (list Q * list Z)) : t :=
  {| start_freq := start_freq self; end_freq := end_freq self;
     rssi_min := rssi_min self; rssi_max := rssi_max self;
     freq_step := freq_step self; drawn := d |}.

(** [__init__]: an empty line is plotted at creation. *)
Definition init (sf ef : Q) (rmin rmax : Z) (step : Q) : t :=
  {| start_freq := sf; end_freq := ef; rssi_min := rmin; rssi_max := rmax;
     freq_step := step; drawn := Some ([], []) |}.

Definition update_limits (self : t) (sf ef : Q) (rmin rmax : Z) (step : Q) : t :=
  {| start_freq := sf; end_freq := ef; rssi_min := rmin; rssi_max := rmax;
     freq_step := step; drawn := drawn self |}.

(** The step-based array [plot_rssi] builds first. *)
Definition step_freqs (self : t) (num_points : nat) : list Q :=
  map (fun i => start_freq self + inject_Z (Z.of_nat i) * freq_step self)%Q
      (seq 0 num_points).

(** The array that reaches [ax.plot]: the step-based one, truncated when
    it is longer than the readings, replaced by [linspace] when shorter. *)
Definition plot_freqs (self : t) (rssi_values : list Z) : list Q :=
  let num_points := length rssi_values in
  let freqs := step_freqs self num_points in
  if (num_points <? length freqs)%nat then take num_points freqs
  else if (length freqs <? num_points)%nat then
    Np.linspace (start_freq self) (end_freq self) num_points
  else freqs.

Definition plot_rssi (self : t) (rssi_values : list Z) : t :=
  match rssi_values with
  | [] => self
  | _ => with_drawn self (Some (plot_freqs self rssi_values, rssi_values))
  end.

(** The frequency array of [plot_rssi] in binary64, as the interpreter
    and numpy compute it from the three floats the canvas holds. *)
Definition step_freqs_b64 (start_freq freq_step : B64.t) (num_points : nat)
  : list B64.t :=
  map (fun i => B64.add start_freq (B64.mul (B64.of_nat i) freq_step))
      (seq 0 num_points).

Definition plot_freqs_b64 (start_freq end_freq freq_step : B64.t)
    (rssi_values : list Z) : list B64.t :=
  let num_points := length rssi_values in
  let freqs := step_freqs_b64 start_freq freq_step num_points in
  if (num_points <? length freqs)%nat then take num_points freqs
  else if (length freqs <? num_points)%nat then
    B64.linspace start_freq end_freq num_points
  else freqs.

End SpectrumCanvas.

Module ScannerThread.

Definition callback (tag payload : string) : Py.prog unit :=
  Py.emit (Py.Callback tag payload).

(** [while not self.stop_event.is_set() and pyairview.is_scanning():
    time.sleep(0.5)] *)
Fixpoint monitor (env : Env.t) (fuel : nat) : Py.prog unit :=
  match fuel with
  | O => Py.out_of_fuel
  | S fuel' =>
      let! stop := Py.observe (Env.stop_event env) Py.IsSet in
      if stop : bool then Py.ret tt
      else
        let! scanning := Py.call (Env.is_scanning env) Py.IsScanning in
        if scanning : bool then
          exec Py.emit (Py.Sleep (1 # 2) false);
          monitor env fuel'
        else Py.ret tt
  end.

(** [run]. *)
Definition run (env : Env.t) (port : string) (fuel : nat) : Py.prog unit :=
  Py.try_finally
    (Py.try_except
       (let! connected := Py.call (fun t => Env.connect env t port) (Py.Connect port) in
        if negb connected then
          callback "__error__" ("Failed to connect to " +:+ port)
        else
          exec callback "__status__" ("Connected to " +:+ port +:+ " — starting scan");
          exec Py.call (Env.start_scan env) Py.StartScan;
          exec monitor env fuel;
          let! scanning := Py.call (Env.is_scanning env) Py.IsScanning in
          if scanning : bool then Py.call (Env.stop_scan env) Py.StopScan
          else Py.ret tt)
       (Py.except_Exception (fun msg => callback "__error__" ("Scanner error: " +:+ msg))))
    (exec Py.try_except
       (Py.call (Env.disconnect env) Py.Disconnect)
       (Py.except_Exception (fun _ => Py.ret tt));
     callback "__status__" "Disconnected").

End ScannerThread.

Module MainWindow.

Record t := {
  plot_queue : list Msg.payload;
  start_freq : Q;
  end_freq : Q;
  freq_step : Q;
  rssi_min : Z;
  rssi_max : Z;
  canvas : SpectrumCanvas.t;
  status_label : string
}.

Definition with_queue (self : t) (q : list Msg.payload) : t :=
  {| plot_queue := q; start_freq := start_freq self; end_freq := end_freq self;
     freq_step := freq_step self; rssi_min := rssi_min self;
     rssi_max := rssi_max self; canvas := canvas self;
     status_label := status_label self |}.

Definition with_canvas (self : t) (c : SpectrumCanvas.t) : t :=
  {| plot_queue := plot_queue self; start_freq := start_freq self;
     end_freq := end_freq self; freq_step := freq_step self;
     rssi_min := rssi_min self; rssi_max := rssi_max self; canvas := c;
     status_label := status_label self |}.

Definition with_status (self : t) (text : string) : t :=
  {| plot_queue := plot_queue self; start_freq := start_freq self;
     end_freq := end_freq self; freq_step := freq_step self;
     rssi_min := rssi_min self; rssi_max := rssi_max self;
     canvas := canvas self; status_label := text |}.

Definition init : t :=
  {| plot_queue := [];
     start_freq := DEFAULT_START_FREQ; end_freq := DEFAULT_END_FREQ;
     freq_step := DEFAULT_FREQ_STEP;
     rssi_min := DEFAULT_RSSI_MIN; rssi_max := DEFAULT_RSSI_MAX;
     canvas := SpectrumCanvas.init DEFAULT_START_FREQ DEFAULT_END_FREQ
                 DEFAULT_RSSI_MIN DEFAULT_RSSI_MAX DEFAULT_FREQ_STEP;
     status_label := "Ready" |}.

Definition _scanner_callback_from_thread (self : t) (tag : string)
    (payload : Msg.payload) : t :=
  if String.eqb tag "rssi" then with_queue self (plot_queue self ++ [payload])
  else if String.eqb tag "__status__" then with_status self (Msg.str payload)
  else if String.eqb tag "__error__" then
    with_status self ("ERROR: " +:+ Msg.str payload)
  else self.

(** What the body of the drain loop does with one item taken off the queue. *)
Definition handle (self : t) (data : Msg.payload) : t :=
  match data with
  | Msg.PList ((_ :: _) as l) =>
      with_status (with_canvas self (SpectrumCanvas.plot_rssi (canvas self) l))
        ("Last update: " +:+ pretty (length l) +:+ " points")
  | _ => self
  end.

(** The [while True] loop of [_process_plot_queue] on a queue holding [q]:
    [get_nowait] takes the oldest item, and raises [Empty] on an empty
    queue, which ends the loop. *)
Fixpoint drain (q : list Msg.payload) (self : t) : t :=
  match q with
  | [] => self
  | data :: q' => drain q' (handle (with_queue self q') data)
  end.

Definition _process_plot_queue (self : t) : t := drain (plot_queue self) self.

(** [_refresh_ports]: the items of the port box afterwards; [acm] and
    [usb] are what the two [glob.glob] calls return. *)
Definition _refresh_ports (acm usb : list string) : list string :=
  let ports := acm ++ usb in
  let ports := Py.sorted_set ports in
  match ports with
  | [] => ["/dev/ttyACM0"]
  | _ => ports
  end.

(** [_update_limits_from_ui]; the arguments are the values of the five
    spin boxes. *)
Definition _update_limits_from_ui (sf ef step : Q) (rmin rmax : Z) (self : t) : t :=
  let self :=
    {| plot_queue := plot_queue self; start_freq := sf; end_freq := ef;
       freq_step := step; rssi_min := rmin; rssi_max := rmax;
       canvas := canvas self; status_label := status_label self |} in
  if Qle_bool (end_freq self) (start_freq self) then
    with_status self "Start frequency must be < end frequency"
  else if (rssi_max self <=? rssi_min self)%Z then
    with_status self "RSSI min must be < RSSI max"
  else
    with_canvas self
      (SpectrumCanvas.update_limits (canvas self) (start_freq self) (end_freq self)
         (rssi_min self) (rssi_max self) (freq_step self)).

(** [_on_start]; [port] is the current text of the port box. The one flag
    that the window hands to every scanner thread it starts is cleared, and
    a new thread is started on [port], the third part of the result. *)
Definition _on_start (port : string) (self : t) (ui : Qt.controls)
  : t * Qt.controls * string :=
  let ui := Qt.clear_stop_event ui in
  (with_status self "Starting...", Qt.set_buttons ui false true, port).

(** [_on_stop], run by the GUI thread; the time of [env] is the length of
    the trace of that thread. *)
Definition _on_stop (env : Env.t) (self : t) (ui : Qt.controls)
  : Py.prog (t * Qt.controls) :=
  let ui := Qt.set_stop_event ui in
  exec Py.try_except
    (let! scanning := Py.call (Env.is_scanning env) Py.IsScanning in
     if scanning : bool then Py.call (Env.stop_scan env) Py.StopScan
     else Py.ret tt)
    (Py.except_Exception (fun _ => Py.ret tt));
  Py.ret (with_status self "Stopping...", Qt.set_buttons ui true false).

(** [closeEvent]; the boolean tells whether the event was accepted. *)
Definition closeEvent (env : Env.t) (ui : Qt.controls) : Py.prog (Qt.controls * bool) :=
  let ui := Qt.set_stop_event ui in
  exec Py.try_except
    (let! scanning := Py.call (Env.is_scanning env) Py.IsScanning in
     exec (if scanning : bool then Py.call (Env.stop_scan env) Py.StopScan
           else Py.ret tt);
     Py.call (Env.disconnect env) Py.Disconnect)
    (Py.except_Exception (fun _ => Py.ret tt));
  Py.ret (ui, true).

End MainWindow.

End Gui.

(** ** Files written through [csv.writer] *)

Module Fs.

(** A cell of a row, before [csv] turns it into text. *)
Inductive cell :=
| CStr (s : string)
| CFloat (q : Q)
| CInt (z : Z).

Definition row := list cell.

Inductive mode := ModeW | ModeA.

(** The rows of every file, and the record of every [open] so far. *)
Record t := {
  files : gmap string (list row);
  opened : list (string * mode)
}.

Definition exists_ (fs : t) (path : string) : bool :=
  match files fs !! path with
  | Some _ => true
  | None => false
  end.

(** [open(path, 'w')] truncates or creates; [open(path, 'a')] keeps what is
    there and creates the file when it is missing. *)
Definition open (path : string) (m : mode) (fs : t) : t :=
  {| files :=
       match m with
       | ModeW => <[path := []]> (files fs)
       | ModeA =>
           match files fs !! path with
           | Some _ => files fs
           | None => <[path := []]> (files fs)
           end
       end;
     opened := opened fs ++ [(path, m)] |}.

Definition writerow (path : string) (r : row) (fs : t) : t :=
  {| files := alter (fun rows => rows ++ [r]) path (files fs);
     opened := opened fs |}.

(** [os.path.expanduser] on a path that starts with a tilde; [home] is the
    home directory without a trailing slash. *)
Definition expanduser (home : string) (path : string) : string :=
  match path with
  | String "~" rest => home +:+ rest
  | _ => path
  end.

End Fs.

(** ** gui_untested_too.py *)

Module GuiToo.

Definition DEFAULT_START_FREQ : Q := 2399.
Definition DEFAULT_END_FREQ : Q := 2485.
Definition DEFAULT_FREQ_STEP : Q := 1 # 2.
Definition DEFAULT_RSSI_MIN : Z := -100.
Definition DEFAULT_RSSI_MAX : Z := -40.
Definition DEFAULT_SCAN_INTERVAL : Q := 5 # 2.

Module SpectrumCanvas.

Record t := {
  start_freq : Q;
  end_freq : Q;
  rssi_min : Z;
  rssi_max : Z;
  freq_step : Q;
  drawn : option (list Q * list Z)
}.

Definition with_drawn (self : t) (d : option (list Q * list Z)) : t :=
  {| start_freq := start_freq self; end_freq := end_freq self;
     rssi_min := rssi_min self; rssi_max := rssi_max self;
     freq_step := freq_step self; drawn := d |}.

Definition init (sf ef : Q) (rmin rmax : Z) (step : Q) : t :=
  {| start_freq := sf; end_freq := ef; rssi_min := rmin; rssi_max := rmax;
     freq_step := step; drawn := None |}.

Definition update_limits (self : t) (sf ef : Q) (rmin rmax : Z) (step : Q) : t :=
  {| start_freq := sf; end_freq := ef; rssi_min := rmin; rssi_max := rmax;
     freq_step := step; drawn := drawn self |}.

Definition plot_freqs (self : t) (rssi_values : list Z) : list Q :=
  Np.linspace (start_freq self) (end_freq self) (length rssi_values).

Definition plot_rssi (self : t) (rssi_values : list Z) : t :=
  match rssi_values with
  | [] => self
  | _ => with_drawn self (Some (plot_freqs self rssi_values, rssi_values))
  end.

(** The frequency array of [plot_rssi] in binary64, as numpy computes it
    from the two floats the canvas holds. *)
Definition plot_freqs_b64 (start_freq end_freq : B64.t) (rssi_values : list Z)
  : list B64.t :=
  B64.linspace start_freq end_freq (length rssi_values).

End SpectrumCanvas.

Module ScannerThread.

Definition callback (tag payload : string) : Py.prog unit :=
  Py.emit (Py.Callback tag payload).

(** [while not self.stop_event.is_set() and pyairview.is_scanning():
    time.sleep(self.interval)] *)
Fixpoint monitor (env : Env.t) (interval : Q) (fuel : nat) : Py.prog unit :=
  match fuel with
  | O => Py.out_of_fuel
  | S fuel' =>
      let! stop := Py.observe (Env.stop_event env) Py.IsSet in
      if stop : bool then Py.ret tt
      else
        let! scanning := Py.call (Env.is_scanning env) Py.IsScanning in
        if scanning : bool then
          exec Py.emit (Py.Sleep interval false);
          monitor env interval fuel'
        else Py.ret tt
  end.

(** [run]. *)
Definition run (env : Env.t) (port : string) (interval : Q) (fuel : nat)
  : Py.prog unit :=
  Py.try_finally
    (Py.try_except
       (let! connected := Py.call (fun t => Env.connect env t port) (Py.Connect port) in
        if negb connected then
          callback "__error__" ("Failed to connect to " +:+ port)
        else
          exec callback "__status__" ("Connected to " +:+ port);
          exec Py.call (Env.start_scan env) Py.StartScan;
          exec monitor env interval fuel;
          let! scanning := Py.call (Env.is_scanning env) Py.IsScanning in
          if scanning : bool then Py.call (Env.stop_scan env) Py.StopScan
          else Py.ret tt)
       (Py.except_Exception (fun msg => callback "__error__" ("Scanner error: " +:+ msg))))
    (exec Py.try_except
       (Py.call (Env.disconnect env) Py.Disconnect)
       (Py.except_Exception (fun _ => Py.ret tt));
     callback "__status__" "Disconnected").

End ScannerThread.

Module MainWindow.

Record t := {
  plot_queue : list Msg.payload;
  start_freq : Q;
  end_freq : Q;
  freq_step : Q;
  rssi_min : Z;
  rssi_max : Z;
  scan_interval : Q;
  logging_enabled : bool;
  latest_data : list Z;
  canvas : SpectrumCanvas.t;
  status_label : string
}.

Definition with_queue (self : t) (q : list Msg.payload) : t :=
  {| plot_queue := q; start_freq := start_freq self; end_freq := end_freq self;
     freq_step := freq_step self; rssi_min := rssi_min self;
     rssi_max := rssi_max self; scan_interval := scan_interval self;
     logging_enabled := logging_enabled self; latest_data := latest_data self;
     canvas := canvas self; status_label := status_label self |}.

Definition with_latest_data (self : t) (data : list Z) : t :=
  {| plot_queue := plot_queue self; start_freq := start_freq self;
     end_freq := end_freq self; freq_step := freq_step self;
     rssi_min := rssi_min self; rssi_max := rssi_max self;
     scan_interval := scan_interval self;
     logging_enabled := logging_enabled self; latest_data := data;
     canvas := canvas self; status_label := status_label self |}.

Definition with_canvas (self : t) (c : SpectrumCanvas.t) : t :=
  {| plot_queue := plot_queue self; start_freq := start_freq self;
     end_freq := end_freq self; freq_step := freq_step self;
     rssi_min := rssi_min self; rssi_max := rssi_max self;
     scan_interval := scan_interval self;
     logging_enabled := logging_enabled self; latest_data := latest_data self;
     canvas := c; status_label := status_label self |}.

Definition with_status (self : t) (text : string) : t :=
  {| plot_queue := plot_queue self; start_freq := start_freq self;
     end_freq := end_freq self; freq_step := freq_step self;
     rssi_min := rssi_min self; rssi_max := rssi_max self;
     scan_interval := scan_interval self;
     logging_enabled := logging_enabled self; latest_data := latest_data self;
     canvas := canvas self; status_label := text |}.

Definition with_logging (self : t) (b : bool) : t :=
  {| plot_queue := plot_queue self; start_freq := start_freq self;
     end_freq := end_freq self; freq_step := freq_step self;
     rssi_min := rssi_min self; rssi_max := rssi_max self;
     scan_interval := scan_interval self;
     logging_enabled := b; latest_data := latest_data self;
     canvas := canvas self; status_label := status_label self |}.

Definition init : t :=
  {| plot_queue := [];
     start_freq := DEFAULT_START_FREQ; end_freq := DEFAULT_END_FREQ;
     freq_step := DEFAULT_FREQ_STEP;
     rssi_min := DEFAULT_RSSI_MIN; rssi_max := DEFAULT_RSSI_MAX;
     scan_interval := DEFAULT_SCAN_INTERVAL;
     logging_enabled := false;
     latest_data := [];
     canvas := SpectrumCanvas.init DEFAULT_START_FREQ DEFAULT_END_FREQ
                 DEFAULT_RSSI_MIN DEFAULT_RSSI_MAX DEFAULT_FREQ_STEP;
     status_label := "Ready" |}.


Definition _scanner_callback (self : t) (tag : string) (data : Msg.payload) : t :=
  if String.eqb tag "rssi" then with_queue self (plot_queue self ++ [data])
  else if String.eqb tag "__status__" then with_status self (Msg.str data)
  else if String.eqb tag "__error__" then
    with_status self ("ERROR: " +:+ Msg.str data)
  else self.

Definition export_header : Fs.row :=
  [Fs.CStr "Frequency (MHz)"; Fs.CStr "RSSI (dBm)"].

Definition log_header : Fs.row :=
  [Fs.CStr "Timestamp"; Fs.CStr "Frequency (MHz)"; Fs.CStr "RSSI (dBm)"].

Definition log_path (home : string) : string :=
  Fs.expanduser home "~/rssi_log.csv".

(** [_export_csv]; [path] is what the save dialog returned, the empty
    string when it was cancelled. *)
Definition _export_csv (path : string) (self : t) (fs : Fs.t) : t * Fs.t :=
  match latest_data self with
  | [] => (with_status self "No data to export", fs)
  | _ =>
      if String.eqb path "" then (self, fs)
      else
        let freqs := Np.linspace (start_freq self) (end_freq self)
                       (length (latest_data self)) in
        let fs := Fs.open path Fs.ModeW fs in
        let fs := Fs.writerow path export_header fs in
        let fs :=
          fold_left (fun fs '(fr, val) =>
                       Fs.writerow path [Fs.CFloat fr; Fs.CInt val] fs)
                    (zip freqs (latest_data self)) fs in
        (with_status self ("Exported to " +:+ path), fs)
  end.

(** [_log_data]; [timestamp] is the formatted [datetime.now()]. *)
Definition _log_data (home timestamp : string) (self : t) (data : list Z)
    (fs : Fs.t) : Fs.t :=
  let freqs := Np.linspace (start_freq self) (end_freq self) (length data) in
  let log_path := log_path home in
  let new_file := negb (Fs.exists_ fs log_path) in
  let fs := Fs.open log_path Fs.ModeA fs in
  let fs := if new_file then Fs.writerow log_path log_header fs else fs in
  fold_left (fun fs '(fr, val) =>
               Fs.writerow log_path [Fs.CStr timestamp; Fs.CFloat fr; Fs.CInt val] fs)
            (zip freqs data) fs.

(** The two writers with [np.linspace] as a parameter, so that what they
    write can be told whatever the samples are, rounded or not;
    [_export_csv] and [_log_data] above are these with [Np.linspace]. *)
Definition _export_csv_with (linspace : Q -> Q -> nat -> list Q) (path : string)
    (self : t) (fs : Fs.t) : t * Fs.t :=
  match latest_data self with
  | [] => (with_status self "No data to export", fs)
  | _ =>
      if String.eqb path "" then (self, fs)
      else
        let freqs := linspace (start_freq self) (end_freq self)
                       (length (latest_data self)) in
        let fs := Fs.open path Fs.ModeW fs in
        let fs := Fs.writerow path export_header fs in
        let fs :=
          fold_left (fun fs '(fr, val) =>
                       Fs.writerow path [Fs.CFloat fr; Fs.CInt val] fs)
                    (zip freqs (latest_data self)) fs in
        (with_status self ("Exported to " +:+ path), fs)
  end.

Definition _log_data_with (linspace : Q -> Q -> nat -> list Q)
    (home timestamp : string) (self : t) (data : list Z) (fs : Fs.t) : Fs.t :=
  let freqs := linspace (start_freq self) (end_freq self) (length data) in
  let log_path := log_path home in
  let new_file := negb (Fs.exists_ fs log_path) in
  let fs := Fs.open log_path Fs.ModeA fs in
  let fs := if new_file then Fs.writerow log_path log_header fs else fs in
  fold_left (fun fs '(fr, val) =>
               Fs.writerow log_path [Fs.CStr timestamp; Fs.CFloat fr; Fs.CInt val] fs)
            (zip freqs data) fs.

(** What the body of the drain loop does with one item taken off the queue. *)
Definition handle (home timestamp : string) (self : t) (fs : Fs.t)
    (data : Msg.payload) : t * Fs.t :=
  match data with
  | Msg.PList ((_ :: _) as l) =>
      let self := with_latest_data self l in
      let self := with_canvas self (SpectrumCanvas.plot_rssi (canvas self) l) in
      if logging_enabled self then (self, _log_data home timestamp self l fs)
      else (self, fs)
  | _ => (self, fs)
  end.

(** The [while True] loop of [_update_plot] on a queue holding [q];
    [clock k] is the formatted time when the [k]-th item is handled. *)
Fixpoint drain (home : string) (clock : nat -> string) (k : nat)
    (q : list Msg.payload) (self : t) (fs : Fs.t) : t * Fs.t :=
  match q with
  | [] => (self, fs)
  | data :: q' =>
      let '(self, fs) := handle home (clock k) (with_queue self q') fs data in
      drain home clock (S k) q' self fs
  end.

Definition _update_plot (home : string) (clock : nat -> string) (self : t)
    (fs : Fs.t) : t * Fs.t :=
  drain home clock 0 (plot_queue self) self fs.

(** [_refresh_ports]: the items of the port box afterwards; [acm] and
    [usb] are what the two [glob.glob] calls return. *)
Definition _refresh_ports (acm usb : list string) : list string :=
  let ports := Py.sorted_set (acm ++ usb) in
  match ports with
  | [] => ["/dev/ttyACM0"]
  | _ => ports
  end.


(** [_start_scan]; [port] is the current text of the port box. The shared
    flag is cleared and a new thread is started on [port] with the scan
    interval of the window, the third part of the result. *)
Definition _start_scan (port : string) (self : t) (ui : Qt.controls)
  : t * Qt.controls * (string * Q) :=
  let ui := Qt.clear_stop_event ui in
  (with_status self "Scanning...", Qt.set_buttons ui false true,
   (port, scan_interval self)).

(** [_stop_scan], run by the GUI thread. *)
Definition _stop_scan (env : Env.t) (self : t) (ui : Qt.controls)
  : Py.prog (t * Qt.controls) :=
  let ui := Qt.set_stop_event ui in
  exec Py.try_except
    (let! scanning := Py.call (Env.is_scanning env) Py.IsScanning in
     if scanning : bool then Py.call (Env.stop_scan env) Py.StopScan
     else Py.ret tt)
    (Py.except_Exception (fun _ => Py.ret tt));
  Py.ret (with_status self "Stopped", Qt.set_buttons ui true false).

(** [closeEvent]; the boolean tells whether the event was accepted. *)
Definition closeEvent (env : Env.t) (ui : Qt.controls) : Py.prog (Qt.controls * bool) :=
  let ui := Qt.set_stop_event ui in
  exec Py.try_except
    (let! scanning := Py.call (Env.is_scanning env) Py.IsScanning in
     exec (if scanning : bool then Py.call (Env.stop_scan env) Py.StopScan
           else Py.ret tt);
     Py.call (Env.disconnect env) Py.Disconnect)
    (Py.except_Exception (fun _ => Py.ret tt));
  Py.ret (ui, true).

End MainWindow.

End GuiToo.

(** * Properties *)

(** ** Frequency axes *)

(** [fs] has its [i]-th sample at [a + i * d]. *)
Definition affine_axis (a d : Q) (fs : list Q) : Prop :=
  forall (i : nat) (x : Q), fs !! i = Some x ->
    (x == a + inject_Z (Z.of_nat i) * d)%Q.

(** [fs] starts at [lo] and ends at [hi]. *)
Definition spans (lo hi : Q) (fs : list Q) : Prop :=
  exists x y, head fs = Some x /\ last fs = Some y /\ (x == lo)%Q /\ (y == hi)%Q.


(** A step-based axis of [n] points: the [i]-th at [a + i * d], hence the
    first at [a] and the last at [a + (n - 1) * d]. *)
Definition step_axis (a d : Q) (n : nat) (fs : list Q) : Prop :=
  length fs = n /\ affine_axis a d fs
  /\ spans a (a + inject_Z (Z.of_nat (n - 1)) * d)%Q fs.



(** ** CSV rows *)



Definition export_row (fr : Q) (val : Z) : Fs.row := [Fs.CFloat fr; Fs.CInt val].

Definition log_row (timestamp : string) (fr : Q) (val : Z) : Fs.row :=
  [Fs.CStr timestamp; Fs.CFloat fr; Fs.CInt val].

(** Between [fs] and [fs'] the log file was opened in append mode only, and
    what it held is still there, at the front of what it holds now. *)
Definition log_append_only (home : string) (fs fs' : Fs.t) : Prop :=
  (forall m, (GuiToo.MainWindow.log_path home, m)
               ∈ drop (length (Fs.opened fs)) (Fs.opened fs') -> m = Fs.ModeA)
  /\ forall old, Fs.files fs !! GuiToo.MainWindow.log_path home = Some old ->
       exists new, Fs.files fs' !! GuiToo.MainWindow.log_path home = Some new
                   /\ old `prefix_of` new.

(** A run of logging calls, each with its time stamp, window and sweep. *)
Definition log_all (home : string)
    (calls : list (string * GuiToo.MainWindow.t * list Z)) (fs : Fs.t) : Fs.t :=
  fold_left (fun fs '(timestamp, self, data) =>
               GuiToo.MainWindow._log_data home timestamp self data fs)
            calls fs.

(** ** The log line *)

(** The text is ASCII: every character is below 128. On such text [\d]
    is a digit from 0 to 9 and [int] reads what [Py.int] reads; beyond it
    Python knows further digits and white space, of which the embedding
    says nothing. *)
Definition ascii_text (s : string) : Prop :=
  forallb (fun c => (N_of_ascii c <? 128)%N) (list_ascii_of_string s) = true.

(** [to_int] raises nothing but an [Exception], as [int] does on a [str]
    (a [ValueError]). *)
Definition raises_only_exceptions {text : Type} (to_int : text -> Py.outcome Z)
  : Prop :=
  forall s e, to_int s = Py.Raise e -> exists msg, e = Py.Exception msg.

(** What a pattern means: the text [w] matches [p], and the group, which
    held [g] before, holds [g'] after. *)
Fixpoint sem (p : list Re.item) (w : list ascii) (g g' : list ascii) : Prop :=
  match p with
  | [] => w = [] /\ g' = g
  | Re.Chr c :: p' => exists w', w = c :: w' /\ sem p' w' g g'
  | Re.Rep k at_least capture :: p' =>
      exists u w',
        w = u ++ w' /\ (at_least <= length u)%nat
        /\ Forall (fun c => Re.in_class k c = true) u
        /\ sem p' w' (if capture then u else g) g'
  end.

(** The text [s] holds a log line with [g] between the brackets: the
    words, one or more digits, the words, and [g], free of line feeds,
    between an opening and a closing bracket. *)
Definition log_line_in (s g : list ascii) : Prop :=
  exists before digits after,
    s = before ++ list_ascii_of_string "Received " ++ digits
        ++ list_ascii_of_string " RSSI level readings: [" ++ g
        ++ list_ascii_of_string "]" ++ after
    /\ digits <> []
    /\ Forall (fun c => Py.is_digit c = true) digits
    /\ Forall (fun c => c <> ascii_of_N 10) g.

(** What [parse_rssi_input] finds between the brackets, if anything. *)
Definition bracket_content (input_text : string) : option (list ascii) :=
  Re.search Console.pattern (list_ascii_of_string input_text).

(** The readings [int] makes of the comma-separated pieces of [g]. *)
Definition readings (limit : nat) (g : list ascii) : Py.outcome (list Z) :=
  Py.list_map (Py.int limit) (Py.split "," g).

(** The two cases C3 states: the parser either returns the readings of
    the bracket content of a log line, or finds no log line and returns the
    empty list after printing that no valid data was found. *)
Definition extracts_or_reports_absent (limit : nat) (input_text : string) : Prop :=
  (exists g zs,
     bracket_content input_text = Some g
     /\ readings limit g = Py.Return zs
     /\ Console.parse_rssi_input limit input_text [] = Some (Py.Return zs, []))
  \/ (bracket_content input_text = None
      /\ Console.parse_rssi_input limit input_text []
         = Some (Py.Return [], [Py.Stdout Console.no_valid_data])).

(** ** Scanner traces *)

Definition is_sleep (e : Py.event) : bool :=
  match e with Py.Sleep _ _ => true | _ => false end.

Definition is_connect (e : Py.event) : bool :=
  match e with Py.Connect _ _ => true | _ => false end.

Definition is_start_scan (e : Py.event) : bool :=
  match e with Py.StartScan _ => true | _ => false end.

Definition is_disconnect (e : Py.event) : bool :=
  match e with Py.Disconnect _ => true | _ => false end.

Definition count_events (p : Py.event -> bool) (tr : list Py.event) : nat :=
  length (filter (fun e => p e = true) tr).

(** The sleeps that begin at time [t] or later. *)
Definition sleeps_from (t : nat) (tr : list Py.event) : nat :=
  count_events is_sleep (drop t tr).

(** The loop of a scanner thread tests the stop flag at times 3, 6, 9 and
    so on, as long as it runs: [next_test t] is the first of these times
    that is not before [t]. *)
Definition next_test (t : nat) : nat := 3 * Nat.max 1 ((t + 2) / 3).

(** A stop requested at time [t] that still stands when the loop next
    looks at the flag: the flag is set at time [t], and it is set at the
    time of the next test. *)
Definition stop_requested_at (env : Env.t) (t : nat) : Prop :=
  Env.stop_event env t = true /\ Env.stop_event env (next_test t) = true.

(** The message of a vendor call that raised inside the [try] body. *)
Definition failed_in_try (e : Py.event) : option string :=
  match e with
  | Py.Connect _ (Py.Fail msg) => Some msg
  | Py.StartScan (Py.Fail msg) => Some msg
  | Py.IsScanning (Py.Fail msg) => Some msg
  | Py.StopScan (Py.Fail msg) => Some msg
  | _ => None
  end.

(** A failure of the scan lifecycle: a connection refused, or any vendor
    call that raised, [disconnect] included. *)
Definition is_failure (e : Py.event) : Prop :=
  match e with
  | Py.Connect _ (Py.Ok false) => True
  | Py.Disconnect (Py.Fail _) => True
  | _ => is_Some (failed_in_try e)
  end.

(** A failure met inside the [try] body: all of the above but a failed
    [disconnect]. *)
Definition try_failure (e : Py.event) : Prop :=
  match e with
  | Py.Connect _ (Py.Ok false) => True
  | _ => is_Some (failed_in_try e)
  end.

(** Every event of [tr] that is a [failure] is followed by an error handed
    to the window, which shows it as its status. With [is_failure] this is
    C6 as it is stated, for a thread of a GUI variant. *)
Definition failures_surfaced (failure : Py.event -> Prop) (tr : list Py.event)
  : Prop :=
  forall (i : nat) (e : Py.event), tr !! i = Some e -> failure e ->
    exists (j : nat) (text : string),
      (i < j)%nat /\ tr !! j = Some (Py.Callback "__error__" text).

(** The end of every finished [run]: the disconnect attempt, then the
    status that reports the disconnection. *)
Definition epilogue (r : Py.result unit) : list Py.event :=
  [Py.Disconnect r; Py.Callback "__status__" "Disconnected"].

(** A finished [run] of a GUI scanner thread stopped at time [T]: it
    returned, after the epilogue, and began at most one sleep from [T] on,
    none if [T] precedes the first test of the flag. *)
Definition stops_cleanly (T : nat) (finished : option (Py.outcome unit * Py.trace))
  : Prop :=
  exists pre r,
    finished = Some (Py.Return tt, pre ++ epilogue r)
    /\ count_events is_disconnect pre = 0%nat
    /\ (sleeps_from T (pre ++ epilogue r) <= 1)%nat
    /\ ((T <= 3)%nat -> sleeps_from T (pre ++ epilogue r) = 0%nat).

(** C2 as it is stated: a flag found set at time [T] is enough for the
    thread of either GUI variant to finish, with at most one more sleep. *)
Definition stop_ends_scan (env : Env.t) (port : string) (interval : Q) (T : nat)
  : Prop :=
  Env.stop_event env T = true ->
  exists fuel,
    stops_cleanly T (Gui.ScannerThread.run env port fuel [])
    /\ stops_cleanly T (GuiToo.ScannerThread.run env port interval fuel []).

(** An environment in which every call succeeds, the device scans until
    told to stop, and the stop flag is set from time [T] on. *)
Definition calm_env (T : nat) : Env.t :=
  {| Env.connect := fun _ _ => Py.Ok true;
     Env.start_scan := fun _ => Py.Ok tt;
     Env.is_scanning := fun _ => Py.Ok true;
     Env.stop_scan := fun _ => Py.Ok tt;
     Env.disconnect := fun _ => Py.Ok tt;
     Env.stop_event := fun t => (T <=? t)%nat;
     Env.interrupt := fun _ => false |}.

(** The same, with a [disconnect] that raises and a device that has
    stopped scanning by itself. *)
Definition stuck_port_env : Env.t :=
  {| Env.connect := fun _ _ => Py.Ok true;
     Env.start_scan := fun _ => Py.Ok tt;
     Env.is_scanning := fun _ => Py.Ok false;
     Env.stop_scan := fun _ => Py.Ok tt;
     Env.disconnect := fun _ => Py.Fail "port busy";
     Env.stop_event := fun _ => false;
     Env.interrupt := fun _ => false |}.

(** Stop pressed as the thread begins its first sleep, at time 5, and
    Start pressed again before the sleep is over: the flag that the sleeping
    thread tests next, at time 6, is clear again, and the device scans for
    the thread started since. *)
Definition restart_env : Env.t :=
  {| Env.connect := fun _ _ => Py.Ok true;
     Env.start_scan := fun _ => Py.Ok tt;
     Env.is_scanning := fun _ => Py.Ok true;
     Env.stop_scan := fun _ => Py.Ok tt;
     Env.disconnect := fun _ => Py.Ok tt;
     Env.stop_event := fun t => (t =? 5)%nat;
     Env.interrupt := fun _ => false |}.

(** An event of the monitoring loop of a GUI variant. *)
Definition monitor_event (e : Py.event) : Prop :=
  match e with
  | Py.IsSet _ | Py.IsScanning _ | Py.Sleep _ false => True
  | _ => False
  end.

(** The [try] and [except] part of the [run] of both GUI variants, with
    the text of the status sent after a connection and the polling interval
    as parameters. *)
Definition attempt (env : Env.t) (port connected_text : string) (interval : Q)
    (fuel : nat) : Py.prog unit :=
  Py.try_except
    (let! connected := Py.call (fun t => Env.connect env t port) (Py.Connect port) in
     if negb connected then
       GuiToo.ScannerThread.callback "__error__" ("Failed to connect to " +:+ port)
     else
       exec GuiToo.ScannerThread.callback "__status__" connected_text;
       exec Py.call (Env.start_scan env) Py.StartScan;
       exec GuiToo.ScannerThread.monitor env interval fuel;
       let! scanning := Py.call (Env.is_scanning env) Py.IsScanning in
       if scanning : bool then Py.call (Env.stop_scan env) Py.StopScan
       else Py.ret tt)
    (Py.except_Exception (fun msg =>
       GuiToo.ScannerThread.callback "__error__" ("Scanner error: " +:+ msg))).

(** The [finally] part. *)
Definition cleanup (env : Env.t) : Py.prog unit :=
  exec Py.try_except
    (Py.call (Env.disconnect env) Py.Disconnect)
    (Py.except_Exception (fun _ => Py.ret tt));
  GuiToo.ScannerThread.callback "__status__" "Disconnected".

Definition run_with (env : Env.t) (port connected_text : string) (interval : Q)
    (fuel : nat) : Py.prog unit :=
  Py.try_finally (attempt env port connected_text interval fuel) (cleanup env).

Definition scanner_error (msg : string) : Py.event :=
  Py.Callback "__error__" ("Scanner error: " +:+ msg).

(** What follows the monitoring loop in the trace of [attempt], given how
    the loop ended. *)
Definition scan_tail (o : Py.outcome unit) (tail : list Py.event) : Prop :=
  match o with
  | Py.Return _ =>
      tail = [Py.IsScanning (Py.Ok false)]
      \/ tail = [Py.IsScanning (Py.Ok true); Py.StopScan (Py.Ok tt)]
      \/ (exists msg, tail = [Py.IsScanning (Py.Ok true); Py.StopScan (Py.Fail msg);
                              scanner_error msg])
      \/ (exists msg, tail = [Py.IsScanning (Py.Fail msg); scanner_error msg])
  | Py.Raise (Py.Exception msg) => tail = [scanner_error msg]
  | Py.Raise Py.KeyboardInterrupt => False
  end.

(** The traces [attempt] can leave. *)
Definition attempt_trace (env : Env.t) (port connected_text : string)
    (interval : Q) (fuel : nat) (tr : list Py.event) : Prop :=
  (exists msg, tr = [Py.Connect port (Py.Fail msg); scanner_error msg])
  \/ tr = [Py.Connect port (Py.Ok false);
          Py.Callback "__error__" ("Failed to connect to " +:+ port)]
  \/ (exists msg,
        tr = [Py.Connect port (Py.Ok true); Py.Callback "__status__" connected_text;
              Py.StartScan (Py.Fail msg); scanner_error msg])
  \/ (exists ext tail o,
        tr = [Py.Connect port (Py.Ok true); Py.Callback "__status__" connected_text;
              Py.StartScan (Py.Ok tt)] ++ ext ++ tail
        /\ GuiToo.ScannerThread.monitor env interval fuel
             [Py.Connect port (Py.Ok true); Py.Callback "__status__" connected_text;
              Py.StartScan (Py.Ok tt)]
           = Some (o, [Py.Connect port (Py.Ok true);
                       Py.Callback "__status__" connected_text;
                       Py.StartScan (Py.Ok tt)] ++ ext)
        /\ Forall monitor_event ext
        /\ (forall msg, Py.IsScanning (Py.Fail msg) ∈ ext ->
               o = Py.Raise (Py.Exception msg))
        /\ scan_tail o tail).

(** *** The console variant *)

Definition scan_error (msg : string) : Py.event :=
  Py.Stdout ("Error during scan: " +:+ msg).

(** The [try] and [except] part of [start_scan]. *)
Definition console_attempt (env : Env.t) (fuel : nat) : Py.prog unit :=
  Py.try_except
    (let! connected :=
       Py.call (fun t => Env.connect env t Console.port) (Py.Connect Console.port) in
     if negb connected then
       Py.print "Failed to connect to the device."
     else
       exec Py.print "Starting RSSI scan...";
       exec Py.call (Env.start_scan env) Py.StartScan;
       exec Py.emit Py.StartPlotThread;
       exec Console.monitor env fuel;
       Py.call (Env.stop_scan env) Py.StopScan)
    (fun e =>
       match e with
       | Py.KeyboardInterrupt => Some (Py.print "Scan interrupted by user.")
       | Py.Exception msg => Some (Py.print ("Error during scan: " +:+ msg))
       end).

(** The [finally] part of [start_scan]. *)
Definition console_cleanup (env : Env.t) : Py.prog unit :=
  exec Py.try_except
    (exec Py.call (Env.disconnect env) Py.Disconnect;
     Py.print "Disconnected from Airview device.")
    (Py.except_Exception (fun msg => Py.print ("Error during cleanup: " +:+ msg)));
  exec Py.emit Py.PltIoff;
  Py.emit Py.PltShow.

(** The end of every finished [start_scan]: the disconnect attempt, the
    line that tells how it went, and the plot window. *)
Definition console_epilogue (r : Py.result unit) : list Py.event :=
  [Py.Disconnect r;
   Py.Stdout match r with
             | Py.Ok _ => "Disconnected from Airview device."
             | Py.Fail msg => "Error during cleanup: " +:+ msg
             end;
   Py.PltIoff; Py.PltShow].

(** An event of the monitoring loop of the console variant. *)
Definition console_monitor_event (e : Py.event) : Prop :=
  match e with
  | Py.IsScanning _ | Py.Sleep _ _ => True
  | _ => False
  end.

Definition console_scan_tail (o : Py.outcome unit) (tail : list Py.event) : Prop :=
  match o with
  | Py.Return _ =>
      tail = [Py.StopScan (Py.Ok tt)]
      \/ (exists msg, tail = [Py.StopScan (Py.Fail msg); scan_error msg])
  | Py.Raise (Py.Exception msg) => tail = [scan_error msg]
  | Py.Raise Py.KeyboardInterrupt => tail = [Py.Stdout "Scan interrupted by user."]
  end.

(** The traces [console_attempt] can leave. *)
Definition console_attempt_trace (tr : list Py.event) : Prop :=
  (exists msg, tr = [Py.Connect Console.port (Py.Fail msg); scan_error msg])
  \/ tr = [Py.Connect Console.port (Py.Ok false);
          Py.Stdout "Failed to connect to the device."]
  \/ (exists msg,
        tr = [Py.Connect Console.port (Py.Ok true);
              Py.Stdout "Starting RSSI scan...";
              Py.StartScan (Py.Fail msg); scan_error msg])
  \/ (exists ext tail o,
        tr = [Py.Connect Console.port (Py.Ok true);
              Py.Stdout "Starting RSSI scan...";
              Py.StartScan (Py.Ok tt); Py.StartPlotThread] ++ ext ++ tail
        /\ Forall console_monitor_event ext
        /\ (forall msg, Py.IsScanning (Py.Fail msg) ∈ ext ->
               o = Py.Raise (Py.Exception msg))
        /\ (forall secs, Py.Sleep secs true ∈ ext ->
               o = Py.Raise Py.KeyboardInterrupt)
        /\ console_scan_tail o tail).

(** A scanner thread of a GUI variant that has not finished within [fuel]
    turns of its loop has met no failure: it is connected, the scan was
    started, and at every turn so far the flag was clear and the device
    was scanning. *)
Definition gui_still_scanning (env : Env.t) (port : string) (fuel : nat) : Prop :=
  Env.connect env 0 port = Py.Ok true
  /\ Env.start_scan env 2 = Py.Ok tt
  /\ forall k, (k < fuel)%nat ->
       Env.stop_event env (3 + 3 * k) = false
       /\ Env.is_scanning env (4 + 3 * k) = Py.Ok true.

(** The same for the console variant, which tests no flag and whose
    sleeps were not interrupted. *)
Definition console_still_scanning (env : Env.t) (fuel : nat) : Prop :=
  Env.connect env 0 Console.port = Py.Ok true
  /\ Env.start_scan env 2 = Py.Ok tt
  /\ forall k, (k < fuel)%nat ->
       Env.is_scanning env (4 + 2 * k) = Py.Ok true
       /\ Env.interrupt env (5 + 2 * k) = false.

(** What a finished scanner thread of a GUI variant leaves, [o] and [tr]:
    it returned; every failure met in the [try] body is followed by an
    error handed to the window, with the text of the failure; each of
    [connect], [start_scan] and [disconnect] was called at most once; and
    the trace ends with the disconnect attempt and the final status,
    whatever the attempt gave. *)
Definition gui_reported (port : string) (o : Py.outcome unit) (tr : list Py.event)
  : Prop :=
  o = Py.Return tt
  /\ failures_surfaced try_failure tr
  /\ exists pre r,
       tr = pre ++ epilogue r
       /\ (forall p, Py.Connect p (Py.Ok false) ∈ pre ->
              last pre = Some (Py.Callback "__error__"
                                 ("Failed to connect to " +:+ port)))
       /\ (forall e msg, e ∈ pre -> failed_in_try e = Some msg ->
              last pre = Some (scanner_error msg))
       /\ count_events is_connect pre = 1%nat
       /\ (count_events is_start_scan pre <= 1)%nat
       /\ count_events is_disconnect pre = 0%nat.

(** The same for the console variant, where the failures are printed, the
    failure of [disconnect] included, and Ctrl-C is reported too. *)
Definition console_reported (o : Py.outcome unit) (tr : list Py.event) : Prop :=
  o = Py.Return tt
  /\ exists pre r,
       tr = pre ++ console_epilogue r
       /\ (forall p, Py.Connect p (Py.Ok false) ∈ pre ->
              last pre = Some (Py.Stdout "Failed to connect to the device."))
       /\ (forall e msg, e ∈ pre -> failed_in_try e = Some msg ->
              last pre = Some (scan_error msg))
       /\ (forall secs, Py.Sleep secs true ∈ pre ->
              last pre = Some (Py.Stdout "Scan interrupted by user."))
       /\ count_events is_connect pre = 1%nat
       /\ (count_events is_start_scan pre <= 1)%nat
       /\ count_events is_disconnect pre = 0%nat.

(** What the scanner thread of the basic GUI leaves in [stuck_port_env]. *)
Definition stuck_port_trace : list Py.event :=
  [Py.Connect "/dev/ttyACM0" (Py.Ok true);
   Py.Callback "__status__" "Connected to /dev/ttyACM0 — starting scan";
   Py.StartScan (Py.Ok tt);
   Py.IsSet false; Py.IsScanning (Py.Ok false);
   Py.IsScanning (Py.Ok false);
   Py.Disconnect (Py.Fail "port busy");
   Py.Callback "__status__" "Disconnected"].

(** What [start_scan] of the console variant leaves there. *)
Definition stuck_port_console_trace : list Py.event :=
  [Py.Connect "/dev/ttyACM0" (Py.Ok true);
   Py.Stdout "Starting RSSI scan...";
   Py.StartScan (Py.Ok tt); Py.StartPlotThread;
   Py.IsScanning (Py.Ok false);
   Py.StopScan (Py.Ok tt);
   Py.Disconnect (Py.Fail "port busy");
   Py.Stdout "Error during cleanup: port busy";
   Py.PltIoff; Py.PltShow].

(** ** Queues *)

(** The last non-empty sweep among the items of a queue, oldest first. *)
Fixpoint last_sweep (q : list Msg.payload) : option (list Z) :=
  match q with
  | [] => None
  | data :: q' =>
      match last_sweep q' with
      | Some l => Some l
      | None =>
          match data with
          | Msg.PList ((_ :: _) as l) => Some l
          | _ => None
          end
      end
  end.

(** The basic GUI's window once its queue [q] has been drained: the queue
    is empty and the chart and the status line show the last non-empty
    sweep, if there was one. *)
Definition gui_after_drain (self : Gui.MainWindow.t) (q : list Msg.payload)
  : Gui.MainWindow.t :=
  match last_sweep q with
  | Some l =>
      Gui.MainWindow.with_status
        (Gui.MainWindow.with_canvas (Gui.MainWindow.with_queue self [])
           (Gui.SpectrumCanvas.plot_rssi (Gui.MainWindow.canvas self) l))
        ("Last update: " +:+ pretty (length l) +:+ " points")
  | None => Gui.MainWindow.with_queue self []
  end.

(** The extended GUI's window once its queue [q] has been drained: the
    queue is empty, and [latest_data] and the chart hold the last non-empty
    sweep, if there was one. *)
Definition guitoo_after_drain (self : GuiToo.MainWindow.t) (q : list Msg.payload)
  : GuiToo.MainWindow.t :=
  match last_sweep q with
  | Some l =>
      GuiToo.MainWindow.with_canvas
        (GuiToo.MainWindow.with_latest_data (GuiToo.MainWindow.with_queue self []) l)
        (GuiToo.SpectrumCanvas.plot_rssi (GuiToo.MainWindow.canvas self) l)
  | None => GuiToo.MainWindow.with_queue self []
  end.

(** The scanner thread delivers a batch of sweeps to the extended GUI. *)
Definition deliver (self : GuiToo.MainWindow.t) (batch : list Msg.payload)
  : GuiToo.MainWindow.t :=
  fold_left (fun self data => GuiToo.MainWindow._scanner_callback self "rssi" data)
            batch self.

(** Timer ticks of the extended GUI: before each one a batch arrives. *)
Fixpoint ticks (home : string) (clock : nat -> string)
    (batches : list (list Msg.payload)) (self : GuiToo.MainWindow.t) (fs : Fs.t)
  : GuiToo.MainWindow.t * Fs.t :=
  match batches with
  | [] => (self, fs)
  | batch :: batches' =>
      let '(self, fs) :=
        GuiToo.MainWindow._update_plot home clock (deliver self batch) fs in
      ticks home clock batches' self fs
  end.

(** A state of the console's plotting thread with [q] waiting in the
    queue. *)
Definition console_waiting (q : list (list Z)) : Console.plot_state :=
  {| Console.plot_data_queue := q; Console.axes := None; Console.pauses := 0 |}.

(** ** Sample data *)

Definition sample_sweep : list Z := [-50; -60]%Z.

Definition sample_window : GuiToo.MainWindow.t :=
  GuiToo.MainWindow.with_latest_data GuiToo.MainWindow.init sample_sweep.

Definition empty_disk : Fs.t := {| Fs.files := ∅; Fs.opened := [] |}.

(** A disk on which a log of one sweep of one reading exists. *)
Definition disk_with_log : Fs.t :=
  {| Fs.files :=
       {[ "/home/u/rssi_log.csv" :=
            [GuiToo.MainWindow.log_header;
             [Fs.CStr "2024-01-01 00:00:00"; Fs.CFloat 2399; Fs.CInt (-50)]] ]};
     Fs.opened := [] |}.

(** An environment in which the device is there but refuses to start a
    scan. *)
Definition no_scan_env : Env.t :=
  {| Env.connect := fun _ _ => Py.Ok true;
     Env.start_scan := fun _ => Py.Fail "no device";
     Env.is_scanning := fun _ => Py.Ok false;
     Env.stop_scan := fun _ => Py.Ok tt;
     Env.disconnect := fun _ => Py.Ok tt;
     Env.stop_event := fun _ => false;
     Env.interrupt := fun _ => false |}.

(** What the scanner thread of a GUI variant leaves there, given the text
    of its first status. *)
Definition no_scan_trace (connected_text : string) : list Py.event :=
  [Py.Connect "/dev/ttyACM0" (Py.Ok true);
   Py.Callback "__status__" connected_text;
   Py.StartScan (Py.Fail "no device");
   Py.Callback "__error__" "Scanner error: no device";
   Py.Disconnect (Py.Ok tt);
   Py.Callback "__status__" "Disconnected"].

(** An environment in which the port was closed behind the back of the
    program: the device cannot even be asked whether it scans. *)
Definition dead_port_env : Env.t :=
  {| Env.connect := fun _ _ => Py.Ok true;
     Env.start_scan := fun _ => Py.Ok tt;
     Env.is_scanning := fun _ => Py.Fail "port closed";
     Env.stop_scan := fun _ => Py.Ok tt;
     Env.disconnect := fun _ => Py.Ok tt;
     Env.stop_event := fun _ => false;
     Env.interrupt := fun _ => false |}.

(** ** Sessions *)

(** The vendor's reader thread hands a run of sweeps to the console's
    [scan_callback], one after the other. *)
Definition console_deliver (sweeps : list (list Z)) (st : Console.plot_state)
  : Console.plot_state :=
  fold_left (fun st l => Console.scan_callback l st) sweeps st.

(** A frequency lies on the visible part of the x axis. *)
Definition within (lo hi : Q) (f : Q) : Prop := (lo <= f)%Q /\ (f <= hi)%Q.

(** What can happen to the window of the basic GUI: a spin box changes
    (the five values are those of the boxes afterwards), the scanner thread
    calls back, the timer ticks. *)
Inductive gui_op :=
| GuiLimits (sf ef step : Q) (rmin rmax : Z)
| GuiCallback (tag : string) (payload : Msg.payload)
| GuiTick.

Definition gui_step (w : Gui.MainWindow.t) (op : gui_op) : Gui.MainWindow.t :=
  match op with
  | GuiLimits sf ef step rmin rmax =>
      Gui.MainWindow._update_limits_from_ui sf ef step rmin rmax w
  | GuiCallback tag payload =>
      Gui.MainWindow._scanner_callback_from_thread w tag payload
  | GuiTick => Gui.MainWindow._process_plot_queue w
  end.

Definition gui_session (ops : list gui_op) : Gui.MainWindow.t :=
  fold_left gui_step ops Gui.MainWindow.init.

(** The limits of a canvas are in order. *)
Definition gui_limits_valid (c : Gui.SpectrumCanvas.t) : Prop :=
  (Gui.SpectrumCanvas.start_freq c < Gui.SpectrumCanvas.end_freq c)%Q
  /\ (Gui.SpectrumCanvas.rssi_min c < Gui.SpectrumCanvas.rssi_max c)%Z.





(** The window of the basic GUI receives, in order, the messages a scanner
    thread sent while it left the trace [tr]. *)
Definition gui_receive (w : Gui.MainWindow.t) (tr : list Py.event)
  : Gui.MainWindow.t :=
  fold_left (fun w e =>
               match e with
               | Py.Callback tag text =>
                   Gui.MainWindow._scanner_callback_from_thread w tag (Msg.PStr text)
               | _ => w
               end) tr w.

(** The same for the extended GUI. *)
Definition guitoo_receive (w : GuiToo.MainWindow.t) (tr : list Py.event)
  : GuiToo.MainWindow.t :=
  fold_left (fun w e =>
               match e with
               | Py.Callback tag text =>
                   GuiToo.MainWindow._scanner_callback w tag (Msg.PStr text)
               | _ => w
               end) tr w.

(** What the GUI thread can leave in its trace when it asks the device to
    stop: the question, and the request when the answer was yes. *)
Definition stop_request (tail : list Py.event) : Prop :=
  (exists msg, tail = [Py.IsScanning (Py.Fail msg)])
  \/ tail = [Py.IsScanning (Py.Ok false)]
  \/ exists r, tail = [Py.IsScanning (Py.Ok true); Py.StopScan r].


(** ** Proof automation *)

(** Splits a hypothesis of membership in an explicit trace into its cases
    and closes those that are absurd. *)
Ltac in_trace :=
  repeat match goal with
         | H : _ ∈ _ ++ _ |- _ => apply elem_of_app in H as [H|H]
         | H : _ ∈ _ :: _ |- _ => apply elem_of_cons in H as [H|H]
         | H : _ ∈ [] |- _ => by apply elem_of_nil in H
         end;
  try discriminate; try congruence.

(** * Proofs *)

Section Linspace.

Variables start stop : Q.

Lemma arange_length num : length (Np.arange num) = num.
Proof. unfold Np.arange. by rewrite length_map, length_seq. Qed.

Lemma arange_lookup num i :
  (i < num)%nat -> Np.arange num !! i = Some (inject_Z (Z.of_nat i)).
Proof.
  intros Hi. unfold Np.arange. rewrite list_lookup_fmap.
  by rewrite lookup_seq_lt.
Qed.

Lemma linspace_length num : length (Np.linspace start stop num) = num.
Proof.
  unfold Np.linspace, Np.set_last.
  destruct (0 <? num - 1)%nat; [destruct (1 <? num)%nat|];
    rewrite ?length_insert, !length_map; apply arange_length.
Qed.

Lemma linspace_one : Np.linspace start stop 1 = [(0 * (stop - start) + start)%Q].
Proof. reflexivity. Qed.

(** For two points or more: every sample but the last is computed from the
    step, and the last one is [stop] itself. *)
Lemma linspace_lookup num i :
  (2 <= num)%nat -> (i < num)%nat ->
  Np.linspace start stop num !! i =
    Some (if decide (i = pred num) then stop
          else (inject_Z (Z.of_nat i)
                * ((stop - start) / inject_Z (Z.of_nat (num - 1))) + start)%Q).
Proof.
  intros Hn Hi. unfold Np.linspace, Np.set_last.
  destruct (Nat.ltb_spec 0 (num - 1)); [|lia].
  destruct (Nat.ltb_spec 1 num); [|lia].
  rewrite length_map, arange_length.
  destruct (decide (i = pred num)) as [->|Hne].
  - rewrite list_lookup_insert_eq; [done|].
    rewrite length_map, arange_length. lia.
  - rewrite list_lookup_insert_ne by done.
    rewrite list_lookup_fmap, arange_lookup by done. reflexivity.
Qed.

Lemma linspace_affine num :
  affine_axis start ((stop - start) / inject_Z (Z.of_nat (num - 1)))
    (Np.linspace start stop num).
Proof.
  intros i x Hx.
  assert (i < num)%nat as Hi.
  { apply lookup_lt_Some in Hx. by rewrite linspace_length in Hx. }
  destruct (decide (2 <= num)%nat) as [Hn|Hn].
  - rewrite linspace_lookup in Hx by done.
    injection Hx as <-. destruct (decide (i = pred num)) as [->|_].
    + replace (pred num) with (num - 1)%nat by lia.
      assert (~ (inject_Z (Z.of_nat (num - 1)) == 0)%Q) as Hnz.
      { unfold Qeq, inject_Z. simpl. lia. }
      field. exact Hnz.
    + ring.
  - assert (num = 1)%nat as -> by lia.
    assert (i = 0)%nat as -> by lia.
    rewrite linspace_one in Hx. injection Hx as <-.
    simpl. unfold Qdiv. simpl. ring.
Qed.

Lemma linspace_head num :
  (1 <= num)%nat ->
  exists x, head (Np.linspace start stop num) = Some x /\ (x == start)%Q.
Proof.
  intros Hn.
  destruct (Np.linspace start stop num !! 0%nat) as [x|] eqn:Hx.
  - exists x. split.
    + by rewrite head_lookup.
    + apply linspace_affine in Hx. rewrite Hx. simpl. ring.
  - apply lookup_ge_None in Hx. rewrite linspace_length in Hx. lia.
Qed.

Lemma linspace_last num :
  (2 <= num)%nat -> last (Np.linspace start stop num) = Some stop.
Proof.
  intros Hn. rewrite last_lookup, linspace_length.
  rewrite linspace_lookup by lia. by rewrite decide_True.
Qed.

End Linspace.

Lemma step_axis_lookup (a d : Q) (n i : nat) :
  (i < n)%nat ->
  map (fun i => a + inject_Z (Z.of_nat i) * d)%Q (seq 0 n) !! i
    = Some (a + inject_Z (Z.of_nat i) * d)%Q.
Proof. intros Hi. rewrite list_lookup_fmap. by rewrite lookup_seq_lt. Qed.

Lemma step_axis_affine (a d : Q) (n : nat) :
  affine_axis a d (map (fun i => a + inject_Z (Z.of_nat i) * d)%Q (seq 0 n)).
Proof.
  intros i x Hx.
  assert (i < n)%nat as Hi.
  { apply lookup_lt_Some in Hx. by rewrite length_map, length_seq in Hx. }
  rewrite step_axis_lookup in Hx by done. by injection Hx as <-.
Qed.

Lemma step_axis_last (a d : Q) (n : nat) :
  (1 <= n)%nat ->
  last (map (fun i => a + inject_Z (Z.of_nat i) * d)%Q (seq 0 n))
    = Some (a + inject_Z (Z.of_nat (n - 1)) * d)%Q.
Proof.
  intros Hn. rewrite last_lookup, length_map, length_seq.
  replace (pred n) with (n - 1)%nat by lia.
  apply step_axis_lookup. lia.
Qed.

Lemma gui_step_freqs_length (c : Gui.SpectrumCanvas.t) (n : nat) :
  length (Gui.SpectrumCanvas.step_freqs c n) = n.
Proof. unfold Gui.SpectrumCanvas.step_freqs. by rewrite length_map, length_seq. Qed.

Lemma gui_plot_freqs_step (c : Gui.SpectrumCanvas.t) (rssi_values : list Z) :
  Gui.SpectrumCanvas.plot_freqs c rssi_values
    = Gui.SpectrumCanvas.step_freqs c (length rssi_values).
Proof.
  unfold Gui.SpectrumCanvas.plot_freqs.
  rewrite gui_step_freqs_length, Nat.ltb_irrefl. reflexivity.
Qed.

Lemma affine_step_axis (a d : Q) (n : nat) (fs : list Q) :
  (1 <= n)%nat -> length fs = n -> affine_axis a d fs -> step_axis a d n fs.
Proof.
  intros Hn Hlen Haff. split; [done|]. split; [done|].
  destruct (fs !! 0%nat) as [x|] eqn:Hx;
    [|apply lookup_ge_None in Hx; lia].
  destruct (fs !! (n - 1)%nat) as [y|] eqn:Hy;
    [|apply lookup_ge_None in Hy; lia].
  exists x, y. split; [by rewrite head_lookup|]. split.
  - rewrite last_lookup, Hlen. by replace (pred n) with (n - 1)%nat by lia.
  - split.
    + rewrite (Haff _ _ Hx). simpl. ring.
    + apply (Haff _ _ Hy).
Qed.


(** ** The frequency axes in binary64 *)



















(** Between its ends the axis of the extended GUI is evenly spaced only up
    to rounding: with the default limits and four readings the first two
    gaps between neighbours are different floats, and the second point is
    2427.6666666666665, not the rational 7283/3. *)
Example linspace_b64_rounds :
  B64.linspace (B64.of_Z 2399) (B64.of_Z 2485) 4
  = [B64.of_Z 2399;
     S754_finite false 5338495456728405 (-41);
     S754_finite false 5401534123387563 (-41);
     B64.of_Z 2485]
  /\ Np.linspace 2399 2485 4 = [0 * (86 / 3) + 2399; 1 * (86 / 3) + 2399;
                                2 * (86 / 3) + 2399; 2485]%Q
  /\ ~ (B64.to_Q (S754_finite false 5338495456728405 (-41)) == 1 * (86 / 3) + 2399)%Q
  /\ B64.sub (S754_finite false 5338495456728405 (-41)) (B64.of_Z 2399)
     <> B64.sub (S754_finite false 5401534123387563 (-41))
          (S754_finite false 5338495456728405 (-41)).
Proof.
  split; [vm_compute; reflexivity|]. split; [vm_compute; reflexivity|].
  split; [|vm_compute; discriminate].
  intros Heq. vm_compute in Heq. discriminate Heq.
Qed.


(** C10. In the basic GUI, for a non-empty sweep the step-based array has
    as many elements as the sweep, neither length test of [plot_rssi]
    fires, so the [linspace] branch is never taken, and the line drawn has
    its [i]-th point at [start_freq + i * freq_step]. *)
Theorem gui_plot_rssi_step_based (c : Gui.SpectrumCanvas.t) (rssi_values : list Z) :
  rssi_values <> [] ->
  let num_points := length rssi_values in
  let freqs := Gui.SpectrumCanvas.step_freqs c num_points in
  length freqs = num_points
  /\ (num_points <? length freqs)%nat = false
  /\ (length freqs <? num_points)%nat = false
  /\ Gui.SpectrumCanvas.drawn (Gui.SpectrumCanvas.plot_rssi c rssi_values)
     = Some (map (fun i => Gui.SpectrumCanvas.start_freq c
                           + inject_Z (Z.of_nat i) * Gui.SpectrumCanvas.freq_step c)%Q
                 (seq 0 num_points),
             rssi_values).
Proof.
  intros Hne num_points freqs. subst freqs.
  rewrite gui_step_freqs_length, Nat.ltb_irrefl.
  repeat split.
  destruct rssi_values as [|z l]; [done|].
  unfold Gui.SpectrumCanvas.plot_rssi. cbn [Gui.SpectrumCanvas.drawn Gui.SpectrumCanvas.with_drawn].
  by rewrite gui_plot_freqs_step.
Qed.

Lemma gui_plot_rssi_step_based_witness :
  [-50; -60; -70]%Z <> []
  /\ Gui.SpectrumCanvas.drawn
       (Gui.SpectrumCanvas.plot_rssi (Gui.MainWindow.canvas Gui.MainWindow.init)
          [-50; -60; -70]%Z)
     = Some (map (fun i => 2399 + inject_Z (Z.of_nat i) * (1 # 2))%Q (seq 0 3),
             [-50; -60; -70]%Z).
Proof.
  split; [discriminate|].
  apply (gui_plot_rssi_step_based (Gui.MainWindow.canvas Gui.MainWindow.init)
           [-50; -60; -70]%Z).
  discriminate.
Defined.

(** ** Files *)

Lemma fs_eq (fs fs' : Fs.t) :
  Fs.files fs = Fs.files fs' -> Fs.opened fs = Fs.opened fs' -> fs = fs'.
Proof. destruct fs, fs'; simpl; congruence. Qed.

Lemma alter_present (m : gmap string (list Fs.row)) (path : string)
    (old : list Fs.row) (f : list Fs.row -> list Fs.row) :
  m !! path = Some old -> alter f path m = <[path := f old]> m.
Proof.
  intros Hold. apply map_eq. intros p.
  rewrite lookup_alter, lookup_insert.
  destruct (decide (path = p)) as [<-|]; [by rewrite Hold|done].
Qed.

(** Writing rows one after the other to a file that is there appends
    them, in order, and touches nothing else. *)
Lemma writerows {X} (g : Fs.t -> X -> Fs.t) (f : X -> Fs.row) (path : string)
    (xs : list X) :
  (forall fs x, g fs x = Fs.writerow path (f x) fs) ->
  forall (fs : Fs.t) (old : list Fs.row),
    Fs.files fs !! path = Some old ->
    fold_left g xs fs
      = {| Fs.files := <[path := old ++ map f xs]> (Fs.files fs);
           Fs.opened := Fs.opened fs |}.
Proof.
  intros Hg. induction xs as [|x xs IH]; intros fs old Hold; simpl.
  - apply fs_eq; simpl; [|done]. by rewrite app_nil_r, insert_id.
  - rewrite Hg, (IH _ (old ++ [f x])).
    + apply fs_eq; simpl; [|done].
      rewrite (alter_present _ _ old) by done.
      by rewrite insert_insert_eq, <- app_assoc.
    + simpl. rewrite (alter_present _ _ old) by done.
      by rewrite lookup_insert_eq.
Qed.





(** The writers of the embedding are the writers above with the samples
    of [Np.linspace]. *)
Lemma export_csv_with_linspace (path : string) (self : GuiToo.MainWindow.t)
    (fs : Fs.t) :
  GuiToo.MainWindow._export_csv path self fs
    = GuiToo.MainWindow._export_csv_with Np.linspace path self fs.
Proof. reflexivity. Qed.

Lemma log_data_with_linspace (home timestamp : string)
    (self : GuiToo.MainWindow.t) (data : list Z) (fs : Fs.t) :
  GuiToo.MainWindow._log_data home timestamp self data fs
    = GuiToo.MainWindow._log_data_with Np.linspace home timestamp self data fs.
Proof. reflexivity. Qed.

(** What [_export_csv] leaves on disk when it gets as far as writing. *)
Lemma export_csv_writes (path : string) (self : GuiToo.MainWindow.t) (fs : Fs.t) :
  GuiToo.MainWindow.latest_data self <> [] -> path <> "" ->
  (GuiToo.MainWindow._export_csv path self fs).2
    = {| Fs.files :=
           <[path := GuiToo.MainWindow.export_header
                     :: map (fun p : Q * Z => export_row p.1 p.2)
                          (zip (Np.linspace (GuiToo.MainWindow.start_freq self)
                                  (GuiToo.MainWindow.end_freq self)
                                  (length (GuiToo.MainWindow.latest_data self)))
                               (GuiToo.MainWindow.latest_data self))]>
             (Fs.files fs);
         Fs.opened := Fs.opened fs ++ [(path, Fs.ModeW)] |}.
Proof.
  intros Hdata Hpath. unfold GuiToo.MainWindow._export_csv.
  destruct (GuiToo.MainWindow.latest_data self) as [|z l] eqn:Hl; [done|].
  destruct (String.eqb_spec path ""); [done|].
  cbn [snd].
  erewrite (writerows _ (fun p : Q * Z => export_row p.1 p.2) path)
    with (old := [GuiToo.MainWindow.export_header]).
  - apply fs_eq; simpl; [|done].
    rewrite (alter_present _ _ []) by by rewrite lookup_insert_eq.
    by rewrite !insert_insert_eq.
  - by intros fs0 [fr val].
  - simpl. rewrite (alter_present _ _ []) by by rewrite lookup_insert_eq.
    by rewrite lookup_insert_eq.
Qed.

(** What [_log_data] leaves on disk. *)
Lemma log_data_writes (home timestamp : string) (self : GuiToo.MainWindow.t)
    (data : list Z) (fs : Fs.t) :
  GuiToo.MainWindow._log_data home timestamp self data fs
    = {| Fs.files :=
           <[GuiToo.MainWindow.log_path home :=
               match Fs.files fs !! GuiToo.MainWindow.log_path home with
               | Some old => old
               | None => [GuiToo.MainWindow.log_header]
               end
               ++ map (fun p : Q * Z => log_row timestamp p.1 p.2)
                    (zip (Np.linspace (GuiToo.MainWindow.start_freq self)
                            (GuiToo.MainWindow.end_freq self) (length data))
                         data)]>
             (Fs.files fs);
         Fs.opened := Fs.opened fs ++ [(GuiToo.MainWindow.log_path home, Fs.ModeA)] |}.
Proof.
  unfold GuiToo.MainWindow._log_data, Fs.exists_.
  set (p := GuiToo.MainWindow.log_path home).
  destruct (Fs.files fs !! p) as [old|] eqn:Hold; cbn [negb].
  - erewrite (writerows _ (fun p : Q * Z => log_row timestamp p.1 p.2) p)
      with (old := old).
    + apply fs_eq; simpl; [|done]. by rewrite Hold.
    + by intros fs0 [fr val].
    + simpl. by rewrite Hold.
  - erewrite (writerows _ (fun p : Q * Z => log_row timestamp p.1 p.2) p)
      with (old := [GuiToo.MainWindow.log_header]).
    + apply fs_eq; simpl; [|done]. rewrite Hold.
      rewrite (alter_present _ _ []) by by rewrite lookup_insert_eq.
      by rewrite !insert_insert_eq.
    + by intros fs0 [fr val].
    + simpl. rewrite Hold.
      rewrite (alter_present _ _ []) by by rewrite lookup_insert_eq.
      by rewrite lookup_insert_eq.
Qed.



Lemma log_row_not_header (timestamp : string) (rows : list (Q * Z)) :
  GuiToo.MainWindow.log_header
    ∉ map (fun p : Q * Z => log_row timestamp p.1 p.2) rows.
Proof.
  intros Hin. apply list_elem_of_fmap in Hin as (p & Heq & _). discriminate.
Qed.

Lemma log_all_cons (home timestamp : string) (self : GuiToo.MainWindow.t)
    (data : list Z) (calls : list (string * GuiToo.MainWindow.t * list Z))
    (fs : Fs.t) :
  log_all home ((timestamp, self, data) :: calls) fs
    = log_all home calls (GuiToo.MainWindow._log_data home timestamp self data fs).
Proof. reflexivity. Qed.

(** After a run of logging calls, every open made was of the log file in
    append mode, and a log that held [old] holds [old] followed by rows
    that are no header. *)
Lemma log_all_appends (home : string)
    (calls : list (string * GuiToo.MainWindow.t * list Z)) :
  forall (fs : Fs.t) (old : list Fs.row),
    Fs.files fs !! GuiToo.MainWindow.log_path home = Some old ->
    exists rows,
      Fs.files (log_all home calls fs) !! GuiToo.MainWindow.log_path home
        = Some (old ++ rows)
      /\ (GuiToo.MainWindow.log_header ∉ rows).
Proof.
  induction calls as [|[[timestamp self] data] calls IH]; intros fs old Hold.
  - exists []. rewrite app_nil_r. split; [done|]. apply not_elem_of_nil.
  - rewrite log_all_cons, log_data_writes, Hold.
    match goal with
    | |- context [log_all home calls ?fs'] =>
        edestruct (IH fs') as (rows & Hrows & Hno);
          [cbn [Fs.files]; apply lookup_insert_eq|]
    end.
    eexists. split.
    + rewrite Hrows. by rewrite <- app_assoc.
    + rewrite elem_of_app. intros [Hin|Hin]; [|done].
      by apply log_row_not_header in Hin.
Qed.

(** C7 (as amended). A logging call opens the log file in append mode
    only and keeps what the file held at the front of what it holds
    afterwards; it writes the header exactly when the file did not exist, so
    that a run of logging calls that starts without a log file leaves the
    header once, as the first row; the rows it adds are one per reading.
    An export to any other path does not open or change the log file. An
    export that writes leaves in its file exactly the export header
    followed by one row per reading of the latest sweep. *)
Theorem log_appends_export_overwrites (home timestamp path : string)
    (self : GuiToo.MainWindow.t) (data : list Z)
    (calls : list (string * GuiToo.MainWindow.t * list Z)) (fs : Fs.t) :
  (log_append_only home fs (GuiToo.MainWindow._log_data home timestamp self data fs)
   /\ exists rows,
        length rows = length data
        /\ (GuiToo.MainWindow.log_header ∉ rows)
        /\ Fs.files (GuiToo.MainWindow._log_data home timestamp self data fs)
             !! GuiToo.MainWindow.log_path home
           = Some (match Fs.files fs !! GuiToo.MainWindow.log_path home with
                   | Some old => old ++ rows
                   | None => GuiToo.MainWindow.log_header :: rows
                   end))
  /\ (Fs.files fs !! GuiToo.MainWindow.log_path home = None -> calls <> [] ->
      exists rows,
        Fs.files (log_all home calls fs) !! GuiToo.MainWindow.log_path home
          = Some (GuiToo.MainWindow.log_header :: rows)
        /\ (GuiToo.MainWindow.log_header ∉ rows))
  /\ (path <> GuiToo.MainWindow.log_path home ->
      log_append_only home fs (GuiToo.MainWindow._export_csv path self fs).2
      /\ Fs.files (GuiToo.MainWindow._export_csv path self fs).2
           !! GuiToo.MainWindow.log_path home
         = Fs.files fs !! GuiToo.MainWindow.log_path home)
  /\ (GuiToo.MainWindow.latest_data self <> [] -> path <> "" ->
      exists rows,
        length rows = length (GuiToo.MainWindow.latest_data self)
        /\ Fs.files (GuiToo.MainWindow._export_csv path self fs).2 !! path
           = Some (GuiToo.MainWindow.export_header :: rows)).
Proof.
  split; [|split; [|split]].
  - rewrite log_data_writes. split.
    + split.
      * intros m. cbn [Fs.opened]. rewrite drop_app_length.
        rewrite list_elem_of_singleton. congruence.
      * intros old Hold. cbn [Fs.files]. rewrite Hold, lookup_insert_eq.
        eexists. split; [done|]. by apply prefix_app_r.
    + exists (map (fun p : Q * Z => log_row timestamp p.1 p.2)
                (zip (Np.linspace (GuiToo.MainWindow.start_freq self)
                        (GuiToo.MainWindow.end_freq self) (length data)) data)).
      split; [|split].
      * rewrite length_map, length_zip_with, linspace_length. lia.
      * apply log_row_not_header.
      * cbn [Fs.files]. rewrite lookup_insert_eq.
        by destruct (Fs.files fs !! GuiToo.MainWindow.log_path home).
  - intros Hnone Hcalls.
    destruct calls as [|[[ts0 self0] data0] calls]; [done|].
    rewrite log_all_cons, log_data_writes, Hnone.
    match goal with
    | |- context [log_all home calls ?fs'] =>
        edestruct (log_all_appends home calls fs') as (rows & Hrows & Hno);
          [cbn [Fs.files]; apply lookup_insert_eq|]
    end.
    eexists. split.
    + rewrite Hrows. reflexivity.
    + rewrite elem_of_app. intros [Hin|Hin]; [|done].
      by apply log_row_not_header in Hin.
  - intros Hpath.
    assert (Fs.files (GuiToo.MainWindow._export_csv path self fs).2
              !! GuiToo.MainWindow.log_path home
            = Fs.files fs !! GuiToo.MainWindow.log_path home
            /\ forall m, (GuiToo.MainWindow.log_path home, m)
                   ∈ drop (length (Fs.opened fs))
                       (Fs.opened (GuiToo.MainWindow._export_csv path self fs).2)
                 -> m = Fs.ModeA) as [Hfiles Hopened].
    { destruct (decide (GuiToo.MainWindow.latest_data self = [])) as [Hd|Hd];
        [|destruct (decide (path = "")) as [->|Hp]].
      - unfold GuiToo.MainWindow._export_csv. rewrite Hd. cbn [snd].
        split; [done|]. intros m. rewrite drop_all. by intros ?%elem_of_nil.
      - unfold GuiToo.MainWindow._export_csv.
        destruct (GuiToo.MainWindow.latest_data self); cbn [snd];
          (split; [done|]); intros m; rewrite drop_all; by intros ?%elem_of_nil.
      - rewrite export_csv_writes by done. cbn [Fs.files Fs.opened]. split.
        + by rewrite lookup_insert_ne.
        + intros m. rewrite drop_app_length, list_elem_of_singleton. congruence. }
    split; [|done]. split; [done|].
    intros old Hold. exists old. by rewrite Hfiles.
  - intros Hdata Hpath. rewrite export_csv_writes by done. cbn [Fs.files].
    eexists. split; [|apply lookup_insert_eq].
    rewrite length_map, length_zip_with, linspace_length. lia.
Qed.

Lemma log_appends_export_overwrites_witness :
  Fs.files empty_disk !! GuiToo.MainWindow.log_path "/home/u" = None
  /\ [("2024-01-01 00:00:00", sample_window, sample_sweep)] <> []
  /\ "/tmp/out.csv" <> GuiToo.MainWindow.log_path "/home/u"
  /\ GuiToo.MainWindow.latest_data sample_window <> []
  /\ "/tmp/out.csv" <> ""
  /\ (exists rows,
        Fs.files (log_all "/home/u"
                    [("2024-01-01 00:00:00", sample_window, sample_sweep)]
                    empty_disk) !! GuiToo.MainWindow.log_path "/home/u"
          = Some (GuiToo.MainWindow.log_header :: rows)
        /\ (GuiToo.MainWindow.log_header ∉ rows))
  /\ log_append_only "/home/u" empty_disk
       (GuiToo.MainWindow._export_csv "/tmp/out.csv" sample_window empty_disk).2
  /\ exists rows,
       length rows = length (GuiToo.MainWindow.latest_data sample_window)
       /\ Fs.files (GuiToo.MainWindow._export_csv "/tmp/out.csv" sample_window
                      empty_disk).2 !! "/tmp/out.csv"
          = Some (GuiToo.MainWindow.export_header :: rows).
Proof.
  destruct (log_appends_export_overwrites "/home/u" "2024-01-01 00:00:00"
              "/tmp/out.csv" sample_window sample_sweep
              [("2024-01-01 00:00:00", sample_window, sample_sweep)] empty_disk)
    as (_ & Hrun & Hother & Hexport).
  split; [reflexivity|]. split; [discriminate|]. split; [discriminate|].
  split; [discriminate|]. split; [discriminate|].
  split; [apply Hrun; [reflexivity|discriminate]|].
  split; [apply Hother; discriminate|].
  apply Hexport; discriminate.
Defined.

(** C7 as stated fails: the export dialog may return the path of the log
    file itself, and the export then opens the log in write mode and
    replaces its rows. *)
Lemma log_appends_export_overwrites_counterexample :
  ~ log_append_only "/home/u" disk_with_log
      (GuiToo.MainWindow._export_csv "/home/u/rssi_log.csv" sample_window
         disk_with_log).2.
Proof.
  intros [Hmode _]. specialize (Hmode Fs.ModeW).
  rewrite export_csv_writes in Hmode by discriminate.
  cbn [Fs.opened disk_with_log app length drop] in Hmode.
  assert (Fs.ModeW = Fs.ModeA) as Habs; [|discriminate Habs].
  apply Hmode. apply list_elem_of_here.
Qed.

(** ** Queue consumers *)

Lemma last_sweep_nonempty (q : list Msg.payload) (l : list Z) :
  last_sweep q = Some l -> l <> [].
Proof.
  induction q as [|data q IH]; [done|]. simpl.
  destruct (last_sweep q) as [l0|].
  - intros [= <-]. by apply IH.
  - destruct data as [[|z l']|]; intros [= <-]. discriminate.
Qed.

Lemma last_sweep_app (q1 q2 : list Msg.payload) :
  last_sweep (q1 ++ q2)
    = match last_sweep q2 with
      | Some l => Some l
      | None => last_sweep q1
      end.
Proof.
  induction q1 as [|data q1 IH]; simpl.
  - by destruct (last_sweep q2).
  - rewrite IH. by destruct (last_sweep q2).
Qed.

Lemma gui_drain_after (q : list Msg.payload) :
  forall self : Gui.MainWindow.t,
    Gui.MainWindow.plot_queue self = q ->
    Gui.MainWindow.drain q self = gui_after_drain self q.
Proof.
  induction q as [|data q IH]; intros self Hq.
  - destruct self. simpl in *. by subst.
  - cbn [Gui.MainWindow.drain]. rewrite IH.
    + unfold gui_after_drain. cbn [last_sweep].
      destruct (last_sweep q) as [l|] eqn:Hl.
      * apply last_sweep_nonempty in Hl.
        destruct l as [|z l]; [done|].
        by destruct data as [[|z' l']|], self.
      * by destruct data as [[|z' l']|], self.
    + by destruct data as [[|z' l']|].
Qed.

Lemma guitoo_drain_after (home : string) (clock : nat -> string)
    (q : list Msg.payload) :
  forall (k : nat) (self : GuiToo.MainWindow.t) (fs : Fs.t),
    GuiToo.MainWindow.plot_queue self = q ->
    (GuiToo.MainWindow.drain home clock k q self fs).1 = guitoo_after_drain self q.
Proof.
  induction q as [|data q IH]; intros k self fs Hq.
  - destruct self. simpl in *. by subst.
  - cbn [GuiToo.MainWindow.drain].
    destruct (GuiToo.MainWindow.handle home (clock k)
                (GuiToo.MainWindow.with_queue self q) fs data)
      as [self1 fs1] eqn:Hh.
    assert (self1 = (GuiToo.MainWindow.handle home (clock k)
                (GuiToo.MainWindow.with_queue self q) fs data).1) as ->
      by by rewrite Hh.
    clear Hh. rewrite IH.
    + unfold guitoo_after_drain. cbn [last_sweep].
      destruct (last_sweep q) as [l|] eqn:Hl.
      * apply last_sweep_nonempty in Hl.
        destruct l as [|z l]; [done|].
        destruct data as [[|z' l']|], self as [? ? ? ? ? ? ? [] ? ? ?]; done.
      * destruct data as [[|z' l']|], self as [? ? ? ? ? ? ? [] ? ? ?]; done.
    + destruct data as [[|z' l']|], self as [? ? ? ? ? ? ? [] ? ? ?]; done.
Qed.

Example guitoo_drain_keeps_whole_sweep :
  GuiToo.MainWindow.latest_data
    (GuiToo.MainWindow._update_plot "/home/u" (fun _ => "2024-01-01 00:00:00")
       (GuiToo.MainWindow.with_queue GuiToo.MainWindow.init
          [Msg.PList [-50; -60]%Z; Msg.PList []; Msg.PStr "x"])
       empty_disk).1
  = [-50; -60]%Z.
Proof. reflexivity. Qed.

Lemma guitoo_deliver_queue (batch : list Msg.payload) :
  forall self : GuiToo.MainWindow.t,
    deliver self batch
      = GuiToo.MainWindow.with_queue self
          (GuiToo.MainWindow.plot_queue self ++ batch).
Proof.
  induction batch as [|data batch IH]; intros self.
  - destruct self. simpl. by rewrite app_nil_r.
  - unfold deliver. cbn [fold_left]. fold (deliver
      (GuiToo.MainWindow._scanner_callback self "rssi" data) batch).
    rewrite IH. destruct self. simpl. by rewrite <- app_assoc.
Qed.

Lemma guitoo_ticks_latest (home : string) (clock : nat -> string)
    (batches : list (list Msg.payload)) :
  forall (self : GuiToo.MainWindow.t) (fs : Fs.t),
    GuiToo.MainWindow.plot_queue self = [] ->
    GuiToo.MainWindow.latest_data (ticks home clock batches self fs).1
      = default (GuiToo.MainWindow.latest_data self) (last_sweep (concat batches))
    /\ GuiToo.MainWindow.plot_queue (ticks home clock batches self fs).1 = [].
Proof.
  induction batches as [|batch batches IH]; intros self fs Hq; [done|].
  cbn [ticks concat].
  destruct (GuiToo.MainWindow._update_plot home clock (deliver self batch) fs)
    as [self1 fs1] eqn:Hup.
  assert (self1 = guitoo_after_drain (deliver self batch) batch) as ->.
  { change self1 with (self1, fs1).1. rewrite <- Hup.
    unfold GuiToo.MainWindow._update_plot.
    rewrite guitoo_drain_after by done.
    rewrite guitoo_deliver_queue. cbn [GuiToo.MainWindow.plot_queue GuiToo.MainWindow.with_queue].
    by rewrite Hq. }
  destruct (IH (guitoo_after_drain (deliver self batch) batch) fs1) as [IH1 IH2].
  { unfold guitoo_after_drain. by destruct (last_sweep batch). }
  split; [|done]. rewrite IH1, last_sweep_app.
  destruct (last_sweep (concat batches)); [done|].
  unfold guitoo_after_drain. rewrite guitoo_deliver_queue.
  by destruct (last_sweep batch).
Qed.

(** C8. In the extended GUI a drain leaves the window as a function of the
    window before it and of the last non-empty sweep in the queue alone:
    the queue is empty, [latest_data] is that sweep (or what it was, when
    the queue held no non-empty sweep), the chart shows it, and every
    other field is as before; so two queues with the same last non-empty
    sweep leave the same window. Over any run of timer ticks that starts
    with an empty queue, [latest_data] ends as the last non-empty sweep
    delivered, or as it began when none was. *)
Theorem latest_data_is_last_sweep (home : string) (clock : nat -> string)
    (self : GuiToo.MainWindow.t) (fs : Fs.t) (q : list Msg.payload)
    (batches : list (list Msg.payload)) :
  (GuiToo.MainWindow._update_plot home clock self fs).1
    = guitoo_after_drain self (GuiToo.MainWindow.plot_queue self)
  /\ GuiToo.MainWindow.plot_queue (GuiToo.MainWindow._update_plot home clock self fs).1
     = []
  /\ GuiToo.MainWindow.latest_data (GuiToo.MainWindow._update_plot home clock self fs).1
     = default (GuiToo.MainWindow.latest_data self)
         (last_sweep (GuiToo.MainWindow.plot_queue self))
  /\ (last_sweep q = last_sweep (GuiToo.MainWindow.plot_queue self) ->
      (GuiToo.MainWindow._update_plot home clock
         (GuiToo.MainWindow.with_queue self q) fs).1
      = (GuiToo.MainWindow._update_plot home clock self fs).1)
  /\ GuiToo.MainWindow.latest_data
       (ticks home clock batches (GuiToo.MainWindow.with_queue self []) fs).1
     = default (GuiToo.MainWindow.latest_data self) (last_sweep (concat batches)).
Proof.
  assert (forall w, (GuiToo.MainWindow._update_plot home clock w fs).1
                    = guitoo_after_drain w (GuiToo.MainWindow.plot_queue w)) as Hup.
  { intros w. unfold GuiToo.MainWindow._update_plot. by apply guitoo_drain_after. }
  split; [apply Hup|]. rewrite !Hup.
  split; [|split; [|split]].
  - unfold guitoo_after_drain.
    by destruct (last_sweep (GuiToo.MainWindow.plot_queue self)).
  - unfold guitoo_after_drain.
    by destruct (last_sweep (GuiToo.MainWindow.plot_queue self)).
  - intros Hq. unfold guitoo_after_drain.
    cbn [GuiToo.MainWindow.plot_queue GuiToo.MainWindow.with_queue].
    rewrite Hq. by destruct (last_sweep (GuiToo.MainWindow.plot_queue self)).
  - by destruct (guitoo_ticks_latest home clock batches
                   (GuiToo.MainWindow.with_queue self []) fs).
Qed.

Lemma latest_data_is_last_sweep_witness :
  last_sweep [Msg.PList [-70]%Z; Msg.PList sample_sweep; Msg.PList []]
    = last_sweep (GuiToo.MainWindow.plot_queue
                    (GuiToo.MainWindow.with_queue GuiToo.MainWindow.init
                       [Msg.PList sample_sweep]))
  /\ GuiToo.MainWindow.latest_data
       (GuiToo.MainWindow._update_plot "/home/u" (fun _ => "2024-01-01 00:00:00")
          (GuiToo.MainWindow.with_queue GuiToo.MainWindow.init
             [Msg.PList sample_sweep]) empty_disk).1
     = sample_sweep.
Proof.
  split; [reflexivity|].
  destruct (latest_data_is_last_sweep "/home/u" (fun _ => "2024-01-01 00:00:00")
              (GuiToo.MainWindow.with_queue GuiToo.MainWindow.init
                 [Msg.PList sample_sweep])
              empty_disk
              [Msg.PList [-70]%Z; Msg.PList sample_sweep; Msg.PList []] [])
    as (_ & _ & Hlatest & Hsame & _).
  pose proof (Hsame eq_refl) as _.
  rewrite Hlatest. reflexivity.
Defined.




(** ** The pattern matcher against the meaning of patterns *)

Lemma give_back_Some (rest_matches : nat -> option (list ascii))
    (at_least n : nat) (g : list ascii) :
  Re.give_back rest_matches at_least n = Some g ->
  exists m, (at_least <= m <= n)%nat /\ rest_matches m = Some g.
Proof.
  induction n as [|n IH]; cbn [Re.give_back].
  - destruct (Nat.ltb_spec 0 at_least); [done|].
    destruct (rest_matches 0%nat) eqn:H0; [|done].
    intros [= <-]. exists 0%nat. split; [lia|done].
  - destruct (Nat.ltb_spec (S n) at_least); [done|].
    destruct (rest_matches (S n)) eqn:HS.
    + intros [= <-]. exists (S n). split; [lia|done].
    + intros (m & Hm & Hg)%IH. exists m. split; [lia|done].
Qed.

Lemma give_back_None (rest_matches : nat -> option (list ascii))
    (at_least n : nat) :
  Re.give_back rest_matches at_least n = None ->
  forall m, (at_least <= m <= n)%nat -> rest_matches m = None.
Proof.
  induction n as [|n IH]; cbn [Re.give_back].
  - destruct (Nat.ltb_spec 0 at_least); [intros; lia|].
    destruct (rest_matches 0%nat) eqn:H0; [done|].
    intros _ m Hm. by replace m with 0%nat by lia.
  - destruct (Nat.ltb_spec (S n) at_least); [intros; lia|].
    destruct (rest_matches (S n)) eqn:HS; [done|].
    intros Hn m Hm. destruct (decide (m = S n)) as [->|]; [done|].
    apply IH; [done|lia].
Qed.

Lemma take_while_prefix {A} (f : A -> bool) (s : list A) (m : nat) :
  (m <= length (Py.take_while f s))%nat ->
  length (take m s) = m /\ Forall (fun c => f c = true) (take m s).
Proof.
  revert m. induction s as [|c s IH]; intros m; simpl.
  - intros Hm. replace m with 0%nat by lia. by split.
  - destruct (f c) eqn:Hc; simpl.
    + destruct m as [|m]; [by split|]. intros Hm. simpl.
      destruct (IH m) as [Hlen Hall]; [lia|]. split; [by rewrite Hlen|].
      by constructor.
    + intros Hm. replace m with 0%nat by lia. by split.
Qed.

Lemma take_while_covers {A} (f : A -> bool) (u s : list A) :
  Forall (fun c => f c = true) u ->
  (length u <= length (Py.take_while f (u ++ s)))%nat.
Proof.
  induction 1 as [|c u Hc _ IH]; simpl; [lia|]. rewrite Hc. simpl. lia.
Qed.

(** What the matcher finds is a match. *)
Lemma match_here_sound (p : list Re.item) :
  forall s g g', Re.match_here p s g = Some g' ->
    exists w rest, s = w ++ rest /\ sem p w g g'.
Proof.
  induction p as [|[c|k at_least capture] p IH]; intros s g g'; cbn [Re.match_here sem].
  - intros [= <-]. by exists [], s.
  - destruct s as [|x s]; [done|].
    destruct (Ascii.eqb_spec x c) as [->|]; [|done].
    intros (w & rest & -> & Hsem)%IH. exists (c :: w), rest. split; [done|].
    by exists w.
  - intros (m & [Hlo Hhi] & Hm)%give_back_Some.
    apply IH in Hm as (w & rest & Hdrop & Hsem).
    destruct (take_while_prefix _ _ _ Hhi) as [Hlen Hall].
    exists (take m s ++ w), rest. split.
    + by rewrite <- app_assoc, <- Hdrop, take_drop.
    + exists (take m s), w. rewrite Hlen. by repeat split.
Qed.

(** Where there is a match the matcher finds one. *)
Lemma match_here_complete (p : list Re.item) :
  forall w rest g g', sem p w g g' -> Re.match_here p (w ++ rest) g <> None.
Proof.
  induction p as [|[c|k at_least capture] p IH]; intros w rest g g'; cbn [Re.match_here sem].
  - done.
  - intros (w' & -> & Hsem). simpl. rewrite Ascii.eqb_refl. by eapply IH.
  - intros (u & w' & -> & Hlo & Hall & Hsem) Hnone.
    pose proof (give_back_None _ _ _ Hnone (length u)) as Hu.
    cbv beta in Hu.
    rewrite <- app_assoc, drop_app_length, take_app_length in Hu.
    eapply IH; [exact Hsem|]. apply Hu.
    split; [done|]. by apply take_while_covers.
Qed.

Lemma search_Some (p : list Re.item) (s g : list ascii) :
  Re.search p s = Some g ->
  exists before s', s = before ++ s' /\ Re.match_here p s' [] = Some g.
Proof.
  induction s as [|c s IH]; cbn [Re.search].
  - destruct (Re.match_here p [] []) eqn:Hm; [|done].
    intros [= <-]. by exists [], [].
  - destruct (Re.match_here p (c :: s) []) eqn:Hm.
    + intros [= <-]. by exists [], (c :: s).
    + intros (before & s' & -> & Hs')%IH. by exists (c :: before), s'.
Qed.

Lemma search_None (p : list Re.item) (s : list ascii) :
  Re.search p s = None ->
  forall before s', s = before ++ s' -> Re.match_here p s' [] = None.
Proof.
  induction s as [|c s IH]; cbn [Re.search].
  - destruct (Re.match_here p [] []) eqn:Hm; [done|].
    intros _ before s' Hs. symmetry in Hs.
    apply app_eq_nil in Hs as [_ ->]. done.
  - destruct (Re.match_here p (c :: s) []) eqn:Hm; [done|].
    intros Hs [|c' before] s' Heq; simpl in Heq.
    + by subst.
    + injection Heq as -> ->. by eapply IH.
Qed.

Lemma sem_literal (l : list ascii) (p : list Re.item) (w g g' : list ascii) :
  sem (map Re.Chr l ++ p) w g g' <-> exists w', w = l ++ w' /\ sem p w' g g'.
Proof.
  revert w. induction l as [|c l IH]; intros w; simpl.
  - split; [by exists w|by intros (w' & -> & H)].
  - split.
    + intros (w1 & -> & (w' & -> & H)%IH). by exists w'.
    + intros (w' & -> & H). exists (l ++ w'). split; [done|].
      apply IH. by exists w'.
Qed.

Lemma not_newline (c : ascii) :
  Re.in_class Re.Dot c = true <-> c <> ascii_of_N 10.
Proof.
  unfold Re.in_class. destruct (Ascii.eqb_spec c (ascii_of_N 10)); simpl.
  - split; [done|]. intros H; by destruct H.
  - done.
Qed.

(** The meaning of the log pattern, spelled out. *)
Lemma sem_pattern (w g : list ascii) :
  sem Console.pattern w [] g <->
  exists digits,
    w = list_ascii_of_string "Received " ++ digits
        ++ list_ascii_of_string " RSSI level readings: [" ++ g
        ++ list_ascii_of_string "]"
    /\ digits <> []
    /\ Forall (fun c => Py.is_digit c = true) digits
    /\ Forall (fun c => c <> ascii_of_N 10) g.
Proof.
  unfold Console.pattern, Re.literal. rewrite sem_literal.
  split.
  - intros (w1 & -> & Hsem). cbn [app sem] in Hsem.
    destruct Hsem as (digits & w2 & -> & Hlen & Hdig & Hsem).
    apply sem_literal in Hsem as (w3 & -> & Hsem). cbn [app sem] in Hsem.
    destruct Hsem as (u & w4 & -> & _ & Hdot & Hsem).
    cbn in Hsem. destruct Hsem as (w5 & -> & -> & ->).
    exists digits. split; [done|]. split.
    + destruct digits; [simpl in Hlen; lia|done].
    + split; [done|]. eapply Forall_impl; [exact Hdot|].
      intros c. apply not_newline.
  - intros (digits & -> & Hne & Hdig & Hdot). eexists. split; [done|].
    cbn [app sem]. exists digits. eexists. split; [done|]. split.
    + destruct digits; [done|simpl; lia].
    + split; [done|]. apply sem_literal. eexists. split; [done|].
      cbn [app sem]. exists g. eexists. split; [done|]. split; [lia|]. split.
      * eapply Forall_impl; [exact Hdot|]. intros c. apply not_newline.
      * cbn. by exists [].
Qed.

(** [re.search] with the log pattern returns the bracket content of a log
    line of the text, and returns nothing exactly when the text holds no
    log line. *)
Lemma bracket_content_Some (input_text : string) (g : list ascii) :
  bracket_content input_text = Some g ->
  log_line_in (list_ascii_of_string input_text) g.
Proof.
  intros (before & s' & Hs & (w & after & -> & Hsem)%match_here_sound)%search_Some.
  apply sem_pattern in Hsem as (digits & -> & Hne & Hdig & Hdot).
  exists before, digits, after. split; [|done].
  rewrite Hs. by rewrite <- !app_assoc.
Qed.

Lemma bracket_content_None (input_text : string) :
  bracket_content input_text = None <->
  ~ exists g, log_line_in (list_ascii_of_string input_text) g.
Proof.
  split.
  - intros Hnone (g & before & digits & after & Hs & Hne & Hdig & Hdot).
    eapply (match_here_complete Console.pattern _ after [] g).
    + apply sem_pattern. exists digits. done.
    + eapply (search_None _ _ Hnone before). rewrite Hs.
      by rewrite <- !app_assoc.
  - intros Hno. destruct (bracket_content input_text) as [g|] eqn:Hg; [|done].
    destruct Hno. exists g. by apply bracket_content_Some.
Qed.

(** ** The builtins at work *)

Example int_spaces_and_sign :
  Py.int 4300 (list_ascii_of_string "  -12 ") = Py.Return (-12)%Z.
Proof. reflexivity. Qed.

Example int_underscores :
  Py.int 4300 (list_ascii_of_string "+1_000") = Py.Return 1000%Z.
Proof. reflexivity. Qed.

Example int_rejects :
  map (fun s => Py.int 4300 (list_ascii_of_string s))
      [""; " "; "_1"; "1_"; "1__0"; "- 1"; "1.0"; "0x1"; "1 2"]
  = map (fun s => Py.Raise (Py.invalid_literal (list_ascii_of_string s)))
      [""; " "; "_1"; "1_"; "1__0"; "- 1"; "1.0"; "0x1"; "1 2"].
Proof. reflexivity. Qed.

Example int_digit_limit :
  Py.int 3 (list_ascii_of_string "1234") = Py.Raise (Py.exceeds_limit 3 4)
  /\ Py.int 0 (list_ascii_of_string "1234") = Py.Return 1234%Z.
Proof. split; reflexivity. Qed.

Example split_keeps_empty_pieces :
  Py.split "," (list_ascii_of_string "a,b,,c")
    = map list_ascii_of_string ["a"; "b"; ""; "c"]
  /\ Py.split "," [] = [[]].
Proof. split; reflexivity. Qed.

(** The group runs to the last closing bracket of the line, and a first
    line without one does not hide a match further on. *)
Example search_is_greedy_and_leftmost :
  bracket_content "Received 2 RSSI level readings: [1, 2] x]"
    = Some (list_ascii_of_string "1, 2] x")
  /\ bracket_content (String.append "Received 1 RSSI level readings: [x"
                        (String (ascii_of_N 10)
                           "Received 2 RSSI level readings: [5]"))
     = Some (list_ascii_of_string "5")
  /\ bracket_content "Received  RSSI level readings: [1]" = None.
Proof. repeat split; vm_compute; reflexivity. Qed.

Example linspace_five :
  Forall2 Qeq (Np.linspace 0 10 5) [0; 5 # 2; 5; 15 # 2; 10]%Q
  /\ Np.linspace 3 9 1 = [(0 * (9 - 3) + 3)%Q]
  /\ Np.linspace 3 9 0 = [].
Proof. split; [|split; reflexivity]. repeat constructor. Qed.

(** ** The log parser *)

Lemma int_raises_Exception (limit : nat) (s : list ascii) (e : Py.exn) :
  Py.int limit s = Py.Raise e -> exists msg, e = Py.Exception msg.
Proof.
  unfold Py.int, Py.invalid_literal, Py.exceeds_limit.
  repeat case_match; intros [= <-]; eauto.
Qed.

Lemma readings_raise_Exception (limit : nat) (g : list ascii) (e : Py.exn) :
  readings limit g = Py.Raise e -> exists msg, e = Py.Exception msg.
Proof.
  unfold readings. induction (Py.split "," g) as [|x xs IH]; [done|].
  cbn [Py.list_map]. destruct (Py.int limit x) eqn:Hx.
  - destruct (Py.list_map (Py.int limit) xs); [done|].
    intros [= <-]. by apply IH.
  - intros [= <-]. by eapply int_raises_Exception.
Qed.

(** [parse_rssi_input], branch by branch. *)
Lemma parse_rssi_input_unfold (limit : nat) (input_text : string) (tr : Py.trace) :
  Console.parse_rssi_input limit input_text tr
    = match bracket_content input_text with
      | None => Some (Py.Return [], tr ++ [Py.Stdout Console.no_valid_data])
      | Some g =>
          match readings limit g with
          | Py.Return zs => Some (Py.Return zs, tr)
          | Py.Raise (Py.Exception msg) =>
              Some (Py.Return [], tr ++ [Py.Stdout (Console.error_parsing msg)])
          | Py.Raise Py.KeyboardInterrupt => Some (Py.Raise Py.KeyboardInterrupt, tr)
          end
      end.
Proof.
  unfold Console.parse_rssi_input, bracket_content, readings, Py.try_except.
  destruct (Re.search Console.pattern (list_ascii_of_string input_text)) as [g|].
  - unfold Py.bind, Py.lift, Py.ret.
    destruct (Py.list_map (Py.int limit) (Py.split "," g)) as [zs|[msg|]]; done.
  - done.
Qed.

(** The embedding of [parse_rssi_input] is its control flow with the
    matcher, [split] and [int] of ASCII text. *)
Lemma parse_rssi_input_parse_with (limit : nat) (input_text : string) :
  Console.parse_rssi_input limit input_text
    = Console.parse_with (Re.search Console.pattern) (Py.split ",") (Py.int limit)
        (list_ascii_of_string input_text).
Proof. reflexivity. Qed.

(** The control flow, branch by branch. *)
Lemma parse_with_unfold {text : Type} (search : text -> option text)
    (split_comma : text -> list text) (to_int : text -> Py.outcome Z)
    (input : text) (tr : Py.trace) :
  Console.parse_with search split_comma to_int input tr
    = match search input with
      | None => Some (Py.Return [], tr ++ [Py.Stdout Console.no_valid_data])
      | Some g =>
          match Py.list_map to_int (split_comma g) with
          | Py.Return zs => Some (Py.Return zs, tr)
          | Py.Raise (Py.Exception msg) =>
              Some (Py.Return [], tr ++ [Py.Stdout (Console.error_parsing msg)])
          | Py.Raise Py.KeyboardInterrupt => Some (Py.Raise Py.KeyboardInterrupt, tr)
          end
      end.
Proof.
  unfold Console.parse_with, Py.try_except.
  destruct (search input) as [g|]; [|done].
  unfold Py.bind, Py.lift, Py.ret.
  by destruct (Py.list_map to_int (split_comma g)) as [zs|[msg|]].
Qed.

Lemma list_map_raises {text : Type} (to_int : text -> Py.outcome Z)
    (pieces : list text) (e : Py.exn) :
  raises_only_exceptions to_int ->
  Py.list_map to_int pieces = Py.Raise e -> exists msg, e = Py.Exception msg.
Proof.
  intros Hint. induction pieces as [|x xs IH]; [done|].
  cbn [Py.list_map]. destruct (to_int x) eqn:Hx.
  - destruct (Py.list_map to_int xs); [done|]. intros [= <-]. by apply IH.
  - intros [= <-]. by eapply Hint.
Qed.

Lemma int_raises_only_exceptions (limit : nat) :
  raises_only_exceptions (Py.int limit).
Proof. intros s e. apply int_raises_Exception. Qed.

(** C3 (as amended). On every input [parse_rssi_input] returns without
    raising, in one of three ways, whatever the text is made of and
    whatever [re.search] and [int] accept there, as long as [int] raises
    nothing but an [Exception]: when [re.search] finds nothing it prints
    that no valid data was found and returns the empty list; when it finds
    a bracket content [g] and [int] converts every comma-separated piece of
    [g], it returns their values and prints nothing; and when [int] fails on
    a piece it prints the error of the failed conversion and returns the
    empty list. On ASCII text, with the pattern and [int] as they are
    there, [re.search] finds a bracket content exactly when the text holds
    a log line ([Received], digits, [RSSI level readings:], a bracketed part
    on one line), and what it finds is the bracket content of such a
    line. *)
Theorem parse_rssi_input_outcomes {text : Type} (search : text -> option text)
    (split_comma : text -> list text) (to_int : text -> Py.outcome Z)
    (input : text) (limit : nat) (input_text : string) (tr : Py.trace) :
  raises_only_exceptions to_int ->
  ascii_text input_text ->
  match search input with
  | None =>
      Console.parse_with search split_comma to_int input tr
        = Some (Py.Return [], tr ++ [Py.Stdout Console.no_valid_data])
  | Some g =>
      match Py.list_map to_int (split_comma g) with
      | Py.Return zs =>
          Console.parse_with search split_comma to_int input tr
            = Some (Py.Return zs, tr)
      | Py.Raise e =>
          exists msg,
            e = Py.Exception msg
            /\ Console.parse_with search split_comma to_int input tr
               = Some (Py.Return [], tr ++ [Py.Stdout (Console.error_parsing msg)])
      end
  end
  /\ match bracket_content input_text with
     | None =>
         Console.parse_rssi_input limit input_text tr
           = Some (Py.Return [], tr ++ [Py.Stdout Console.no_valid_data])
     | Some g =>
         log_line_in (list_ascii_of_string input_text) g
         /\ match readings limit g with
            | Py.Return zs =>
                Console.parse_rssi_input limit input_text tr = Some (Py.Return zs, tr)
            | Py.Raise e =>
                exists msg,
                  e = Py.Exception msg
                  /\ Console.parse_rssi_input limit input_text tr
                     = Some (Py.Return [],
                             tr ++ [Py.Stdout (Console.error_parsing msg)])
            end
     end
  /\ (bracket_content input_text = None
      <-> ~ exists g, log_line_in (list_ascii_of_string input_text) g).
Proof.
  intros Hint _. split; [|split; [|apply bracket_content_None]].
  - rewrite parse_with_unfold. destruct (search input) as [g|]; [|done].
    destruct (Py.list_map to_int (split_comma g)) as [zs|e] eqn:Hr; [done|].
    destruct (list_map_raises _ _ _ Hint Hr) as [msg ->]. by exists msg.
  - rewrite parse_rssi_input_unfold.
    destruct (bracket_content input_text) as [g|] eqn:Hg; [|done].
    split; [by apply bracket_content_Some|].
    destruct (readings limit g) as [zs|e] eqn:Hr; [done|].
    destruct (readings_raise_Exception _ _ _ Hr) as [msg ->]. by exists msg.
Qed.

Lemma parse_rssi_input_outcomes_witness :
  Console.parse_rssi_input 4300 "Received 2 RSSI level readings: [-50, x]" []
  = Some (Py.Return [],
          [] ++ [Py.Stdout (Console.error_parsing
                   "invalid literal for int() with base 10: ' x'")]).
Proof.
  destruct (parse_rssi_input_outcomes (Re.search Console.pattern) (Py.split ",")
              (Py.int 4300)
              (list_ascii_of_string "Received 2 RSSI level readings: [-50, x]")
              4300 "Received 2 RSSI level readings: [-50, x]" [])
    as (_ & Hcase & _);
    [apply int_raises_only_exceptions|reflexivity|].
  assert (bracket_content "Received 2 RSSI level readings: [-50, x]"
          = Some (list_ascii_of_string "-50, x")) as Hg by (vm_compute; reflexivity).
  rewrite Hg in Hcase. destruct Hcase as [_ Hcase].
  assert (readings 4300 (list_ascii_of_string "-50, x")
          = Py.Raise (Py.invalid_literal (list_ascii_of_string " x"))) as Hr
    by (vm_compute; reflexivity).
  rewrite Hr in Hcase. destruct Hcase as (msg & Hmsg & Hrun).
  injection Hmsg as <-. exact Hrun.
Defined.

(** C3 as stated fails: a log line whose bracket content is not a list of
    integer literals is neither parsed into readings nor reported as
    absent. *)
Lemma parse_rssi_input_outcomes_counterexample :
  ~ extracts_or_reports_absent 4300 "Received 2 RSSI level readings: [1, x]".
Proof.
  intros [(g & zs & Hg & Hr & _)|[Hnone _]].
  - vm_compute in Hg. injection Hg as <-. vm_compute in Hr. discriminate Hr.
  - vm_compute in Hnone. discriminate Hnone.
Qed.

Example parse_rssi_input_ok :
  Console.parse_rssi_input 4300 "Received 3 RSSI level readings: [-50, -61, -72]" []
  = Some (Py.Return [-50; -61; -72]%Z, []).
Proof. vm_compute. reflexivity. Qed.

Example parse_rssi_input_bad_piece :
  Console.parse_rssi_input 4300 "Received 2 RSSI level readings: [1, x]" []
  = Some (Py.Return [],
          [Py.Stdout "Error parsing input: invalid literal for int() with base 10: ' x'"]).
Proof. vm_compute. reflexivity. Qed.

(** C9. [parse_rssi_input] always returns a list and never raises,
    whatever the text is made of and whatever [re.search] and [int] accept
    there, as long as [int] raises nothing but an [Exception]. When
    [re.search] finds a bracket content on which [int] fails, the parser
    returns the empty list from its [except] branch, after printing the
    conversion error; when it finds nothing it returns the empty list too,
    so the return value does not tell the cases apart. On ASCII text, with
    the pattern and [int] as they are there, this is what happens on the
    line of an empty sweep, whose bracket content is the empty string, on
    which [int] fails. *)
Theorem parse_rssi_input_total {text : Type} (search : text -> option text)
    (split_comma : text -> list text) (to_int : text -> Py.outcome Z)
    (input : text) (limit : nat) (input_text : string) (tr : Py.trace)
    (g : list ascii) :
  raises_only_exceptions to_int ->
  ascii_text input_text ->
  ((exists zs tr',
      Console.parse_with search split_comma to_int input tr
      = Some (Py.Return zs, tr'))
   /\ (forall g',
         search input = Some g' ->
         (forall zs, Py.list_map to_int (split_comma g') <> Py.Return zs) ->
         exists msg,
           Py.list_map to_int (split_comma g') = Py.Raise (Py.Exception msg)
           /\ Console.parse_with search split_comma to_int input tr
              = Some (Py.Return [], tr ++ [Py.Stdout (Console.error_parsing msg)]))
   /\ (search input = None ->
       Console.parse_with search split_comma to_int input tr
       = Some (Py.Return [], tr ++ [Py.Stdout Console.no_valid_data])))
  /\ (exists zs tr',
        Console.parse_rssi_input limit input_text tr = Some (Py.Return zs, tr'))
  /\ (bracket_content input_text = Some g ->
      (forall zs, readings limit g <> Py.Return zs) ->
      exists msg,
        readings limit g = Py.Raise (Py.Exception msg)
        /\ Console.parse_rssi_input limit input_text tr
           = Some (Py.Return [], tr ++ [Py.Stdout (Console.error_parsing msg)]))
  /\ (bracket_content "Received 0 RSSI level readings: []" = Some []
      /\ readings limit [] = Py.Raise (Py.invalid_literal [])
      /\ Console.parse_rssi_input limit "Received 0 RSSI level readings: []" tr
         = Some (Py.Return [],
                 tr ++ [Py.Stdout (Console.error_parsing
                          "invalid literal for int() with base 10: ''")]))
  /\ (bracket_content input_text = None ->
      Console.parse_rssi_input limit input_text tr
        = Some (Py.Return [], tr ++ [Py.Stdout Console.no_valid_data])).
Proof.
  intros Hint _. split; [split; [|split]|split; [|split; [|split]]].
  - rewrite parse_with_unfold. destruct (search input) as [g'|]; [|by eauto].
    destruct (Py.list_map to_int (split_comma g')) as [zs|e] eqn:Hr; [by eauto|].
    destruct (list_map_raises _ _ _ Hint Hr) as [msg ->]. by eauto.
  - intros g' Hg Hbad. rewrite parse_with_unfold, Hg.
    destruct (Py.list_map to_int (split_comma g')) as [zs|e] eqn:Hr;
      [by destruct (Hbad zs)|].
    destruct (list_map_raises _ _ _ Hint Hr) as [msg ->]. by eauto.
  - intros Hnone. by rewrite parse_with_unfold, Hnone.
  - rewrite parse_rssi_input_unfold.
    destruct (bracket_content input_text) as [g'|]; [|by eauto].
    destruct (readings limit g') as [zs|e] eqn:Hr; [by eauto|].
    destruct (readings_raise_Exception _ _ _ Hr) as [msg ->]. by eauto.
  - intros Hg Hbad. rewrite parse_rssi_input_unfold, Hg.
    destruct (readings limit g) as [zs|e] eqn:Hr; [by destruct (Hbad zs)|].
    destruct (readings_raise_Exception _ _ _ Hr) as [msg ->]. by eauto.
  - assert (bracket_content "Received 0 RSSI level readings: []" = Some [])
      as Hg by (vm_compute; reflexivity).
    split; [done|]. split; [done|].
    rewrite parse_rssi_input_unfold, Hg. reflexivity.
  - intros Hnone. by rewrite parse_rssi_input_unfold, Hnone.
Qed.

Lemma parse_rssi_input_total_witness :
  ascii_text "Received 1 RSSI level readings: [x]"
  /\ bracket_content "Received 1 RSSI level readings: [x]"
     = Some (list_ascii_of_string "x")
  /\ (forall zs, readings 4300 (list_ascii_of_string "x") <> Py.Return zs)
  /\ exists msg,
       readings 4300 (list_ascii_of_string "x") = Py.Raise (Py.Exception msg)
       /\ Console.parse_rssi_input 4300 "Received 1 RSSI level readings: [x]" []
          = Some (Py.Return [], [] ++ [Py.Stdout (Console.error_parsing msg)]).
Proof.
  assert (bracket_content "Received 1 RSSI level readings: [x]"
          = Some (list_ascii_of_string "x")) as Hg by (vm_compute; reflexivity).
  assert (forall zs, readings 4300 (list_ascii_of_string "x") <> Py.Return zs)
    as Hbad by (intros zs; vm_compute; discriminate).
  split; [reflexivity|]. split; [exact Hg|]. split; [exact Hbad|].
  destruct (parse_rssi_input_total (Re.search Console.pattern) (Py.split ",")
              (Py.int 4300)
              (list_ascii_of_string "Received 1 RSSI level readings: [x]")
              4300 "Received 1 RSSI level readings: [x]" []
              (list_ascii_of_string "x"))
    as (_ & _ & Hcase & _);
    [apply int_raises_only_exceptions|reflexivity|].
  exact (Hcase Hg Hbad).
Defined.

(** ** Scanner threads *)

Lemma gui_monitor_same (env : Env.t) (fuel : nat) :
  Gui.ScannerThread.monitor env fuel
    = GuiToo.ScannerThread.monitor env (1 # 2) fuel.
Proof. induction fuel as [|fuel IH]; [done|]. simpl. by rewrite IH. Qed.

Lemma gui_run_with (env : Env.t) (port : string) (fuel : nat) :
  Gui.ScannerThread.run env port fuel
    = run_with env port ("Connected to " +:+ port +:+ " — starting scan")
        (1 # 2) fuel.
Proof.
  unfold Gui.ScannerThread.run, run_with, attempt, cleanup.
  by rewrite gui_monitor_same.
Qed.

Lemma guitoo_run_with (env : Env.t) (port : string) (interval : Q) (fuel : nat) :
  GuiToo.ScannerThread.run env port interval fuel
    = run_with env port ("Connected to " +:+ port) interval fuel.
Proof. reflexivity. Qed.

Lemma count_events_snoc (p : Py.event -> bool) (tr : list Py.event) (e : Py.event) :
  count_events p (tr ++ [e]) = (count_events p tr + (if p e then 1 else 0))%nat.
Proof.
  unfold count_events. rewrite filter_app, length_app. f_equal.
  rewrite filter_cons, filter_nil. by destruct (p e).
Qed.

Lemma count_events_app (p : Py.event -> bool) (tr1 tr2 : list Py.event) :
  count_events p (tr1 ++ tr2) = (count_events p tr1 + count_events p tr2)%nat.
Proof. unfold count_events. by rewrite filter_app, length_app. Qed.

Lemma sleeps_from_snoc (t : nat) (tr : list Py.event) (e : Py.event) :
  sleeps_from t (tr ++ [e])
    = (sleeps_from t tr
       + (if is_sleep e && (t <=? length tr)%nat then 1 else 0))%nat.
Proof.
  unfold sleeps_from. rewrite drop_app, count_events_app. f_equal.
  destruct (Nat.leb_spec t (length tr)) as [Hle|Hlt].
  - replace (t - length tr)%nat with 0%nat by lia. simpl.
    rewrite andb_true_r. unfold count_events.
    rewrite filter_cons, filter_nil. by destruct (is_sleep e).
  - rewrite andb_false_r. rewrite drop_ge by (simpl; lia). done.
Qed.

Lemma sleeps_from_snoc_other (t : nat) (tr : list Py.event) (e : Py.event) :
  is_sleep e = false -> sleeps_from t (tr ++ [e]) = sleeps_from t tr.
Proof. intros He. rewrite sleeps_from_snoc, He. simpl. lia. Qed.

Section Monitor.

Variables (env : Env.t) (interval : Q).

(** The loop only extends the trace, with its own three kinds of events;
    it ends normally or on the exception of an [is_scanning] that
    failed, which is then the one failed call in what it added. *)
Lemma monitor_events (fuel : nat) :
  forall (tr tr' : Py.trace) (o : Py.outcome unit),
    GuiToo.ScannerThread.monitor env interval fuel tr = Some (o, tr') ->
    exists ext,
      tr' = tr ++ ext
      /\ Forall monitor_event ext
      /\ (forall msg, Py.IsScanning (Py.Fail msg) ∈ ext ->
            o = Py.Raise (Py.Exception msg))
      /\ (o = Py.Return tt \/ exists msg, o = Py.Raise (Py.Exception msg)).
Proof.
  induction fuel as [|fuel' IH]; intros tr tr' o; [done|].
  cbn [GuiToo.ScannerThread.monitor].
  unfold Py.bind at 1, Py.observe at 1.
  destruct (Env.stop_event env (length tr)).
  - intros [= <- <-]. exists [Py.IsSet true].
    split; [done|]. split; [by repeat constructor|].
    split; [|by left]. intros msg Hin. in_trace.
  - unfold Py.bind at 1, Py.call at 1.
    destruct (Env.is_scanning env (length (tr ++ [Py.IsSet false])))
      as [[]|msg] eqn:Hscan.
    + unfold Py.bind at 1, Py.emit at 1.
      intros (ext & -> & Hall & Hfail & Hout)%IH.
      exists ([Py.IsSet false; Py.IsScanning (Py.Ok true); Py.Sleep interval false]
              ++ ext).
      split; [by rewrite <- !app_assoc|].
      split; [by repeat constructor|]. split; [|done].
      intros msg Hin. apply Hfail. in_trace.
    + intros [= <- <-]. exists [Py.IsSet false; Py.IsScanning (Py.Ok false)].
      split; [by rewrite <- !app_assoc|]. split; [by repeat constructor|].
      split; [|by left]. intros msg Hin. in_trace.
    + intros [= <- <-]. exists [Py.IsSet false; Py.IsScanning (Py.Fail msg)].
      split; [by rewrite <- !app_assoc|]. split; [by repeat constructor|].
      split; [|by eauto]. intros msg' Hin.
      in_trace.
Qed.

(** The time of the next test: a multiple of three, and the least one
    that is neither below 3 nor below [T]. *)
Lemma next_test_spec (T : nat) :
  exists m,
    next_test T = (3 * m)%nat /\ (1 <= m)%nat /\ (T <= 3 * m)%nat
    /\ (3 * m <= T + 3)%nat
    /\ forall k, (1 <= k)%nat -> (T <= 3 * k)%nat -> (m <= k)%nat.
Proof.
  unfold next_test. exists (Nat.max 1 ((T + 2) / 3)).
  pose proof (Nat.div_mod_eq (T + 2) 3) as Hdiv.
  pose proof (Nat.mod_upper_bound (T + 2) 3 ltac:(lia)) as Hmod.
  set (q := ((T + 2) / 3)%nat) in *. set (r := ((T + 2) mod 3)%nat) in *.
  repeat split; lia.
Qed.

(** A test of the flag that finds it clear, no later than the test that
    follows time [T], comes before [T] and before that test. *)
Lemma flag_clear_before (T : nat) (tr : Py.trace) (k : nat) :
  Env.stop_event env (next_test T) = true ->
  (1 <= k)%nat -> length tr = (3 * k)%nat -> (length tr <= next_test T)%nat ->
  Env.stop_event env (length tr) = false ->
  (length tr < T)%nat /\ (length tr + 3 <= next_test T)%nat.
Proof.
  intros Hset Hk Hlen Hle Hflag.
  destruct (next_test_spec T) as (m & Hm & Hm1 & HTm & _ & Hleast).
  assert (length tr <> next_test T) as Hne by (intros Heq; congruence).
  split; [|lia].
  destruct (decide (T <= length tr)%nat) as [HT|]; [|lia].
  specialize (Hleast k Hk). lia.
Qed.

(** Once the flag is set, and found set at the next test, the loop starts
    at most one more sleep, and none if the flag was set before the loop
    was entered. *)
Lemma monitor_sleeps (T : nat) (fuel : nat) :
  Env.stop_event env (next_test T) = true ->
  forall (tr tr' : Py.trace) (o : Py.outcome unit) (k : nat),
    (1 <= k)%nat -> length tr = (3 * k)%nat -> (length tr <= next_test T)%nat ->
    GuiToo.ScannerThread.monitor env interval fuel tr = Some (o, tr') ->
    (sleeps_from T tr' <= sleeps_from T tr + 1)%nat
    /\ ((T <= length tr)%nat -> sleeps_from T tr' = sleeps_from T tr).
Proof.
  intros Hstop. induction fuel as [|fuel' IH]; intros tr tr' o k Hk Hlen3 Hnext;
    [done|].
  cbn [GuiToo.ScannerThread.monitor].
  unfold Py.bind at 1, Py.observe at 1.
  destruct (Env.stop_event env (length tr)) eqn:Hflag.
  - intros [= <- <-]. rewrite sleeps_from_snoc_other by done. lia.
  - destruct (flag_clear_before T tr k Hstop Hk Hlen3 Hnext Hflag) as [Hlt Hroom].
    unfold Py.bind at 1, Py.call at 1.
    destruct (Env.is_scanning env (length (tr ++ [Py.IsSet false])))
      as [[]|msg] eqn:Hscan.
    + unfold Py.bind at 1, Py.emit at 1. intros Hrec.
      set (tr3 := (tr ++ [Py.IsSet false]) ++ [Py.IsScanning (Py.Ok true)]) in *.
      assert (length tr3 = length tr + 2)%nat as Hlen.
      { unfold tr3. rewrite !length_app. simpl. lia. }
      assert (length (tr3 ++ [Py.Sleep interval false]) = 3 * S k)%nat as Hlen4.
      { rewrite length_app, Hlen. simpl. lia. }
      apply (IH _ _ _ (S k)) in Hrec as [Hle Heq]; [|lia|done|lia].
      assert (sleeps_from T tr3 = sleeps_from T tr) as Htr3.
      { unfold tr3. by rewrite !sleeps_from_snoc_other. }
      rewrite sleeps_from_snoc, Htr3, Hlen in Hle, Heq.
      rewrite length_app, Hlen in Heq.
      cbn [length is_sleep andb] in Hle, Heq.
      split; [|lia]. revert Hle Heq.
      destruct (Nat.leb_spec T (length tr + 2)) as [Hin|Hout];
        intros Hle Heq; [|lia].
      rewrite Heq by lia. lia.
    + intros [= <- <-]. rewrite !sleeps_from_snoc_other by done. lia.
    + intros [= <- <-]. rewrite !sleeps_from_snoc_other by done. lia.
Qed.

(** With the flag set at the test that follows time [T], the loop ends
    within [fuel] turns as soon as they reach that test. *)
Lemma monitor_ends (T : nat) (fuel : nat) :
  Env.stop_event env (next_test T) = true ->
  forall (tr : Py.trace) (k : nat),
    (1 <= k)%nat -> length tr = (3 * k)%nat -> (length tr <= next_test T)%nat ->
    (next_test T < length tr + 3 * fuel)%nat ->
    GuiToo.ScannerThread.monitor env interval fuel tr <> None.
Proof.
  intros Hstop. induction fuel as [|fuel' IH]; intros tr k Hk Hlen3 Hnext Hfuel;
    [lia|].
  cbn [GuiToo.ScannerThread.monitor].
  unfold Py.bind at 1, Py.observe at 1.
  destruct (Env.stop_event env (length tr)) eqn:Hflag; [done|].
  destruct (flag_clear_before T tr k Hstop Hk Hlen3 Hnext Hflag) as [Hlt Hroom].
  unfold Py.bind at 1, Py.call at 1.
  destruct (Env.is_scanning env (length (tr ++ [Py.IsSet false])))
    as [[]|msg]; [|done|done].
  unfold Py.bind at 1, Py.emit at 1. apply (IH _ (S k)).
  - lia.
  - rewrite !length_app. simpl. lia.
  - rewrite !length_app. simpl. lia.
  - rewrite !length_app. simpl. lia.
Qed.

(** A loop that has not ended has seen the flag clear and the device
    scanning at every turn. *)
Lemma monitor_unfinished (fuel : nat) :
  forall tr : Py.trace,
    GuiToo.ScannerThread.monitor env interval fuel tr = None ->
    forall k, (k < fuel)%nat ->
      Env.stop_event env (length tr + 3 * k) = false
      /\ Env.is_scanning env (length tr + 1 + 3 * k) = Py.Ok true.
Proof.
  induction fuel as [|fuel' IH]; intros tr Hnone k Hk; [lia|].
  revert Hnone. cbn [GuiToo.ScannerThread.monitor].
  unfold Py.bind at 1, Py.observe at 1.
  destruct (Env.stop_event env (length tr)) eqn:Hflag; [done|].
  unfold Py.bind at 1, Py.call at 1.
  rewrite length_app. cbn [length].
  destruct (Env.is_scanning env (length tr + 1)) as [[]|msg] eqn:Hscan;
    [|done..].
  unfold Py.bind at 1, Py.emit at 1. intros Hnone.
  destruct k as [|k].
  - by rewrite !Nat.add_0_r.
  - destruct (IH _ Hnone k) as [Hf Hs]; [lia|].
    rewrite !length_app in Hf, Hs. cbn [length] in Hf, Hs.
    split; [rewrite <- Hf|rewrite <- Hs]; f_equal; lia.
Qed.

End Monitor.

Section Run.

Variables (env : Env.t) (port connected_text : string) (interval : Q).

Lemma cleanup_runs (tr : Py.trace) :
  cleanup env tr
    = Some (Py.Return tt,
            (tr ++ [Py.Disconnect (Env.disconnect env (length tr))])
            ++ [Py.Callback "__status__" "Disconnected"]).
Proof.
  unfold cleanup, Py.bind, Py.try_except, Py.call, Py.except_Exception, Py.ret,
    GuiToo.ScannerThread.callback, Py.emit.
  by destruct (Env.disconnect env (length tr)) as [[]|msg].
Qed.

Lemma run_with_unfold (fuel : nat) (tr : Py.trace) :
  run_with env port connected_text interval fuel tr
    = match attempt env port connected_text interval fuel tr with
      | None => None
      | Some (o, tr') =>
          Some (o, (tr' ++ [Py.Disconnect (Env.disconnect env (length tr'))])
                   ++ [Py.Callback "__status__" "Disconnected"])
      end.
Proof.
  unfold run_with, Py.try_finally.
  destruct (attempt env port connected_text interval fuel tr) as [[o tr']|];
    [|done].
  by rewrite cleanup_runs.
Qed.

(** [attempt] never raises, and leaves one of the traces above. *)
Lemma attempt_finished (fuel : nat) (o : Py.outcome unit) (tr : Py.trace) :
  attempt env port connected_text interval fuel [] = Some (o, tr) ->
  o = Py.Return tt /\ attempt_trace env port connected_text interval fuel tr.
Proof.
  unfold attempt, attempt_trace, Py.try_except.
  unfold Py.bind at 1, Py.call at 1. cbn [length].
  destruct (Env.connect env 0 port) as [[]|msg]; cbn [negb app].
  - unfold Py.bind at 1, GuiToo.ScannerThread.callback at 1, Py.emit at 1.
    cbn [app]. unfold Py.bind at 1, Py.call at 1. cbn [length].
    destruct (Env.start_scan env 2) as [[]|msg]; cbn [app].
    + unfold Py.bind at 1.
      destruct (GuiToo.ScannerThread.monitor env interval fuel
                  [Py.Connect port (Py.Ok true);
                   Py.Callback "__status__" connected_text;
                   Py.StartScan (Py.Ok tt)]) as [[o' tr']|] eqn:Hmon; [|done].
      destruct (monitor_events _ _ _ _ _ _ Hmon) as (ext & -> & Hall & Hfail & Hout).
      destruct Hout as [->|[msg ->]].
      * unfold Py.bind at 1, Py.call at 1.
        match goal with
        | |- context [Env.is_scanning env ?t] =>
            destruct (Env.is_scanning env t) as [[]|msg]
        end.
        -- unfold Py.call.
           match goal with
           | |- context [Env.stop_scan env ?t] =>
               destruct (Env.stop_scan env t) as [[]|msg]
           end.
           ++ intros [= <- <-]. split; [done|]. do 3 right.
              exists ext, [Py.IsScanning (Py.Ok true); Py.StopScan (Py.Ok tt)],
                (Py.Return tt).
              split; [by simpl; rewrite <- ?app_assoc|]. split; [done|]. split; [done|].
              split; [done|]. right. by left.
           ++ cbn [Py.except_Exception GuiToo.ScannerThread.callback Py.emit].
              intros [= <- <-]. split; [done|]. do 3 right.
              exists ext, [Py.IsScanning (Py.Ok true); Py.StopScan (Py.Fail msg);
                           scanner_error msg], (Py.Return tt).
              split; [by simpl; rewrite <- ?app_assoc|]. split; [done|]. split; [done|].
              split; [done|]. do 2 right. left. by exists msg.
        -- unfold Py.ret. intros [= <- <-]. split; [done|]. do 3 right.
           exists ext, [Py.IsScanning (Py.Ok false)], (Py.Return tt).
           split; [by simpl; rewrite <- ?app_assoc|]. split; [done|]. split; [done|].
           split; [done|]. by left.
        -- cbn [Py.except_Exception GuiToo.ScannerThread.callback Py.emit].
           intros [= <- <-]. split; [done|]. do 3 right.
           exists ext, [Py.IsScanning (Py.Fail msg); scanner_error msg],
             (Py.Return tt).
           split; [by simpl; rewrite <- ?app_assoc|]. split; [done|]. split; [done|].
           split; [done|]. do 3 right. by exists msg.
      * cbn [Py.except_Exception GuiToo.ScannerThread.callback Py.emit].
        intros [= <- <-]. split; [done|]. do 3 right.
        exists ext, [scanner_error msg], (Py.Raise (Py.Exception msg)).
        split; [by simpl; rewrite <- ?app_assoc|]. by repeat split.
    + cbn [Py.except_Exception GuiToo.ScannerThread.callback Py.emit app].
      intros [= <- <-]. split; [done|]. do 2 right. left. by exists msg.
  - unfold GuiToo.ScannerThread.callback, Py.emit. cbn [app].
    intros [= <- <-]. split; [done|]. right. by left.
  - cbn [Py.except_Exception GuiToo.ScannerThread.callback Py.emit app].
    intros [= <- <-]. split; [done|]. left. by exists msg.
Qed.

End Run.

Lemma count_events_none (p : Py.event -> bool) (ext : list Py.event) :
  Forall monitor_event ext ->
  (forall e, monitor_event e -> p e = false) ->
  count_events p ext = 0%nat.
Proof.
  intros Hall Hp. induction Hall as [|e ext He _ IH]; [done|].
  unfold count_events in *. rewrite filter_cons.
  destruct (decide (p e = true)) as [Hpe|]; [|done].
  rewrite (Hp e He) in Hpe. done.
Qed.

Lemma sleeps_from_le (t : nat) (tr : list Py.event) :
  (sleeps_from t tr <= count_events is_sleep tr)%nat.
Proof.
  unfold sleeps_from, count_events. revert t.
  induction tr as [|e tr IH]; intros [|t]; simpl; try lia.
  rewrite filter_cons. specialize (IH t).
  destruct (decide (is_sleep e = true)); simpl; lia.
Qed.

Lemma sleeps_from_app_le (t : nat) (tr1 tr2 : list Py.event) :
  (sleeps_from t (tr1 ++ tr2) <= sleeps_from t tr1 + count_events is_sleep tr2)%nat.
Proof.
  unfold sleeps_from at 1. rewrite drop_app, count_events_app.
  pose proof (sleeps_from_le (t - length tr1) tr2).
  unfold sleeps_from in *. lia.
Qed.

Lemma monitor_event_failed (e : Py.event) (msg : string) :
  monitor_event e -> failed_in_try e = Some msg ->
  e = Py.IsScanning (Py.Fail msg).
Proof.
  destruct e as [| |[]|? |[|]|? []| | | | | |]; simpl; try done.
  by intros _ [= ->].
Qed.

Section RunProperties.

Variables (env : Env.t) (port connected_text : string) (interval : Q) (fuel : nat).

Lemma scan_tail_counts (o : Py.outcome unit) (tail : list Py.event) :
  scan_tail o tail ->
  count_events is_connect tail = 0%nat
  /\ count_events is_start_scan tail = 0%nat
  /\ count_events is_disconnect tail = 0%nat
  /\ count_events is_sleep tail = 0%nat.
Proof.
  destruct o as [[]|[msg|]]; cbn [scan_tail]; [|by intros ->|done].
  intros [->|[->|[[msg ->]|[msg ->]]]]; done.
Qed.

Lemma attempt_trace_counts (pre : list Py.event) :
  attempt_trace env port connected_text interval fuel pre ->
  count_events is_connect pre = 1%nat
  /\ (count_events is_start_scan pre <= 1)%nat
  /\ count_events is_disconnect pre = 0%nat.
Proof.
  intros [[msg ->]|[->|[[msg ->]|(ext & tail & o & -> & _ & Hall & _ & Htail)]]];
    [by cbv; lia..|].
  apply scan_tail_counts in Htail as (Hc & Hs & Hd & _).
  rewrite !count_events_app, Hc, Hs, Hd.
  rewrite !(count_events_none _ ext Hall) by by intros [].
  cbv. lia.
Qed.

Lemma attempt_trace_sleeps (T : nat) (pre : list Py.event) :
  Env.stop_event env (next_test T) = true ->
  attempt_trace env port connected_text interval fuel pre ->
  (sleeps_from T pre <= 1)%nat /\ ((T <= 3)%nat -> sleeps_from T pre = 0%nat).
Proof.
  intros Hstop
    [[msg ->]|[->|[[msg ->]|(ext & tail & o & -> & Hmon & _ & _ & Htail)]]].
  1-3: match goal with
       | |- context [sleeps_from ?t ?tr] =>
           pose proof (sleeps_from_le t tr) as Hle;
           assert (count_events is_sleep tr = 0%nat) as Hz by reflexivity;
           rewrite Hz in Hle
       end; lia.
  apply scan_tail_counts in Htail as (_ & _ & _ & Hs).
  destruct (next_test_spec T) as (m & Hm & Hm1 & _).
  apply (monitor_sleeps env interval T fuel Hstop _ _ _ 1%nat) in Hmon
    as [Hle Heq]; [|lia|reflexivity|simpl; lia].
  rewrite app_assoc.
  match goal with
  | |- context [sleeps_from T ((?head ++ ext) ++ tail)] =>
      pose proof (sleeps_from_app_le T (head ++ ext) tail) as Happ;
      pose proof (sleeps_from_le T head) as Hhead;
      assert (count_events is_sleep head = 0%nat) as Hz by reflexivity;
      rewrite Hz in Hhead
  end.
  rewrite Hs in Happ. split; [lia|].
  intros HT. cbn [length] in Heq. rewrite Heq in Happ by lia. lia.
Qed.

Lemma last_is_later {A} (l : list A) (i : nat) (x y : A) :
  l !! i = Some x -> last l = Some y -> x <> y ->
  (i < pred (length l))%nat /\ l !! pred (length l) = Some y.
Proof.
  intros Hx Hy Hne. rewrite last_lookup in Hy. split; [|done].
  apply lookup_lt_Some in Hx as Hlt.
  destruct (decide (i = pred (length l))) as [->|]; [congruence|lia].
Qed.

(** In the trace of [attempt], a refused connection and a vendor call
    that raised are each followed by the error that reports them, which is
    the last event of [attempt]. *)
Lemma attempt_trace_reports (pre : list Py.event) :
  attempt_trace env port connected_text interval fuel pre ->
  (forall p, Py.Connect p (Py.Ok false) ∈ pre ->
     last pre = Some (Py.Callback "__error__" ("Failed to connect to " +:+ port)))
  /\ (forall e msg, e ∈ pre -> failed_in_try e = Some msg ->
        last pre = Some (scanner_error msg)).
Proof.
  intros [[msg ->]|[->|[[msg ->]|(ext & tail & o & -> & _ & Hall & Hfail & Htail)]]].
  - split; [intros p Hin; in_trace|].
    intros e msg' Hin He. in_trace; subst; simpl in He; by simplify_eq.
  - split; [done|].
    intros e msg' Hin He. in_trace; subst; simpl in He; by simplify_eq.
  - split; [intros p Hin; in_trace|].
    intros e msg' Hin He. in_trace; subst; simpl in He; by simplify_eq.
  - assert (forall e, e ∈ ext -> monitor_event e) as Hext
      by by apply Forall_forall.
    split.
    + intros p Hin. exfalso.
      destruct o as [[]|[msg|]]; cbn [scan_tail] in Htail; [| |done].
      * destruct Htail as [->|[->|[[msg ->]|[msg ->]]]];
          in_trace; by apply Hext in Hin.
      * subst tail. in_trace. by apply Hext in Hin.
    + intros e msg' Hin He.
      rewrite app_assoc, last_app.
      destruct o as [[]|[msg|]]; cbn [scan_tail] in Htail; [| |done].
      * destruct Htail as [->|[->|[[msg ->]|[msg ->]]]];
          in_trace; subst; simpl in He; simplify_eq; try done.
        all: apply Hext in Hin as Hev;
          pose proof (monitor_event_failed _ _ Hev He) as ->;
          by specialize (Hfail _ Hin).
      * subst tail. in_trace; subst; simpl in He; simplify_eq.
        apply Hext in Hin as Hev.
        pose proof (monitor_event_failed _ _ Hev He) as ->.
        specialize (Hfail _ Hin). by simplify_eq.
Qed.

End RunProperties.

Section RunTheorems.

Variables (env : Env.t) (port connected_text : string) (interval : Q).

Lemma attempt_refused (fuel : nat) :
  Env.connect env 0 port = Py.Ok false ->
  attempt env port connected_text interval fuel []
    = Some (Py.Return tt,
            [Py.Connect port (Py.Ok false);
             Py.Callback "__error__" ("Failed to connect to " +:+ port)]).
Proof.
  intros Hc. unfold attempt, Py.try_except.
  unfold Py.bind at 1, Py.call at 1. cbn [length]. by rewrite Hc.
Qed.

Lemma attempt_connect_raised (fuel : nat) (msg : string) :
  Env.connect env 0 port = Py.Fail msg ->
  attempt env port connected_text interval fuel []
    = Some (Py.Return tt, [Py.Connect port (Py.Fail msg); scanner_error msg]).
Proof.
  intros Hc. unfold attempt, Py.try_except.
  unfold Py.bind at 1, Py.call at 1. cbn [length]. by rewrite Hc.
Qed.

(** [attempt] can only fail to finish inside the monitoring loop. *)
Lemma attempt_unfinished (fuel : nat) :
  attempt env port connected_text interval fuel [] = None ->
  Env.connect env 0 port = Py.Ok true
  /\ Env.start_scan env 2 = Py.Ok tt
  /\ GuiToo.ScannerThread.monitor env interval fuel
       [Py.Connect port (Py.Ok true); Py.Callback "__status__" connected_text;
        Py.StartScan (Py.Ok tt)] = None.
Proof.
  unfold attempt, Py.try_except.
  unfold Py.bind at 1, Py.call at 1. cbn [length].
  destruct (Env.connect env 0 port) as [[]|msg]; cbn [negb app]; [|done..].
  unfold Py.bind at 1, GuiToo.ScannerThread.callback at 1, Py.emit at 1.
  cbn [app]. unfold Py.bind at 1, Py.call at 1. cbn [length].
  destruct (Env.start_scan env 2) as [[]|msg]; cbn [app]; [|done].
  unfold Py.bind at 1.
  destruct (GuiToo.ScannerThread.monitor env interval fuel _)
    as [[[[]|[msg|]] tr']|]; [| | |done].
  - unfold Py.bind, Py.call, Py.ret.
    destruct (Env.is_scanning env (length tr')) as [[]|msg]; [|done..].
    by destruct (Env.stop_scan env _) as [[]|msg].
  - done.
  - done.
Qed.

Lemma run_with_unfinished (fuel : nat) :
  run_with env port connected_text interval fuel [] = None ->
  gui_still_scanning env port fuel.
Proof.
  rewrite run_with_unfold.
  destruct (attempt env port connected_text interval fuel []) as [[o pre]|] eqn:Ha;
    [done|].
  intros _. apply attempt_unfinished in Ha as (Hc & Hs & Hmon).
  split; [done|]. split; [done|]. intros k Hk.
  by destruct (monitor_unfinished env interval fuel _ Hmon k Hk).
Qed.

Lemma run_with_finished (fuel : nat) (o : Py.outcome unit) (tr : Py.trace) :
  run_with env port connected_text interval fuel [] = Some (o, tr) ->
  o = Py.Return tt
  /\ exists pre,
       attempt_trace env port connected_text interval fuel pre
       /\ tr = pre ++ epilogue (Env.disconnect env (length pre)).
Proof.
  rewrite run_with_unfold.
  destruct (attempt env port connected_text interval fuel []) as [[o' pre]|] eqn:Ha;
    [|done].
  intros [= <- <-]. apply attempt_finished in Ha as [-> Hpre].
  split; [done|]. exists pre. split; [done|]. by rewrite <- app_assoc.
Qed.

Lemma run_with_stops (T fuel : nat) :
  stop_requested_at env T -> (T < fuel)%nat ->
  stops_cleanly T (run_with env port connected_text interval fuel []).
Proof.
  intros [_ Hstop] Hfuel.
  destruct (run_with env port connected_text interval fuel []) as [[o tr]|] eqn:Hrun.
  - apply run_with_finished in Hrun as (-> & pre & Hpre & ->).
    exists pre, (Env.disconnect env (length pre)). split; [done|].
    destruct (attempt_trace_counts _ _ _ _ _ _ Hpre) as (_ & _ & Hd).
    destruct (attempt_trace_sleeps _ _ _ _ _ T _ Hstop Hpre) as [Hle Hzero].
    pose proof (sleeps_from_app_le T pre
                  (epilogue (Env.disconnect env (length pre)))) as Happ.
    assert (count_events is_sleep (epilogue (Env.disconnect env (length pre)))
            = 0%nat) as Hz by reflexivity.
    rewrite Hz in Happ. split; [done|]. split; [lia|].
    intros HT. specialize (Hzero HT). lia.
  - exfalso. rewrite run_with_unfold in Hrun.
    destruct (attempt env port connected_text interval fuel []) as [[o pre]|] eqn:Ha;
      [done|].
    apply attempt_unfinished in Ha as (_ & _ & Ha). revert Ha.
    destruct (next_test_spec T) as (m & Hm & Hm1 & _ & Hm3 & _).
    apply (monitor_ends env interval T fuel Hstop _ 1%nat); simpl; lia.
Qed.

End RunTheorems.

(** As long as the flag is found clear and the device scanning, the loop
    goes on. *)
Lemma monitor_goes_on (env : Env.t) (interval : Q) (fuel : nat) :
  forall tr : Py.trace,
    (forall k, (k < fuel)%nat ->
       Env.stop_event env (length tr + 3 * k) = false
       /\ Env.is_scanning env (length tr + 1 + 3 * k) = Py.Ok true) ->
    GuiToo.ScannerThread.monitor env interval fuel tr = None.
Proof.
  induction fuel as [|fuel IH]; intros tr Hall; [done|].
  cbn [GuiToo.ScannerThread.monitor].
  destruct (Hall 0%nat) as [Hflag Hscan]; [lia|].
  rewrite !Nat.add_0_r in Hflag, Hscan.
  unfold Py.bind at 1, Py.observe at 1. rewrite Hflag.
  unfold Py.bind at 1, Py.call at 1. rewrite length_app. cbn [length].
  rewrite Hscan.
  unfold Py.bind at 1, Py.emit at 1. apply IH. intros k Hk.
  rewrite !length_app. cbn [length].
  destruct (Hall (S k)) as [Hf Hs]; [lia|].
  split; [rewrite <- Hf|rewrite <- Hs]; f_equal; lia.
Qed.

Lemma run_with_goes_on (env : Env.t) (port connected_text : string)
    (interval : Q) (fuel : nat) :
  gui_still_scanning env port fuel ->
  run_with env port connected_text interval fuel [] = None.
Proof.
  intros (Hc & Hs & Hloop). rewrite run_with_unfold.
  assert (attempt env port connected_text interval fuel [] = None) as ->; [|done].
  unfold attempt, Py.try_except.
  unfold Py.bind at 1, Py.call at 1. cbn [length]. rewrite Hc. cbn [negb app].
  unfold Py.bind at 1, GuiToo.ScannerThread.callback at 1, Py.emit at 1.
  cbn [app]. unfold Py.bind at 1, Py.call at 1. cbn [length]. rewrite Hs.
  cbn [app]. unfold Py.bind at 1.
  rewrite monitor_goes_on; [done|]. intros k Hk. cbn [length].
  destruct (Hloop k Hk) as [Hf Hsc]. split; [rewrite <- Hf|rewrite <- Hsc]; f_equal; lia.
Qed.

(** The bound of one sleep is reached: with the flag set at time 5, after
    the loop has tested it at time 3, the sleep that begins at time 5 still
    takes place. *)
Example one_more_sleep :
  Gui.ScannerThread.run (calm_env 5) "/dev/ttyACM0" 2 []
    = Some (Py.Return tt,
            [Py.Connect "/dev/ttyACM0" (Py.Ok true);
             Py.Callback "__status__" "Connected to /dev/ttyACM0 — starting scan";
             Py.StartScan (Py.Ok tt);
             Py.IsSet false; Py.IsScanning (Py.Ok true); Py.Sleep (1 # 2) false;
             Py.IsSet true;
             Py.IsScanning (Py.Ok true); Py.StopScan (Py.Ok tt);
             Py.Disconnect (Py.Ok tt);
             Py.Callback "__status__" "Disconnected"])
  /\ sleeps_from 5
       [Py.Connect "/dev/ttyACM0" (Py.Ok true);
        Py.Callback "__status__" "Connected to /dev/ttyACM0 — starting scan";
        Py.StartScan (Py.Ok tt);
        Py.IsSet false; Py.IsScanning (Py.Ok true); Py.Sleep (1 # 2) false;
        Py.IsSet true;
        Py.IsScanning (Py.Ok true); Py.StopScan (Py.Ok tt);
        Py.Disconnect (Py.Ok tt);
        Py.Callback "__status__" "Disconnected"] = 1%nat.
Proof. split; reflexivity. Qed.

(** Stop, then Start: Stop leaves the Start button enabled, and Start
    clears the one flag of the window, which the thread stopped a moment
    ago still tests. *)
Lemma stop_then_start_clears_flag (env : Env.t) (w : Gui.MainWindow.t)
    (w2 : GuiToo.MainWindow.t) (ui : Qt.controls) (tr : Py.trace) (port : string) :
  (exists w' ui' tr',
     Gui.MainWindow._on_stop env w ui tr = Some (Py.Return (w', ui'), tr')
     /\ Qt.scanner_stop_event ui' = true /\ Qt.start_btn ui' = true
     /\ Qt.scanner_stop_event (Gui.MainWindow._on_start port w' ui').1.2 = false)
  /\ (exists w' ui' tr',
        GuiToo.MainWindow._stop_scan env w2 ui tr = Some (Py.Return (w', ui'), tr')
        /\ Qt.scanner_stop_event ui' = true /\ Qt.start_btn ui' = true
        /\ Qt.scanner_stop_event (GuiToo.MainWindow._start_scan port w' ui').1.2
           = false).
Proof.
  unfold Gui.MainWindow._on_stop, GuiToo.MainWindow._stop_scan, Py.bind,
    Py.try_except, Py.call, Py.except_Exception, Py.ret.
  destruct (Env.is_scanning env (length tr)) as [[]|msg];
    [destruct (Env.stop_scan env _) as [[]|msg]|..];
    (split; eexists _, _, _; (split; [reflexivity|done])).
Qed.

(** C2 (as amended). Once the stop flag is set, at time [T], and is still
    set when the monitoring loop next tests it, the scanner thread of
    either GUI variant finishes (within any fuel above [T]); from time [T]
    on its monitoring loop begins at most one more sleep, and none when the
    flag was set before the loop was entered, as it is when the stop comes
    before the connection completes. Every finished run, stopped or not,
    ends with the one disconnect attempt followed by the final status. That
    holds in particular when [connect] returns [False] or raises, where the
    thread reports the failure and goes straight to the disconnect attempt.
    A flag that is set and cleared again before the loop tests it, as Stop
    followed by Start leaves it, does not end the run. *)
Theorem stop_flag_ends_scan (env : Env.t) (port : string) (interval : Q)
    (T fuel : nat) :
  (stop_requested_at env T -> (T < fuel)%nat ->
   stops_cleanly T (Gui.ScannerThread.run env port fuel [])
   /\ stops_cleanly T (GuiToo.ScannerThread.run env port interval fuel []))
  /\ (forall o tr,
        Gui.ScannerThread.run env port fuel [] = Some (o, tr)
        \/ GuiToo.ScannerThread.run env port interval fuel [] = Some (o, tr) ->
        o = Py.Return tt
        /\ exists pre r,
             tr = pre ++ epilogue r /\ count_events is_disconnect pre = 0%nat)
  /\ match Env.connect env 0 port with
     | Py.Ok true => True
     | Py.Ok false =>
         Gui.ScannerThread.run env port fuel []
           = Some (Py.Return tt,
                   [Py.Connect port (Py.Ok false);
                    Py.Callback "__error__" ("Failed to connect to " +:+ port)]
                   ++ epilogue (Env.disconnect env 2))
         /\ GuiToo.ScannerThread.run env port interval fuel []
            = Gui.ScannerThread.run env port fuel []
     | Py.Fail msg =>
         Gui.ScannerThread.run env port fuel []
           = Some (Py.Return tt,
                   [Py.Connect port (Py.Fail msg); scanner_error msg]
                   ++ epilogue (Env.disconnect env 2))
         /\ GuiToo.ScannerThread.run env port interval fuel []
            = Gui.ScannerThread.run env port fuel []
     end.
Proof.
  rewrite gui_run_with, guitoo_run_with.
  split; [|split].
  - intros Hstop Hfuel. split; by apply run_with_stops.
  - intros o tr [Hrun|Hrun];
      apply run_with_finished in Hrun as (-> & pre & Hpre & ->);
      (split; [done|]); exists pre, (Env.disconnect env (length pre));
      (split; [done|]); by apply attempt_trace_counts in Hpre as (_ & _ & Hd).
  - destruct (Env.connect env 0 port) as [[]|msg] eqn:Hc; [done| |].
    + rewrite !run_with_unfold, !attempt_refused by done. done.
    + rewrite !run_with_unfold, !(attempt_connect_raised _ _ _ _ _ msg) by done.
      done.
Qed.

Lemma stop_flag_ends_scan_witness :
  stop_requested_at (calm_env 5) 5
  /\ (5 < 6)%nat
  /\ Gui.ScannerThread.run (calm_env 5) "/dev/ttyACM0" 6 []
     = Some (Py.Return tt,
             [Py.Connect "/dev/ttyACM0" (Py.Ok true);
              Py.Callback "__status__" "Connected to /dev/ttyACM0 — starting scan";
              Py.StartScan (Py.Ok tt);
              Py.IsSet false; Py.IsScanning (Py.Ok true); Py.Sleep (1 # 2) false;
              Py.IsSet true;
              Py.IsScanning (Py.Ok true); Py.StopScan (Py.Ok tt);
              Py.Disconnect (Py.Ok tt);
              Py.Callback "__status__" "Disconnected"])
  /\ stops_cleanly 5 (Gui.ScannerThread.run (calm_env 5) "/dev/ttyACM0" 6 [])
  /\ stops_cleanly 5
       (GuiToo.ScannerThread.run (calm_env 5) "/dev/ttyACM0" (5 # 2) 6 []).
Proof.
  assert (stop_requested_at (calm_env 5) 5) as Hstop by (split; reflexivity).
  assert (5 < 6)%nat as Hfuel by lia.
  assert (Gui.ScannerThread.run (calm_env 5) "/dev/ttyACM0" 6 []
          = Some (Py.Return tt,
                  [Py.Connect "/dev/ttyACM0" (Py.Ok true);
                   Py.Callback "__status__" "Connected to /dev/ttyACM0 — starting scan";
                   Py.StartScan (Py.Ok tt);
                   Py.IsSet false; Py.IsScanning (Py.Ok true);
                   Py.Sleep (1 # 2) false;
                   Py.IsSet true;
                   Py.IsScanning (Py.Ok true); Py.StopScan (Py.Ok tt);
                   Py.Disconnect (Py.Ok tt);
                   Py.Callback "__status__" "Disconnected"])) as Hrun
    by reflexivity.
  destruct (stop_flag_ends_scan (calm_env 5) "/dev/ttyACM0" (5 # 2) 5 6)
    as (Hstops & _ & _).
  split; [exact Hstop|]. split; [exact Hfuel|]. split; [exact Hrun|].
  split; [exact (proj1 (Hstops Hstop Hfuel))|].
  exact (proj2 (Hstops Hstop Hfuel)).
Defined.

(** The claim does not hold of a flag that is merely found set at some
    time: set at time 5, while the thread of either variant begins its
    first sleep, and clear again at time 6, when the loop tests it, the
    flag ends neither run, whatever the number of turns. *)
Lemma stop_flag_ends_scan_counterexample :
  ~ stop_ends_scan restart_env "/dev/ttyACM0" (5 # 2) 5.
Proof.
  intros Hclaim.
  destruct (Hclaim eq_refl) as (fuel & (pre & r & Hrun & _) & _).
  rewrite gui_run_with, run_with_goes_on in Hrun; [done|].
  split; [done|]. split; [done|]. intros k Hk. split; [|done].
  cbn [restart_env Env.stop_event]. apply Nat.eqb_neq. lia.
Qed.

(** The thread of [restart_env] is still in its loop after 200 turns, and
    after any number of them. *)
Example restarted_scan_goes_on :
  Gui.ScannerThread.run restart_env "/dev/ttyACM0" 200 [] = None
  /\ GuiToo.ScannerThread.run restart_env "/dev/ttyACM0" (5 # 2) 200 [] = None
  /\ forall fuel,
       Gui.ScannerThread.run restart_env "/dev/ttyACM0" fuel [] = None
       /\ GuiToo.ScannerThread.run restart_env "/dev/ttyACM0" (5 # 2) fuel [] = None.
Proof.
  assert (forall fuel, gui_still_scanning restart_env "/dev/ttyACM0" fuel) as Hon.
  { intros fuel. split; [done|]. split; [done|]. intros k Hk. split; [|done].
    cbn [restart_env Env.stop_event]. apply Nat.eqb_neq. lia. }
  rewrite !gui_run_with, !guitoo_run_with.
  split; [by apply run_with_goes_on|]. split; [by apply run_with_goes_on|].
  intros fuel. rewrite !gui_run_with, !guitoo_run_with.
  split; by apply run_with_goes_on.
Qed.

(** ** Failures of the scan lifecycle *)

Section GuiReports.

Variables (env : Env.t) (port connected_text : string) (interval : Q) (fuel : nat).

Lemma try_failure_cases (e : Py.event) :
  try_failure e ->
  (exists p, e = Py.Connect p (Py.Ok false))
  \/ exists msg, failed_in_try e = Some msg.
Proof.
  destruct e as [|p [[]|]|[]| |[]|? []|[]|[]| | | |]; simpl;
    try (by intros []); eauto.
Qed.

Lemma attempt_trace_surfaced (pre : list Py.event) (r : Py.result unit) :
  attempt_trace env port connected_text interval fuel pre ->
  failures_surfaced try_failure (pre ++ epilogue r).
Proof.
  intros Hpre i e Hi He.
  destruct (attempt_trace_reports _ _ _ _ _ _ Hpre) as [Hrefused Hraised].
  destruct (decide (i < length pre)%nat) as [Hlt|Hge].
  - rewrite lookup_app_l in Hi by done.
    assert (e ∈ pre) as Hin by (apply list_elem_of_lookup; eauto).
    assert (exists text, last pre = Some (Py.Callback "__error__" text)
                         /\ e <> Py.Callback "__error__" text)
      as (text & Hlast & Hne).
    { destruct (try_failure_cases _ He) as [[p ->]|[msg Hmsg]].
      - eexists. split; [by eapply Hrefused|done].
      - eexists. split; [by eapply Hraised|]. intros ->. done. }
    destruct (last_is_later _ _ _ _ Hi Hlast Hne) as [Hlater Hj].
    exists (pred (length pre)), text. split; [done|].
    rewrite lookup_app_l; [done|lia].
  - rewrite lookup_app_r in Hi by lia.
    destruct (i - length pre)%nat as [|[|n]]; simpl in Hi; simplify_eq.
    all: by destruct He.
Qed.

Lemma run_with_reported (o : Py.outcome unit) (tr : Py.trace) :
  run_with env port connected_text interval fuel [] = Some (o, tr) ->
  gui_reported port o tr.
Proof.
  intros (-> & pre & Hpre & ->)%run_with_finished.
  split; [done|]. split; [by apply attempt_trace_surfaced|].
  exists pre, (Env.disconnect env (length pre)). split; [done|].
  destruct (attempt_trace_reports _ _ _ _ _ _ Hpre) as [Hrefused Hraised].
  destruct (attempt_trace_counts _ _ _ _ _ _ Hpre) as (Hc & Hs & Hd).
  done.
Qed.

End GuiReports.

Section ConsoleReports.

Variable env : Env.t.

Lemma console_monitor_events (fuel : nat) :
  forall (tr tr' : Py.trace) (o : Py.outcome unit),
    Console.monitor env fuel tr = Some (o, tr') ->
    exists ext,
      tr' = tr ++ ext
      /\ Forall console_monitor_event ext
      /\ (forall msg, Py.IsScanning (Py.Fail msg) ∈ ext ->
            o = Py.Raise (Py.Exception msg))
      /\ (forall secs, Py.Sleep secs true ∈ ext ->
            o = Py.Raise Py.KeyboardInterrupt).
Proof.
  induction fuel as [|fuel' IH]; intros tr tr' o; [done|].
  cbn [Console.monitor].
  unfold Py.bind at 1, Py.call at 1.
  destruct (Env.is_scanning env (length tr)) as [[]|msg] eqn:Hscan.
  - unfold Py.bind at 1, Py.observe at 1.
    destruct (Env.interrupt env (length (tr ++ [Py.IsScanning (Py.Ok true)])))
      eqn:Hint.
    + intros [= <- <-].
      exists [Py.IsScanning (Py.Ok true); Py.Sleep (1 # 2) true].
      split; [by rewrite <- !app_assoc|]. split; [by repeat constructor|].
      split; [intros msg Hin; in_trace|done].
    + intros (ext & -> & Hall & Hfail & Hkbd)%IH.
      exists ([Py.IsScanning (Py.Ok true); Py.Sleep (1 # 2) false] ++ ext).
      split; [by rewrite <- !app_assoc|]. split; [by repeat constructor|].
      split.
      * intros msg Hin. apply Hfail. in_trace.
      * intros secs Hin. apply (Hkbd secs). in_trace.
  - intros [= <- <-]. exists [Py.IsScanning (Py.Ok false)].
    split; [done|]. split; [by repeat constructor|].
    split; [intros msg Hin; in_trace|intros secs Hin; in_trace].
  - intros [= <- <-]. exists [Py.IsScanning (Py.Fail msg)].
    split; [done|]. split; [by repeat constructor|].
    split; [intros msg' Hin; in_trace|intros secs Hin; in_trace].
Qed.

Lemma console_monitor_unfinished (fuel : nat) :
  forall tr : Py.trace,
    Console.monitor env fuel tr = None ->
    forall k, (k < fuel)%nat ->
      Env.is_scanning env (length tr + 2 * k) = Py.Ok true
      /\ Env.interrupt env (length tr + 1 + 2 * k) = false.
Proof.
  induction fuel as [|fuel' IH]; intros tr Hnone k Hk; [lia|].
  revert Hnone. cbn [Console.monitor].
  unfold Py.bind at 1, Py.call at 1.
  destruct (Env.is_scanning env (length tr)) as [[]|msg] eqn:Hscan; [|done..].
  unfold Py.bind at 1, Py.observe at 1.
  rewrite length_app. cbn [length].
  destruct (Env.interrupt env (length tr + 1)) eqn:Hint; [done|].
  intros Hnone. destruct k as [|k].
  - by rewrite !Nat.add_0_r.
  - destruct (IH _ Hnone k) as [Hs Hi]; [lia|].
    rewrite !length_app in Hs, Hi. cbn [length] in Hs, Hi.
    split; [rewrite <- Hs|rewrite <- Hi]; f_equal; lia.
Qed.

Lemma console_attempt_unfinished (fuel : nat) :
  console_attempt env fuel [] = None -> console_still_scanning env fuel.
Proof.
  unfold console_attempt, console_still_scanning, Py.try_except.
  unfold Py.bind at 1, Py.call at 1. cbn [length].
  destruct (Env.connect env 0 Console.port) as [[]|msg]; cbn [negb app];
    [|done..].
  unfold Py.bind at 1, Py.print at 1, Py.emit at 1.
  cbn [app]. unfold Py.bind at 1, Py.call at 1. cbn [length].
  destruct (Env.start_scan env 2) as [[]|msg]; cbn [app]; [|done].
  unfold Py.bind at 1, Py.emit at 1. cbn [app]. unfold Py.bind at 1.
  destruct (Console.monitor env fuel _) as [[[[]|[msg|]] tr']|] eqn:Hmon.
  - unfold Py.call. by destruct (Env.stop_scan env _) as [[]|msg].
  - done.
  - done.
  - intros _. split; [done|]. split; [done|]. intros k Hk.
    by destruct (console_monitor_unfinished fuel _ Hmon k Hk).
Qed.

Lemma console_cleanup_runs (tr : Py.trace) :
  console_cleanup env tr
    = Some (Py.Return tt,
            tr ++ console_epilogue (Env.disconnect env (length tr))).
Proof.
  unfold console_cleanup, Py.bind, Py.try_except, Py.call, Py.except_Exception,
    Py.print, Py.emit, console_epilogue.
  destruct (Env.disconnect env (length tr)) as [[]|msg];
    by rewrite <- !app_assoc.
Qed.

Lemma console_start_scan_unfold (fuel : nat) (tr : Py.trace) :
  Console.start_scan env fuel tr
    = match console_attempt env fuel tr with
      | None => None
      | Some (o, tr') =>
          Some (o, tr' ++ console_epilogue (Env.disconnect env (length tr')))
      end.
Proof.
  change (Console.start_scan env fuel)
    with (Py.try_finally (console_attempt env fuel) (console_cleanup env)).
  unfold Py.try_finally.
  destruct (console_attempt env fuel tr) as [[o tr']|]; [|done].
  by rewrite console_cleanup_runs.
Qed.

Lemma console_attempt_finished (fuel : nat) (o : Py.outcome unit) (tr : Py.trace) :
  console_attempt env fuel [] = Some (o, tr) ->
  o = Py.Return tt /\ console_attempt_trace tr.
Proof.
  unfold console_attempt, console_attempt_trace, Py.try_except.
  unfold Py.bind at 1, Py.call at 1. cbn [length].
  destruct (Env.connect env 0 Console.port) as [[]|msg]; cbn [negb app].
  - unfold Py.bind at 1, Py.print at 1, Py.emit at 1.
    cbn [app]. unfold Py.bind at 1, Py.call at 1. cbn [length].
    destruct (Env.start_scan env 2) as [[]|msg]; cbn [app].
    + unfold Py.bind at 1, Py.emit at 1. cbn [app]. unfold Py.bind at 1.
      destruct (Console.monitor env fuel
                  [Py.Connect Console.port (Py.Ok true);
                   Py.Stdout "Starting RSSI scan...";
                   Py.StartScan (Py.Ok tt); Py.StartPlotThread])
        as [[o' tr']|] eqn:Hmon; [|done].
      destruct (console_monitor_events _ _ _ _ Hmon)
        as (ext & -> & Hall & Hfail & Hkbd).
      destruct o' as [[]|[msg|]].
      * unfold Py.call.
        match goal with
        | |- context [Env.stop_scan env ?t] =>
            destruct (Env.stop_scan env t) as [[]|msg]
        end.
        -- intros [= <- <-]. split; [done|]. do 3 right.
           exists ext, [Py.StopScan (Py.Ok tt)], (Py.Return tt).
           split; [by simpl; rewrite <- ?app_assoc|]. split; [done|].
           split; [done|]. split; [done|]. by left.
        -- unfold Py.print, Py.emit. intros [= <- <-]. split; [done|]. do 3 right.
           exists ext, [Py.StopScan (Py.Fail msg); scan_error msg], (Py.Return tt).
           split; [by simpl; rewrite <- ?app_assoc|]. split; [done|].
           split; [done|]. split; [done|]. right. by exists msg.
      * unfold Py.print, Py.emit. intros [= <- <-]. split; [done|]. do 3 right.
        exists ext, [scan_error msg], (Py.Raise (Py.Exception msg)).
        split; [by simpl; rewrite <- ?app_assoc|]. by repeat split.
      * unfold Py.print, Py.emit. intros [= <- <-]. split; [done|]. do 3 right.
        exists ext, [Py.Stdout "Scan interrupted by user."],
          (Py.Raise Py.KeyboardInterrupt).
        split; [by simpl; rewrite <- ?app_assoc|]. by repeat split.
    + unfold Py.print, Py.emit. cbn [app].
      intros [= <- <-]. split; [done|]. do 2 right. left. by exists msg.
  - unfold Py.print, Py.emit. cbn [app].
    intros [= <- <-]. split; [done|]. right. by left.
  - unfold Py.print, Py.emit. cbn [app].
    intros [= <- <-]. split; [done|]. left. by exists msg.
Qed.

End ConsoleReports.

Lemma console_monitor_event_failed (e : Py.event) (msg : string) :
  console_monitor_event e -> failed_in_try e = Some msg ->
  e = Py.IsScanning (Py.Fail msg).
Proof.
  destruct e as [| |[]|? |[|]|? []| | | | | |]; simpl; try done.
  by intros _ [= ->].
Qed.

Lemma console_count_events_none (p : Py.event -> bool) (ext : list Py.event) :
  Forall console_monitor_event ext ->
  (forall e, console_monitor_event e -> p e = false) ->
  count_events p ext = 0%nat.
Proof.
  intros Hall Hp. induction Hall as [|e ext He _ IH]; [done|].
  unfold count_events in *. rewrite filter_cons.
  destruct (decide (p e = true)) as [Hpe|]; [|done].
  rewrite (Hp e He) in Hpe. done.
Qed.

Lemma console_attempt_trace_counts (pre : list Py.event) :
  console_attempt_trace pre ->
  count_events is_connect pre = 1%nat
  /\ (count_events is_start_scan pre <= 1)%nat
  /\ count_events is_disconnect pre = 0%nat.
Proof.
  intros [[msg ->]|[->|[[msg ->]|(ext & tail & o & -> & Hall & _ & _ & Htail)]]];
    [by cbv; lia..|].
  rewrite !count_events_app.
  rewrite !(console_count_events_none _ ext Hall) by by intros [].
  destruct o as [[]|[msg|]]; cbn [console_scan_tail] in Htail.
  - destruct Htail as [->|[msg ->]]; cbv; lia.
  - subst tail. cbv. lia.
  - subst tail. cbv. lia.
Qed.

Lemma console_attempt_trace_reports (pre : list Py.event) :
  console_attempt_trace pre ->
  (forall p, Py.Connect p (Py.Ok false) ∈ pre ->
     last pre = Some (Py.Stdout "Failed to connect to the device."))
  /\ (forall e msg, e ∈ pre -> failed_in_try e = Some msg ->
        last pre = Some (scan_error msg))
  /\ (forall secs, Py.Sleep secs true ∈ pre ->
        last pre = Some (Py.Stdout "Scan interrupted by user.")).
Proof.
  intros [[msg ->]|[->|[[msg ->]
           |(ext & tail & o & -> & Hall & Hfail & Hkbd & Htail)]]].
  - split; [intros p Hin; in_trace|]. split; [|intros secs Hin; in_trace].
    intros e msg' Hin He. in_trace; subst; simpl in He; by simplify_eq.
  - split; [done|]. split; [|intros secs Hin; in_trace].
    intros e msg' Hin He. in_trace; subst; simpl in He; by simplify_eq.
  - split; [intros p Hin; in_trace|]. split; [|intros secs Hin; in_trace].
    intros e msg' Hin He. in_trace; subst; simpl in He; by simplify_eq.
  - assert (forall e, e ∈ ext -> console_monitor_event e) as Hext
      by by apply Forall_forall.
    split; [|split].
    + intros p Hin. exfalso.
      destruct o as [[]|[msg|]]; cbn [console_scan_tail] in Htail.
      * destruct Htail as [->|[msg ->]]; in_trace; by apply Hext in Hin.
      * subst tail. in_trace. by apply Hext in Hin.
      * subst tail. in_trace. by apply Hext in Hin.
    + intros e msg' Hin He. rewrite app_assoc, last_app.
      destruct o as [[]|[msg|]]; cbn [console_scan_tail] in Htail.
      * destruct Htail as [->|[msg ->]];
          in_trace; subst; simpl in He; simplify_eq; try done.
        all: apply Hext in Hin as Hev;
          pose proof (console_monitor_event_failed _ _ Hev He) as ->;
          by specialize (Hfail _ Hin).
      * subst tail. in_trace; subst; simpl in He; simplify_eq.
        apply Hext in Hin as Hev.
        pose proof (console_monitor_event_failed _ _ Hev He) as ->.
        specialize (Hfail _ Hin). by simplify_eq.
      * subst tail. in_trace; subst; simpl in He; simplify_eq.
        apply Hext in Hin as Hev.
        pose proof (console_monitor_event_failed _ _ Hev He) as ->.
        by specialize (Hfail _ Hin).
    + intros secs Hin. rewrite app_assoc, last_app.
      destruct o as [[]|[msg|]]; cbn [console_scan_tail] in Htail.
      * destruct Htail as [->|[msg ->]]; in_trace;
          by specialize (Hkbd _ Hin).
      * subst tail. in_trace. by specialize (Hkbd _ Hin).
      * by subst tail.
Qed.

Lemma console_start_scan_unfinished (env : Env.t) (fuel : nat) :
  Console.start_scan env fuel [] = None -> console_still_scanning env fuel.
Proof.
  rewrite console_start_scan_unfold.
  destruct (console_attempt env fuel []) as [[o pre]|] eqn:Ha; [done|].
  intros _. by apply console_attempt_unfinished.
Qed.

Lemma console_start_scan_reported (env : Env.t) (fuel : nat)
    (o : Py.outcome unit) (tr : Py.trace) :
  Console.start_scan env fuel [] = Some (o, tr) -> console_reported o tr.
Proof.
  rewrite console_start_scan_unfold.
  destruct (console_attempt env fuel []) as [[o' pre]|] eqn:Ha; [|done].
  intros [= <- <-]. apply console_attempt_finished in Ha as [-> Hpre].
  split; [done|]. exists pre, (Env.disconnect env (length pre)).
  split; [done|].
  destruct (console_attempt_trace_reports _ Hpre) as (H1 & H2 & H3).
  destruct (console_attempt_trace_counts _ Hpre) as (Hc & Hs & Hd).
  done.
Qed.

(** C6 (as amended). A scanner thread of either GUI variant that finishes
    returns normally: no exception leaves [run]. A refused connection and
    every vendor call that raises inside the [try] body are each followed
    by an error handed to the window, with the text of the failure, and the
    thread goes on to its one disconnect attempt without trying anything
    again. A [disconnect] that raises is caught and dropped: whatever it
    gave, the thread ends by sending the status [Disconnected]. The console
    variant behaves alike, with printed lines for statuses; it prints the
    failure of [disconnect] as well, and reports Ctrl-C. A thread that has
    not finished has met no failure yet: it is still polling a running
    scan. *)
Theorem failures_become_status_text (env : Env.t) (port : string)
    (interval : Q) (fuel : nat) :
  match Gui.ScannerThread.run env port fuel [] with
  | Some (o, tr) => gui_reported port o tr
  | None => gui_still_scanning env port fuel
  end
  /\ match GuiToo.ScannerThread.run env port interval fuel [] with
     | Some (o, tr) => gui_reported port o tr
     | None => gui_still_scanning env port fuel
     end
  /\ match Console.start_scan env fuel [] with
     | Some (o, tr) => console_reported o tr
     | None => console_still_scanning env fuel
     end.
Proof.
  rewrite gui_run_with, guitoo_run_with.
  split; [|split].
  - destruct (run_with env port _ (1 # 2) fuel []) as [[o tr]|] eqn:Hrun.
    + by eapply run_with_reported.
    + by eapply run_with_unfinished.
  - destruct (run_with env port _ interval fuel []) as [[o tr]|] eqn:Hrun.
    + by eapply run_with_reported.
    + by eapply run_with_unfinished.
  - destruct (Console.start_scan env fuel []) as [[o tr]|] eqn:Hrun.
    + by apply console_start_scan_reported in Hrun.
    + by apply console_start_scan_unfinished.
Qed.

Example stuck_port_console_run :
  Console.start_scan stuck_port_env 1 []
    = Some (Py.Return tt, stuck_port_console_trace).
Proof. reflexivity. Qed.

(** C6 as stated fails in the GUI variants: when [disconnect] raises, the
    thread hands no error to the window; the only status that follows the
    failed call is [Disconnected]. *)
Lemma failures_become_status_text_counterexample :
  Gui.ScannerThread.run stuck_port_env "/dev/ttyACM0" 1 []
    = Some (Py.Return tt, stuck_port_trace)
  /\ ~ failures_surfaced is_failure stuck_port_trace.
Proof.
  split; [reflexivity|]. intros Hall.
  destruct (Hall 6%nat (Py.Disconnect (Py.Fail "port busy")) eq_refl I)
    as (j & text & Hj & Hlook).
  do 8 (destruct j as [|j]; [simpl in Hlook; first [lia|discriminate Hlook]|]).
  discriminate Hlook.
Qed.

(** * Further properties of the three programs *)

(** ** Printing and reading back a sweep *)

Lemma digit_is_plain (c : ascii) :
  Py.is_digit c = true ->
  Py.is_space c = false
  /\ Ascii.eqb c "+" = false /\ Ascii.eqb c "-" = false
  /\ Ascii.eqb c "_" = false /\ Ascii.eqb c "," = false
  /\ Ascii.eqb c "]" = false /\ Ascii.eqb c (ascii_of_N 10) = false.
Proof.
  destruct c as [[] [] [] [] [] [] [] []]; cbv; intros; try discriminate;
    repeat split.
Qed.

Lemma pretty_N_char_digit (m : N) :
  (m < 10)%N ->
  Py.is_digit (pretty_N_char m) = true
  /\ Py.digit_value (pretty_N_char m) = Z.of_N m.
Proof.
  intros Hm.
  assert (m = 0 \/ m = 1 \/ m = 2 \/ m = 3 \/ m = 4 \/ m = 5 \/ m = 6
          \/ m = 7 \/ m = 8 \/ m = 9)%N as Hcases by lia.
  destruct Hcases as [->|[->|[->|[->|[->|[->|[->|[->|[->| ->]]]]]]]]];
    by split.
Qed.

(** Reading back what [pretty_N_go x s] printed, from 0, is reading [s]
    from [x]. *)
Lemma pretty_N_go_value (x : N) :
  forall s : string,
    fold_left (fun acc c => if Py.is_digit c then 10 * acc + Py.digit_value c
                            else acc)%Z
      (list_ascii_of_string (pretty_N_go x s)) 0%Z
    = fold_left (fun acc c => if Py.is_digit c then 10 * acc + Py.digit_value c
                              else acc)%Z
        (list_ascii_of_string s) (Z.of_N x).
Proof.
  induction (N.lt_wf_0 x) as [x _ IH]; intros s.
  destruct (decide (x = 0)%N) as [->|Hx]; [by rewrite pretty_N_go_0|].
  rewrite pretty_N_go_step by lia.
  rewrite IH by (apply N.div_lt; lia). cbn [list_ascii_of_string fold_left].
  destruct (pretty_N_char_digit (x mod 10)) as [-> ->];
    [by apply N.mod_lt|].
  f_equal. rewrite (N.div_mod x 10) at 3 by done. lia.
Qed.

(** What [pretty_N_go x s] prints before [s]: digits, at least one when
    [x] is positive. *)
Lemma pretty_N_go_digits (x : N) :
  forall s : string,
    exists d,
      list_ascii_of_string (pretty_N_go x s) = d ++ list_ascii_of_string s
      /\ Forall (fun c => Py.is_digit c = true) d
      /\ ((0 < x)%N -> d <> []).
Proof.
  induction (N.lt_wf_0 x) as [x _ IH]; intros s.
  destruct (decide (x = 0)%N) as [->|Hx].
  - exists []. rewrite pretty_N_go_0. split; [done|]. split; [done|lia].
  - rewrite pretty_N_go_step by lia.
    destruct (IH (x / 10)%N) with (s := String (pretty_N_char (x mod 10)) s)
      as (d & Hd & Hall & _); [apply N.div_lt; lia|].
    exists (d ++ [pretty_N_char (x mod 10)]). split; [|split].
    + rewrite Hd. cbn [list_ascii_of_string]. by rewrite <- app_assoc.
    + apply Forall_app. split; [done|]. constructor; [|done].
      by apply pretty_N_char_digit, N.mod_lt.
    + intros _. by destruct d.
Qed.

Lemma pretty_N_chars (n : N) :
  exists d,
    list_ascii_of_string (pretty n) = d
    /\ d <> [] /\ Forall (fun c => Py.is_digit c = true) d
    /\ Py.digits_value d = Z.of_N n.
Proof.
  eexists. split; [done|]. unfold pretty, pretty_N.
  destruct (decide (n = 0)%N) as [->|Hn]; [by repeat split; repeat constructor|].
  destruct (pretty_N_go_digits n "") as (d & Hd & Hall & Hne).
  rewrite app_nil_r in Hd. rewrite Hd. split; [apply Hne; lia|].
  split; [done|]. rewrite <- Hd. unfold Py.digits_value.
  by rewrite pretty_N_go_value.
Qed.

(** [str] of an int is an optional minus sign and the digits of its
    absolute value. *)
Lemma pretty_Z_chars (z : Z) :
  exists d,
    list_ascii_of_string (pretty z)
      = (if (z <? 0)%Z then ["-"%char] else []) ++ d
    /\ d <> [] /\ Forall (fun c => Py.is_digit c = true) d
    /\ Py.digits_value d = Z.abs z.
Proof.
  destruct z as [|p|p]; unfold pretty, pretty_Z.
  - exists ["0"%char]. by repeat split; repeat constructor.
  - destruct (pretty_N_chars (N.pos p)) as (d & Hd & Hne & Hall & Hval).
    exists d. by repeat split.
  - destruct (pretty_N_chars (N.pos p)) as (d & Hd & Hne & Hall & Hval).
    exists d. split; [|by repeat split]. by rewrite <- Hd.
Qed.

Lemma take_while_all {A} (p : A -> bool) (l : list A) :
  Forall (fun x => p x = true) l ->
  Py.take_while p l = l /\ Py.drop_while p l = [].
Proof.
  induction 1 as [|x l Hx _ [IH1 IH2]]; [done|]. simpl. rewrite Hx.
  by rewrite IH1, IH2.
Qed.

Lemma digits_ok_digits (d : list ascii) :
  Forall (fun c => Py.is_digit c = true) d ->
  Py.digits_ok true d = true /\ (d <> [] -> Py.digits_ok false d = true).
Proof.
  induction 1 as [|c d Hc _ [IH _]]; [done|]. simpl. by rewrite Hc.
Qed.

Lemma filter_digits (d : list ascii) :
  Forall (fun c => Py.is_digit c = true) d ->
  filter (fun c => Py.is_digit c = true) d = d.
Proof.
  induction 1 as [|c d Hc _ IH]; [done|].
  by rewrite filter_cons_True, IH.
Qed.

(** [int] reads a run of digits, after an optional space and an optional
    minus sign, as the number they spell. *)
Lemma int_of_digits (limit : nat) (space negative : bool) (d : list ascii) :
  d <> [] -> Forall (fun c => Py.is_digit c = true) d ->
  (0 <? limit)%nat && (limit <? length d)%nat = false ->
  Py.int limit ((if space then [" "%char] else [])
                ++ (if negative then ["-"%char] else []) ++ d)
    = Py.Return (if negative then - Py.digits_value d else Py.digits_value d)%Z.
Proof.
  intros Hne Hall Hlimit.
  assert (Forall (fun c => Py.is_digit c || Ascii.eqb c "_" = true) d) as Hrun.
  { eapply Forall_impl; [exact Hall|]. intros c Hc. simpl in Hc. by rewrite Hc. }
  destruct (take_while_all _ _ Hrun) as [Htake Hdrop].
  destruct (digits_ok_digits _ Hall) as [_ Hok]. specialize (Hok Hne).
  assert (Py.drop_while Py.is_space
            ((if space then [" "%char] else [])
             ++ (if negative then ["-"%char] else []) ++ d)
          = (if negative then ["-"%char] else []) ++ d) as Hstrip.
  { destruct d as [|c d']; [done|].
    apply Forall_cons in Hall as [Hc _].
    destruct (digit_is_plain _ Hc) as (Hsp & _).
    destruct space, negative; simpl; by rewrite ?Hsp. }
  unfold Py.int. rewrite Hstrip.
  destruct negative; cbn [app].
  - cbn [Ascii.eqb Bool.eqb]. cbv beta iota zeta.
    rewrite Htake, Hdrop, Hok, (filter_digits _ Hall), Hlimit. reflexivity.
  - destruct d as [|c d'] eqn:Hd; [done|].
    apply Forall_cons in Hall as Hc. destruct Hc as [Hc _].
    destruct (digit_is_plain _ Hc) as (_ & Hplus & Hminus & _).
    rewrite Hplus, Hminus. cbv beta iota zeta.
    rewrite Htake, Hdrop, Hok, (filter_digits _ Hall), Hlimit. reflexivity.
Qed.

(** Within the digit limit, [int(str(z))] is [z], also when a space comes
    first, as it does after the commas of a printed list. *)
Lemma int_str_int (limit : nat) (space : bool) (z : Z) (s : list ascii) :
  Py.str_int limit z = Py.Return s ->
  Py.int limit ((if space then [" "%char] else []) ++ s) = Py.Return z.
Proof.
  unfold Py.str_int.
  destruct (pretty_Z_chars z) as (d & Hs & Hne & Hall & Hval). rewrite Hs.
  assert (filter (fun c => Py.is_digit c = true)
            ((if (z <? 0)%Z then ["-"%char] else []) ++ d) = d) as ->.
  { rewrite filter_app, (filter_digits _ Hall). by destruct (z <? 0)%Z. }
  destruct ((0 <? limit)%nat && (limit <? length d)%nat) eqn:Hlimit; [done|].
  intros [= <-]. rewrite (int_of_digits limit space (z <? 0)%Z d) by done.
  f_equal. rewrite Hval. destruct (Z.ltb_spec z 0); lia.
Qed.

Lemma split_cons_other (sep c : ascii) (s : list ascii) :
  Ascii.eqb c sep = false ->
  Py.split sep (c :: s)
    = match Py.split sep s with
      | p :: ps => (c :: p) :: ps
      | [] => [[c]]
      end.
Proof. intros Hc. simpl. by rewrite Hc. Qed.

Lemma split_piece (sep : ascii) (p rest : list ascii) :
  Forall (fun c => Ascii.eqb c sep = false) p ->
  Py.split sep (p ++ sep :: rest) = p :: Py.split sep rest.
Proof.
  induction 1 as [|c p Hc _ IH]; simpl.
  - by rewrite Ascii.eqb_refl.
  - by rewrite Hc, IH.
Qed.

Lemma split_last_piece (sep : ascii) (p : list ascii) :
  Forall (fun c => Ascii.eqb c sep = false) p -> Py.split sep p = [p].
Proof.
  induction 1 as [|c p Hc _ IH]; simpl; [done|]. by rewrite Hc, IH.
Qed.

(** Splitting at the commas what [join] put together with a comma and a
    space gives the pieces back, all but the first after a space. *)
Lemma split_join (p : list ascii) (ps : list (list ascii)) :
  Forall (Forall (fun c => Ascii.eqb c "," = false)) (p :: ps) ->
  Py.split "," (Py.join [","; " "]%char (p :: ps))
    = p :: map (cons " "%char) ps.
Proof.
  revert p. induction ps as [|q ps IH]; intros p Hall.
  - apply Forall_cons in Hall as [Hp _]. by apply split_last_piece.
  - apply Forall_cons in Hall as [Hp Hrest].
    change (Py.join [","; " "]%char (p :: q :: ps))
      with (p ++ ","%char :: " "%char :: Py.join [","; " "]%char (q :: ps)).
    rewrite split_piece by done.
    rewrite split_cons_other by done. by rewrite IH.
Qed.

(** What [str] makes of an int holds no comma, no closing bracket and no
    line feed. *)
Lemma str_int_plain (limit : nat) (z : Z) (s : list ascii) :
  Py.str_int limit z = Py.Return s ->
  Forall (fun c => Ascii.eqb c "," = false) s
  /\ Forall (fun c => Re.in_class Re.Dot c = true) s
  /\ Forall (fun c => Ascii.eqb c "]" = false) s.
Proof.
  unfold Py.str_int.
  destruct (pretty_Z_chars z) as (d & Hs & _ & Hall & _). rewrite Hs.
  destruct (_ && _); [done|]. intros [= <-].
  assert (forall P : ascii -> Prop,
            P "-"%char -> (forall c, Py.is_digit c = true -> P c) ->
            Forall P ((if (z <? 0)%Z then ["-"%char] else []) ++ d)) as Hboth.
  { intros P Hminus Hdigit. apply Forall_app. split.
    - destruct (z <? 0)%Z; by repeat constructor.
    - eapply Forall_impl; [exact Hall|]. exact Hdigit. }
  split; [|split]; apply Hboth; try done.
  - intros c Hc. by destruct (digit_is_plain c Hc) as (_ & _ & _ & _ & ? & _).
  - intros c Hc. unfold Re.in_class.
    destruct (digit_is_plain c Hc) as (_ & _ & _ & _ & _ & _ & Hnl).
    by rewrite Hnl.
  - intros c Hc. by destruct (digit_is_plain c Hc) as (_ & _ & _ & _ & _ & ? & _).
Qed.

Lemma list_map_Return {A B} (f : A -> Py.outcome B) (xs : list A) (ys : list B) :
  Py.list_map f xs = Py.Return ys <-> Forall2 (fun x y => f x = Py.Return y) xs ys.
Proof.
  revert ys. induction xs as [|x xs IH]; intros ys; simpl.
  - split; [by intros [= <-]; constructor|by inversion 1].
  - destruct (f x) as [y|e] eqn:Hx.
    + destruct (Py.list_map f xs) as [ys'|e] eqn:Hxs.
      * split.
        -- intros [= <-]. constructor; [done|]. by apply IH.
        -- inversion 1 as [|? y' ? ys'' Hy Hys]; subst.
           apply IH in Hys. congruence.
      * split; [done|]. inversion 1 as [|? y' ? ys'' Hy Hys]; subst.
        apply IH in Hys. congruence.
    + split; [done|]. inversion 1; congruence.
Qed.

Lemma join_plain (P : ascii -> Prop) (pieces : list (list ascii)) :
  P ","%char -> P " "%char -> Forall (Forall P) pieces ->
  Forall P (Py.join [","; " "]%char pieces).
Proof.
  intros Hcomma Hspace. induction 1 as [|p ps Hp Hps IH]; [done|].
  destruct ps as [|q ps]; [done|].
  change (Py.join [","; " "]%char (p :: q :: ps))
    with (p ++ ","%char :: " "%char :: Py.join [","; " "]%char (q :: ps)).
  apply Forall_app. split; [done|]. by repeat constructor.
Qed.

(** The readings [int] makes of the bracket content of a printed list are
    the items of the list. *)
Lemma readings_of_printed (limit : nat) (l : list Z) (pieces : list (list ascii)) :
  l <> [] ->
  Py.list_map (Py.str_int limit) l = Py.Return pieces ->
  readings limit (Py.join [","; " "]%char pieces) = Py.Return l.
Proof.
  intros Hne Hpieces. apply list_map_Return in Hpieces.
  destruct Hpieces as [|z p l' ps Hp Hps]; [done|].
  unfold readings. rewrite split_join.
  - apply list_map_Return. constructor.
    + by apply (int_str_int limit false).
    + clear Hp Hne. induction Hps as [|z' p' l'' ps' Hp' _ IH]; [done|].
      constructor; [|done]. by apply (int_str_int limit true).
  - constructor; [by eapply str_int_plain|].
    clear Hp Hne. induction Hps as [|z' p' l'' ps' Hp' _ IH]; [done|].
    constructor; [by eapply str_int_plain|done].
Qed.

Lemma match_literal (l : list ascii) (p : list Re.item) (s g : list ascii) :
  Re.match_here (map Re.Chr l ++ p) (l ++ s) g = Re.match_here p s g.
Proof. induction l as [|c l IH]; [done|]. simpl. by rewrite Ascii.eqb_refl. Qed.

Lemma take_while_stop {A} (p : A -> bool) (d : list A) (c : A) (rest : list A) :
  Forall (fun x => p x = true) d -> p c = false ->
  Py.take_while p (d ++ c :: rest) = d.
Proof.
  intros Hd Hc. induction Hd as [|x d Hx _ IH]; simpl; [by rewrite Hc|].
  by rewrite Hx, IH.
Qed.

Lemma give_back_first (k : nat -> option (list ascii)) (at_least n : nat)
    (g : list ascii) :
  (at_least <= n)%nat -> k n = Some g -> Re.give_back k at_least n = Some g.
Proof.
  intros Hle Hk. destruct (Nat.ltb_spec n at_least) as [|_]; [lia|].
  destruct n; simpl; destruct (_ <? _)%nat eqn:Hlt;
    try (apply Nat.ltb_lt in Hlt; lia); by rewrite Hk.
Qed.

Lemma give_back_second (k : nat -> option (list ascii)) (at_least n : nat)
    (g : list ascii) :
  (at_least <= n)%nat -> k (S n) = None -> k n = Some g ->
  Re.give_back k at_least (S n) = Some g.
Proof.
  intros Hle Hnone Hk. cbn [Re.give_back]. rewrite Hnone.
  destruct (Nat.ltb_spec (S n) at_least); [lia|]. by apply give_back_first.
Qed.

(** The run of digits stops at the first character that is no digit, and
    gives nothing back when the rest of the pattern matches there. *)
Lemma match_digits (p : list Re.item) (count : list ascii) (c : ascii)
    (rest g r : list ascii) :
  count <> [] -> Forall (fun x => Py.is_digit x = true) count ->
  Py.is_digit c = false ->
  Re.match_here p (c :: rest) g = Some r ->
  Re.match_here (Re.Rep Re.Digit 1 false :: p) (count ++ c :: rest) g = Some r.
Proof.
  intros Hne Hall Hc Hrest. cbn [Re.match_here].
  rewrite (take_while_stop (Re.in_class Re.Digit) count c rest Hall Hc).
  apply give_back_first.
  - destruct count; [done|simpl; lia].
  - by rewrite drop_app_length.
Qed.

(** The greedy group first runs over the closing bracket to the end of the
    line, and gives back that one character. *)
Lemma match_group (content g : list ascii) :
  Forall (fun c => Re.in_class Re.Dot c = true) content ->
  Re.match_here [Re.Rep Re.Dot 0 true; Re.Chr "]"] (content ++ ["]"%char]) g
    = Some content.
Proof.
  intros Hall. cbn [Re.match_here].
  assert (Forall (fun c => Re.in_class Re.Dot c = true) (content ++ ["]"%char]))
    as Hline by (apply Forall_app; split; [done|by repeat constructor]).
  destruct (take_while_all _ _ Hline) as [-> _].
  rewrite length_app. cbn [length]. rewrite Nat.add_1_r.
  apply give_back_second; [lia| |].
  - rewrite drop_ge by (rewrite length_app; simpl; lia). done.
  - rewrite drop_app_length, take_app_length. simpl. done.
Qed.

Lemma search_here (p : list Re.item) (s g : list ascii) :
  Re.match_here p s [] = Some g -> Re.search p s = Some g.
Proof. intros Hm. destruct s; simpl in *; by rewrite Hm. Qed.

(** [re.search] on a printed line finds what stands between the brackets. *)
Lemma printed_line_matches (count content : list ascii) :
  count <> [] -> Forall (fun x => Py.is_digit x = true) count ->
  Forall (fun c => Re.in_class Re.Dot c = true) content ->
  Re.search Console.pattern
    (list_ascii_of_string "Received " ++ count
     ++ list_ascii_of_string " RSSI level readings: "
     ++ "["%char :: content ++ ["]"%char])
  = Some content.
Proof.
  intros Hne Hdigits Hdots. apply search_here.
  unfold Console.pattern, Re.literal. rewrite match_literal.
  change ([Re.Rep Re.Digit 1 false] ++ ?p) with (Re.Rep Re.Digit 1 false :: p).
  change (list_ascii_of_string " RSSI level readings: "
          ++ "["%char :: content ++ ["]"%char])
    with (" "%char :: list_ascii_of_string "RSSI level readings: ["
          ++ content ++ ["]"%char]).
  apply match_digits; [done..|].
  change (" "%char :: list_ascii_of_string "RSSI level readings: ["
          ++ content ++ ["]"%char])
    with (list_ascii_of_string " RSSI level readings: ["
          ++ content ++ ["]"%char]).
  rewrite match_literal. apply match_group. done.
Qed.

Lemma readings_line_reads_back (limit : nat) (rssi_list : list Z) (line : string)
    (tr : Py.trace) :
  rssi_list <> [] ->
  Console.readings_line limit rssi_list = Py.Return line ->
  Console.parse_rssi_input limit line tr = Some (Py.Return rssi_list, tr).
Proof.
  intros Hne. unfold Console.readings_line, Py.str_list.
  destruct (Py.str_int limit (Z.of_nat (length rssi_list))) as [count|] eqn:Hcount;
    [|done].
  destruct (Py.list_map (Py.str_int limit) rssi_list) as [pieces|] eqn:Hpieces;
    [|done].
  intros Hline.
  assert (line = string_of_list_ascii
                   (list_ascii_of_string "Received " ++ count
                    ++ list_ascii_of_string " RSSI level readings: "
                    ++ "["%char :: Py.join [","; " "]%char pieces ++ ["]"%char]))
    as -> by congruence.
  clear Hline. rewrite parse_rssi_input_unfold. unfold bracket_content.
  rewrite list_ascii_of_string_of_list_ascii.
  assert (count <> [] /\ Forall (fun x => Py.is_digit x = true) count)
    as [Hcount_ne Hcount_digits].
  { revert Hcount. unfold Py.str_int.
    destruct (pretty_Z_chars (Z.of_nat (length rssi_list)))
      as (d & -> & Hd & Hall & _).
    destruct (_ && _); [done|]. intros [= <-].
    destruct (Z.ltb_spec (Z.of_nat (length rssi_list)) 0); [lia|]. done. }
  assert (Forall (fun c => Re.in_class Re.Dot c = true)
            (Py.join [","; " "]%char pieces)) as Hdots.
  { apply join_plain; [done..|].
    apply list_map_Return in Hpieces. clear Hne Hcount.
    induction Hpieces as [|z p l ps Hp _ IH]; [done|].
    constructor; [|done]. by destruct (str_int_plain _ _ _ Hp) as (_ & ? & _). }
  rewrite printed_line_matches by done.
  by rewrite (readings_of_printed limit rssi_list pieces).
Qed.

(** X1. What [scan_callback] prints for a sweep that is not empty is a
    line [parse_rssi_input] reads back as that very sweep, printing
    nothing: the callback puts one line on the standard output and the
    sweep at the end of the queue, and the parser applied to that line
    returns the readings in their order. *)
Theorem printed_sweep_reads_back (limit : nat) (rssi_list : list Z)
    (st st' : Console.plot_state) (tr tr' : Py.trace) :
  rssi_list <> [] ->
  Console.scan_callback_io limit rssi_list st tr = Some (Py.Return st', tr') ->
  exists line,
    tr' = tr ++ [Py.Stdout line]
    /\ st' = Console.scan_callback rssi_list st
    /\ forall tr2,
         Console.parse_rssi_input limit line tr2 = Some (Py.Return rssi_list, tr2).
Proof.
  intros Hne. unfold Console.scan_callback_io, Py.bind, Py.lift, Py.print, Py.emit,
    Py.ret.
  destruct (Console.readings_line limit rssi_list) as [line|] eqn:Hline; [|done].
  intros [= <- <-]. exists line. split; [done|]. split; [done|].
  intros tr2. by apply readings_line_reads_back.
Qed.

Lemma printed_sweep_reads_back_witness :
  exists line,
    [Py.Stdout "Received 3 RSSI level readings: [-50, 0, -61]"]
      = [] ++ [Py.Stdout line]
    /\ {| Console.plot_data_queue := [[-50; 0; -61]%Z];
          Console.axes := None; Console.pauses := 0 |}
       = Console.scan_callback [-50; 0; -61]%Z
           {| Console.plot_data_queue := [];
              Console.axes := None; Console.pauses := 0 |}
    /\ forall tr2,
         Console.parse_rssi_input 4300 line tr2
           = Some (Py.Return [-50; 0; -61]%Z, tr2).
Proof.
  apply (printed_sweep_reads_back 4300 [-50; 0; -61]%Z
           {| Console.plot_data_queue := [];
              Console.axes := None; Console.pauses := 0 |}).
  - discriminate.
  - vm_compute. reflexivity.
Defined.

(** ** The console's plotting thread *)

Lemma console_deliver_state (sweeps : list (list Z)) (st : Console.plot_state) :
  console_deliver sweeps st
    = {| Console.plot_data_queue := Console.plot_data_queue st ++ sweeps;
         Console.axes := Console.axes st;
         Console.pauses := Console.pauses st |}.
Proof.
  unfold console_deliver. revert st.
  induction sweeps as [|l sweeps IH]; intros st; simpl.
  - rewrite app_nil_r. by destruct st.
  - rewrite IH. unfold Console.scan_callback. simpl. by rewrite <- app_assoc.
Qed.

Lemma console_idle (n : nat) (st : Console.plot_state) :
  Console.plot_data_queue st = [] -> Console.plot_rssi_spectrum n st = st.
Proof.
  intros Hq. unfold Console.plot_rssi_spectrum.
  induction n as [|n IH]; [done|]. simpl. rewrite IH.
  unfold Console.plot_iteration. by rewrite Hq.
Qed.

Lemma console_turns (n : nat) :
  forall (st : Console.plot_state) (l : list Z),
    Console.plot_data_queue st !! n = Some l ->
    Console.plot_rssi_spectrum (S n) st
      = {| Console.plot_data_queue := drop (S n) (Console.plot_data_queue st);
           Console.axes := Some (Console.frequencies l, l);
           Console.pauses := Console.pauses st + S n |}.
Proof.
  unfold Console.plot_rssi_spectrum.
  induction n as [|n IH]; intros st l Hl.
  - simpl. unfold Console.plot_iteration.
    destruct (Console.plot_data_queue st) as [|x q]; [done|].
    simpl in Hl. injection Hl as ->. simpl. f_equal; lia.
  - rewrite Nat.iter_succ_r. unfold Console.plot_iteration at 2.
    destruct (Console.plot_data_queue st) as [|x q] eqn:Hq; [done|].
    simpl in Hl. rewrite (IH _ l) by done. simpl. f_equal. lia.
Qed.

(** X2. The console's plotting loop takes the sweeps in the order
    [scan_callback] queued them, one per turn: when [n + 1] turns follow
    the delivery of a run of sweeps to an empty queue, the axes show the
    sweep of index [n], empty or not, against its step-based frequencies,
    the later sweeps still wait, and [plt.pause] was called once per turn.
    A turn that finds the queue empty changes nothing and does not pause. *)
Theorem console_plots_in_order (sweeps : list (list Z)) (n k : nat) (l : list Z)
    (st : Console.plot_state) :
  Console.plot_data_queue st = [] ->
  sweeps !! n = Some l ->
  Console.plot_rssi_spectrum (S n) (console_deliver sweeps st)
    = {| Console.plot_data_queue := drop (S n) sweeps;
         Console.axes := Some (Console.frequencies l, l);
         Console.pauses := Console.pauses st + S n |}
  /\ Console.plot_rssi_spectrum k st = st
  /\ Console.plot_rssi_spectrum (length sweeps + k) (console_deliver sweeps st)
     = Console.plot_rssi_spectrum (length sweeps) (console_deliver sweeps st).
Proof.
  intros Hq Hl. rewrite console_deliver_state, Hq. split; [|split].
  - by rewrite (console_turns n _ l).
  - by apply console_idle.
  - unfold Console.plot_rssi_spectrum. rewrite Nat.add_comm, Nat.iter_add.
    apply console_idle.
    assert (exists m, length sweeps = S m) as [m Hm].
    { destruct sweeps; [done|]. simpl. eauto. }
    destruct (sweeps !! m) as [x|] eqn:Hx;
      [|apply lookup_ge_None in Hx; lia].
    fold (Console.plot_rssi_spectrum (length sweeps)
            {| Console.plot_data_queue := [] ++ sweeps;
               Console.axes := Console.axes st;
               Console.pauses := Console.pauses st |}).
    rewrite Hm, (console_turns m _ x) by done. simpl.
    apply drop_ge. lia.
Qed.

Lemma console_plots_in_order_witness :
  Console.plot_rssi_spectrum 2
    (console_deliver [[-50; -60]; []; [-70]]%Z (console_waiting []))
  = {| Console.plot_data_queue := [[-70]%Z];
       Console.axes := Some (Console.frequencies [], []);
       Console.pauses := 2 |}.
Proof.
  apply (console_plots_in_order [[-50; -60]; []; [-70]]%Z 1 0 []
           (console_waiting [])); reflexivity.
Defined.

(** ** Plotted frequencies against the limits of the x axis *)

Lemma inject_nat_le (i j : nat) :
  (i <= j)%nat -> (inject_Z (Z.of_nat i) <= inject_Z (Z.of_nat j))%Q.
Proof. intros Hij. rewrite <- Zle_Qle. lia. Qed.

Lemma inject_nat_nonneg (i : nat) : (0 <= inject_Z (Z.of_nat i))%Q.
Proof. apply (inject_nat_le 0 i). lia. Qed.

(** A step-based axis with a step that is not negative stays within
    [a] and [hi] exactly when its last point does. *)
Lemma step_axis_within (a d hi : Q) (n : nat) :
  (0 <= d)%Q -> (1 <= n)%nat ->
  Forall (within a hi) (map (fun i => a + inject_Z (Z.of_nat i) * d)%Q (seq 0 n))
  <-> (a + inject_Z (Z.of_nat (n - 1)) * d <= hi)%Q.
Proof.
  intros Hd Hn. rewrite Forall_lookup. split.
  - intros Hall.
    destruct (Hall (n - 1)%nat (a + inject_Z (Z.of_nat (n - 1)) * d)%Q) as [_ Hhi];
      [apply step_axis_lookup; lia|done].
  - intros Hlast i x Hx.
    assert (i < n)%nat as Hi.
    { apply lookup_lt_Some in Hx. by rewrite length_map, length_seq in Hx. }
    rewrite step_axis_lookup in Hx by done. injection Hx as <-.
    assert (0 <= inject_Z (Z.of_nat i) * d)%Q as Hlo.
    { apply Qmult_le_0_compat; [apply inject_nat_nonneg|done]. }
    assert (inject_Z (Z.of_nat i) * d <= inject_Z (Z.of_nat (n - 1)) * d)%Q as Hup.
    { apply Qmult_le_compat_r; [apply inject_nat_le; lia|done]. }
    split; lra.
Qed.

(** X3. With its fixed 2399 MHz, 2485 MHz and 0.5 MHz the console plots
    every point of a sweep within the limits it gives the x axis exactly
    when the sweep has at most 173 readings; the points of a longer sweep
    from index 173 on lie beyond the end frequency. *)
Theorem console_axis_within_limits (rssi_values : list Z) :
  Forall (within Console.START_FREQ Console.END_FREQ)
    (Console.frequencies rssi_values)
  <-> (length rssi_values <= 173)%nat.
Proof.
  unfold Console.frequencies.
  destruct (decide (length rssi_values = 0)%nat) as [->|Hn].
  - simpl. split; [lia|by constructor].
  - rewrite step_axis_within by (done || lia).
    unfold Console.START_FREQ, Console.END_FREQ, Console.FREQ_STEP.
    set (m := (length rssi_values - 1)%nat).
    assert (length rssi_values <= 173 <-> m <= 172)%nat as -> by lia.
    split.
    + intros Hle.
      assert (inject_Z (Z.of_nat m) <= inject_Z 172)%Q as Hm
        by (change (inject_Z 172) with 172%Q; lra).
      rewrite <- Zle_Qle in Hm. lia.
    + intros Hle. apply (inject_nat_le m 172) in Hle.
      change (inject_Z (Z.of_nat 172)) with 172%Q in Hle. lra.
Qed.

(** X5. In the extended GUI every point drawn lies within the limits of
    the x axis, whatever the number of readings, as soon as the start
    frequency is not above the end frequency. *)
Theorem guitoo_axis_within_limits (c : GuiToo.SpectrumCanvas.t)
    (rssi_values : list Z) :
  (GuiToo.SpectrumCanvas.start_freq c <= GuiToo.SpectrumCanvas.end_freq c)%Q ->
  Forall (within (GuiToo.SpectrumCanvas.start_freq c)
            (GuiToo.SpectrumCanvas.end_freq c))
    (GuiToo.SpectrumCanvas.plot_freqs c rssi_values).
Proof.
  unfold GuiToo.SpectrumCanvas.plot_freqs.
  set (start := GuiToo.SpectrumCanvas.start_freq c).
  set (stop := GuiToo.SpectrumCanvas.end_freq c).
  set (n := length rssi_values).
  intros Hle. apply Forall_lookup. intros i x Hx.
  assert (i < n)%nat as Hi.
  { apply lookup_lt_Some in Hx. by rewrite linspace_length in Hx. }
  destruct (decide (2 <= n)%nat) as [Hn|Hn].
  - rewrite linspace_lookup in Hx by done. injection Hx as <-.
    destruct (decide (i = pred n)) as [_|Hlast]; [split; lra|].
    set (t := ((stop - start) / inject_Z (Z.of_nat (n - 1)))%Q).
    assert (0 < inject_Z (Z.of_nat (n - 1)))%Q as Hpos.
    { change 0%Q with (inject_Z 0). rewrite <- Zlt_Qlt. lia. }
    assert (0 <= t)%Q as Ht.
    { apply Qle_shift_div_l; [done|]. lra. }
    assert (inject_Z (Z.of_nat (n - 1)) * t == stop - start)%Q as Hfull.
    { unfold t. field. lra. }
    assert (0 <= inject_Z (Z.of_nat i) * t)%Q as Hlo.
    { apply Qmult_le_0_compat; [apply inject_nat_nonneg|done]. }
    assert (inject_Z (Z.of_nat i) * t <= inject_Z (Z.of_nat (n - 1)) * t)%Q as Hup.
    { apply Qmult_le_compat_r; [apply inject_nat_le; lia|done]. }
    split; lra.
  - assert (n = 1)%nat as -> by lia.
    assert (i = 0)%nat as -> by lia.
    rewrite linspace_one in Hx. injection Hx as <-. split; lra.
Qed.

Lemma guitoo_axis_within_limits_witness :
  Forall (within 2399 2485)
    (GuiToo.SpectrumCanvas.plot_freqs
       (GuiToo.MainWindow.canvas GuiToo.MainWindow.init) [-50; -60; -70]%Z).
Proof.
  apply (guitoo_axis_within_limits
           (GuiToo.MainWindow.canvas GuiToo.MainWindow.init) [-50; -60; -70]%Z).
  vm_compute. discriminate.
Defined.

(** ** Limits set from the spin boxes *)

Lemma gui_plot_rssi_limits (c : Gui.SpectrumCanvas.t) (l : list Z) :
  gui_limits_valid (Gui.SpectrumCanvas.plot_rssi c l) <-> gui_limits_valid c.
Proof. by destruct l. Qed.

Lemma gui_update_limits_cases (sf ef step : Q) (rmin rmax : Z)
    (w : Gui.MainWindow.t) :
  let w' := Gui.MainWindow._update_limits_from_ui sf ef step rmin rmax w in
  ((sf < ef)%Q /\ (rmin < rmax)%Z
   /\ Gui.MainWindow.canvas w'
      = Gui.SpectrumCanvas.update_limits (Gui.MainWindow.canvas w)
          sf ef rmin rmax step
   /\ Gui.MainWindow.status_label w' = Gui.MainWindow.status_label w)
  \/ (((ef <= sf)%Q \/ (rmax <= rmin)%Z)
      /\ Gui.MainWindow.canvas w' = Gui.MainWindow.canvas w
      /\ (Gui.MainWindow.status_label w' = "Start frequency must be < end frequency"
          \/ Gui.MainWindow.status_label w' = "RSSI min must be < RSSI max")).
Proof.
  unfold Gui.MainWindow._update_limits_from_ui. cbn.
  destruct (Qle_bool ef sf) eqn:Hf.
  - right. apply Qle_bool_iff in Hf. cbn. auto.
  - assert (sf < ef)%Q as Hlt.
    { apply Qnot_le_lt. intros Hle. apply Qle_bool_iff in Hle. congruence. }
    destruct (Z.leb_spec rmax rmin) as [Hr|Hr].
    + right. cbn. auto.
    + left. cbn. auto.
Qed.

Lemma gui_step_limits (w : Gui.MainWindow.t) (op : gui_op) :
  gui_limits_valid (Gui.MainWindow.canvas w) ->
  gui_limits_valid (Gui.MainWindow.canvas (gui_step w op)).
Proof.
  intros Hw. destruct op as [sf ef step rmin rmax|tag payload|]; cbn [gui_step].
  - destruct (gui_update_limits_cases sf ef step rmin rmax w)
      as [(Hf & Hr & -> & _)|(_ & -> & _)]; [|done].
    by split.
  - unfold Gui.MainWindow._scanner_callback_from_thread.
    by repeat destruct (String.eqb _ _).
  - unfold Gui.MainWindow._process_plot_queue.
    rewrite gui_drain_after by done. unfold gui_after_drain.
    destruct (last_sweep _); [|done]. cbn. by apply gui_plot_rssi_limits.
Qed.

(** X6. The canvas of the basic GUI never holds limits out of order:
    whatever the spin boxes, the scanner thread and the timer do, in any
    order, its start frequency is below its end frequency and its RSSI
    minimum below its RSSI maximum. A change of a spin box always lands in
    the fields of the window; it reaches the canvas, status line untouched,
    when the five values are in order, and otherwise the canvas keeps its
    limits and the status line tells which pair is out of order. *)
Theorem gui_canvas_limits_valid (ops : list gui_op) (sf ef step : Q)
    (rmin rmax : Z) :
  gui_limits_valid (Gui.MainWindow.canvas (gui_session ops))
  /\ let w := gui_session ops in
     let w' := Gui.MainWindow._update_limits_from_ui sf ef step rmin rmax w in
     (Gui.MainWindow.start_freq w', Gui.MainWindow.end_freq w',
      Gui.MainWindow.freq_step w', Gui.MainWindow.rssi_min w',
      Gui.MainWindow.rssi_max w') = (sf, ef, step, rmin, rmax)
     /\ (((sf < ef)%Q /\ (rmin < rmax)%Z
          /\ Gui.MainWindow.canvas w'
             = Gui.SpectrumCanvas.update_limits (Gui.MainWindow.canvas w)
                 sf ef rmin rmax step
          /\ Gui.MainWindow.status_label w' = Gui.MainWindow.status_label w)
         \/ (((ef <= sf)%Q \/ (rmax <= rmin)%Z)
             /\ Gui.MainWindow.canvas w' = Gui.MainWindow.canvas w
             /\ (Gui.MainWindow.status_label w'
                 = "Start frequency must be < end frequency"
                 \/ Gui.MainWindow.status_label w'
                    = "RSSI min must be < RSSI max"))).
Proof.
  split.
  - unfold gui_session.
    assert (gui_limits_valid (Gui.MainWindow.canvas Gui.MainWindow.init)) as Hinit
      by (split; reflexivity).
    revert Hinit. generalize Gui.MainWindow.init.
    induction ops as [|op ops IH]; intros w Hw; [done|].
    cbn [fold_left]. apply IH. by apply gui_step_limits.
  - intros w w'. split; [|apply gui_update_limits_cases].
    unfold w', Gui.MainWindow._update_limits_from_ui. cbn.
    destruct (Qle_bool ef sf); [done|]. by destruct (rmax <=? rmin)%Z.
Qed.






(** ** The port box *)

Lemma sorted_set_spec (l : list string) :
  StronglySorted String.le (Py.sorted_set l)
  /\ NoDup (Py.sorted_set l)
  /\ forall x, x ∈ Py.sorted_set l <-> x ∈ l.
Proof.
  unfold Py.sorted_set. split; [|split].
  - apply StronglySorted_merge_sort; apply _.
  - rewrite merge_sort_Permutation. apply NoDup_remove_dups.
  - intros x. rewrite merge_sort_Permutation. apply elem_of_remove_dups.
Qed.

(** The result depends on the items only, not on their order or on how
    often each one occurs. *)
Lemma sorted_set_ext (l k : list string) :
  (forall x, x ∈ l <-> x ∈ k) -> Py.sorted_set l = Py.sorted_set k.
Proof.
  intros Hlk.
  destruct (sorted_set_spec l) as (Hsl & Hdl & Hl).
  destruct (sorted_set_spec k) as (Hsk & Hdk & Hk).
  apply (StronglySorted_unique String.le); [done..|].
  apply NoDup_Permutation; [done..|].
  intros x. by rewrite Hl, Hk.
Qed.

Lemma sorted_set_nil (l : list string) : Py.sorted_set l = [] <-> l = [].
Proof.
  destruct (sorted_set_spec l) as (_ & _ & Hl). split.
  - intros Hnil. destruct l as [|x l]; [done|].
    assert (x ∈ Py.sorted_set (x :: l)) as Hx by (apply Hl; left).
    rewrite Hnil in Hx. by apply elem_of_nil in Hx.
  - by intros ->.
Qed.

(** X8. After [_refresh_ports] the port box is never empty: it holds the
    distinct paths the two globs returned, in increasing order of their
    text, and the single item [/dev/ttyACM0] when they returned none. The
    items do not depend on the order in which [glob] lists the paths, and
    the two GUI variants fill the box alike. *)
Theorem refresh_ports_items (acm usb acm' usb' : list string) :
  let items := Gui.MainWindow._refresh_ports acm usb in
  items <> []
  /\ StronglySorted String.le items
  /\ NoDup items
  /\ (forall p, p ∈ items
                <-> p ∈ acm ++ usb \/ (acm ++ usb = [] /\ p = "/dev/ttyACM0"))
  /\ GuiToo.MainWindow._refresh_ports acm usb = items
  /\ ((forall p, p ∈ acm' ++ usb' <-> p ∈ acm ++ usb) ->
      Gui.MainWindow._refresh_ports acm' usb' = items).
Proof.
  intros items. subst items.
  unfold Gui.MainWindow._refresh_ports, GuiToo.MainWindow._refresh_ports.
  destruct (sorted_set_spec (acm ++ usb)) as (Hsorted & Hnodup & Hin).
  destruct (Py.sorted_set (acm ++ usb)) as [|x items] eqn:Hitems.
  - pose proof (proj1 (sorted_set_nil _) Hitems) as Hnil.
    split; [done|]. split; [by repeat constructor|].
    split; [by apply NoDup_singleton|]. split; [|split; [done|]].
    + intros p. rewrite list_elem_of_singleton, Hnil. split.
      * intros ->. by right.
      * intros [Hp|[_ ->]]; [by apply elem_of_nil in Hp|done].
    + intros Hsame. rewrite (sorted_set_ext (acm' ++ usb') (acm ++ usb)) by done.
      by rewrite Hitems.
  - split; [done|]. split; [done|]. split; [done|]. split; [|split; [done|]].
    + intros p. rewrite Hin. split; [by left|].
      intros [Hp|[Hnil _]]; [done|].
      apply (proj2 (sorted_set_nil _)) in Hnil. congruence.
    + intros Hsame. rewrite (sorted_set_ext (acm' ++ usb') (acm ++ usb)) by done.
      by rewrite Hitems.
Qed.

Lemma refresh_ports_items_witness :
  Gui.MainWindow._refresh_ports
    ["/dev/ttyACM2"; "/dev/ttyACM10"; "/dev/ttyACM2"] ["/dev/ttyUSB0"]
  = Gui.MainWindow._refresh_ports ["/dev/ttyACM10"; "/dev/ttyACM2"] ["/dev/ttyUSB0"]
  /\ Gui.MainWindow._refresh_ports ["/dev/ttyACM10"; "/dev/ttyACM2"] ["/dev/ttyUSB0"]
     = ["/dev/ttyACM10"; "/dev/ttyACM2"; "/dev/ttyUSB0"].
Proof.
  split; [|vm_compute; reflexivity].
  apply (refresh_ports_items ["/dev/ttyACM10"; "/dev/ttyACM2"] ["/dev/ttyUSB0"]
           ["/dev/ttyACM2"; "/dev/ttyACM10"; "/dev/ttyACM2"] ["/dev/ttyUSB0"]).
  intros p. cbn [app]. rewrite !elem_of_cons, !elem_of_nil. tauto.
Defined.

(** ** Stopping and closing from the GUI thread *)

Lemma stop_request_runs (env : Env.t) (tr : Py.trace) :
  exists tail,
    Py.try_except
      (let! scanning := Py.call (Env.is_scanning env) Py.IsScanning in
       if scanning : bool then Py.call (Env.stop_scan env) Py.StopScan
       else Py.ret tt)
      (Py.except_Exception (fun _ => Py.ret tt)) tr
    = Some (Py.Return tt, tr ++ tail)
    /\ stop_request tail.
Proof.
  unfold Py.try_except, Py.bind, Py.call, Py.except_Exception, Py.ret, stop_request.
  destruct (Env.is_scanning env (length tr)) as [[]|msg] eqn:Hs.
  - destruct (Env.stop_scan env (length (tr ++ [Py.IsScanning (Py.Ok true)])))
      as [[]|msg] eqn:Hstop.
    + exists [Py.IsScanning (Py.Ok true); Py.StopScan (Py.Ok tt)].
      rewrite <- app_assoc. eauto.
    + exists [Py.IsScanning (Py.Ok true); Py.StopScan (Py.Fail msg)].
      rewrite <- app_assoc. eauto.
  - exists [Py.IsScanning (Py.Ok false)]. eauto.
  - exists [Py.IsScanning (Py.Fail msg)]. eauto.
Qed.

(** X9. Pressing Stop never raises and never fails to return, whatever
    the vendor library does: the stop flag is set first, the device is asked
    whether it scans and told to stop only when it answered yes, a failure
    of either call is swallowed without a word on the status line, and
    [disconnect] is left to the scanner thread. Afterwards Start is enabled,
    Stop disabled, and the status reads [Stopping...] in the basic GUI and
    [Stopped] in the extended one. *)
Theorem stop_button_outcomes (env : Env.t) (w : Gui.MainWindow.t)
    (w2 : GuiToo.MainWindow.t) (ui : Qt.controls) (tr : Py.trace) :
  exists tail,
    Gui.MainWindow._on_stop env w ui tr
    = Some (Py.Return (Gui.MainWindow.with_status w "Stopping...",
                       {| Qt.scanner_stop_event := true;
                          Qt.start_btn := true; Qt.stop_btn := false |}),
            tr ++ tail)
    /\ GuiToo.MainWindow._stop_scan env w2 ui tr
       = Some (Py.Return (GuiToo.MainWindow.with_status w2 "Stopped",
                          {| Qt.scanner_stop_event := true;
                             Qt.start_btn := true; Qt.stop_btn := false |}),
               tr ++ tail)
    /\ stop_request tail
    /\ count_events is_disconnect tail = 0%nat
    /\ (forall r, Py.StopScan r ∈ tail -> Py.IsScanning (Py.Ok true) ∈ tail).
Proof.
  destruct (stop_request_runs env tr) as (tail & Hrun & Htail).
  exists tail.
  unfold Gui.MainWindow._on_stop, GuiToo.MainWindow._stop_scan.
  unfold Py.bind at 1 3. rewrite Hrun. unfold Py.ret.
  split; [done|]. split; [done|]. split; [done|].
  destruct Htail as [[msg ->]|[->|[r ->]]]; (split; [done|]);
    intros r' Hin; in_trace.
  apply list_elem_of_here.
Qed.

Lemma stop_button_outcomes_witness :
  exists tail,
    Gui.MainWindow._on_stop (calm_env 0) Gui.MainWindow.init Qt.init []
    = Some (Py.Return (Gui.MainWindow.with_status Gui.MainWindow.init "Stopping...",
                       {| Qt.scanner_stop_event := true;
                          Qt.start_btn := true; Qt.stop_btn := false |}),
            [] ++ tail)
    /\ Py.IsScanning (Py.Ok true) ∈ tail.
Proof.
  destruct (stop_button_outcomes (calm_env 0) Gui.MainWindow.init
              GuiToo.MainWindow.init Qt.init [])
    as (tail & Hrun & _ & _ & _ & Hasked).
  exists tail. split; [exact Hrun|].
  apply (Hasked (Py.Ok tt)).
  vm_compute in Hrun. injection Hrun as Htail. rewrite <- Htail.
  apply list_elem_of_further, list_elem_of_here.
Defined.

(** X10. Closing the window never raises and always accepts the event.
    It sets the stop flag, asks the device whether it scans, tells it to
    stop when it answered yes, and then disconnects; but the three calls
    share one [try], so [disconnect] is called exactly when neither of the
    calls before it raised: after a failure of [is_scanning] or of
    [stop_scan] the window closes without disconnecting. The two GUI
    variants close alike. *)
Theorem close_event_outcomes (env : Env.t) (ui : Qt.controls) (tr : Py.trace) :
  exists tail,
    Gui.MainWindow.closeEvent env ui tr
    = Some (Py.Return (Qt.set_stop_event ui, true), tr ++ tail)
    /\ GuiToo.MainWindow.closeEvent env ui tr
       = Gui.MainWindow.closeEvent env ui tr
    /\ ((exists msg, tail = [Py.IsScanning (Py.Fail msg)])
        \/ (exists r, tail = [Py.IsScanning (Py.Ok false); Py.Disconnect r])
        \/ (exists msg, tail = [Py.IsScanning (Py.Ok true); Py.StopScan (Py.Fail msg)])
        \/ (exists r, tail = [Py.IsScanning (Py.Ok true); Py.StopScan (Py.Ok tt);
                              Py.Disconnect r]))
    /\ (count_events is_disconnect tail = 1%nat
        <-> forall e, e ∈ tail -> failed_in_try e = None)
    /\ (count_events is_disconnect tail = 0%nat
        <-> exists e msg, e ∈ tail /\ failed_in_try e = Some msg).
Proof.
  unfold Gui.MainWindow.closeEvent, GuiToo.MainWindow.closeEvent.
  unfold Py.try_except, Py.bind, Py.call, Py.except_Exception, Py.ret.
  destruct (Env.is_scanning env (length tr)) as [[]|msg] eqn:Hs.
  - destruct (Env.stop_scan env (length (tr ++ [Py.IsScanning (Py.Ok true)])))
      as [[]|msg] eqn:Hstop.
    + set (r := Env.disconnect env _).
      exists [Py.IsScanning (Py.Ok true); Py.StopScan (Py.Ok tt); Py.Disconnect r].
      split; [|split; [done|split; [by eauto 6|]]].
      * rewrite <- !app_assoc. by destruct r as [[]|].
      * split; split.
        -- intros _ e He. in_trace; by subst.
        -- intros _. reflexivity.
        -- intros Hc. cbv in Hc. discriminate Hc.
        -- intros (e & m & He & Hm). in_trace; subst; discriminate Hm.
    + exists [Py.IsScanning (Py.Ok true); Py.StopScan (Py.Fail msg)].
      split; [|split; [done|split; [by eauto 6|]]].
      * by rewrite <- !app_assoc.
      * split; split.
        -- intros Hc. cbv in Hc. discriminate Hc.
        -- intros Hall.
           specialize (Hall (Py.StopScan (Py.Fail msg)) ltac:(repeat constructor)).
           discriminate Hall.
        -- intros _. exists (Py.StopScan (Py.Fail msg)), msg.
           split; [repeat constructor|done].
        -- intros _. reflexivity.
  - set (r := Env.disconnect env _).
    exists [Py.IsScanning (Py.Ok false); Py.Disconnect r].
    split; [|split; [done|split; [by eauto 6|]]].
    + rewrite <- !app_assoc. by destruct r as [[]|].
    + split; split.
      * intros _ e He. in_trace; by subst.
      * intros _. reflexivity.
      * intros Hc. cbv in Hc. discriminate Hc.
      * intros (e & m & He & Hm). in_trace; subst; discriminate Hm.
  - exists [Py.IsScanning (Py.Fail msg)].
    split; [|split; [done|split; [by eauto 6|]]].
    + done.
    + split; split.
      * intros Hc. cbv in Hc. discriminate Hc.
      * intros Hall.
        specialize (Hall (Py.IsScanning (Py.Fail msg)) ltac:(repeat constructor)).
        discriminate Hall.
      * intros _. exists (Py.IsScanning (Py.Fail msg)), msg.
        split; [repeat constructor|done].
      * intros _. reflexivity.
Qed.

Lemma close_event_outcomes_witness :
  exists tail,
    Gui.MainWindow.closeEvent dead_port_env Qt.init []
    = Some (Py.Return (Qt.set_stop_event Qt.init, true), [] ++ tail)
    /\ count_events is_disconnect tail = 0%nat.
Proof.
  destruct (close_event_outcomes dead_port_env Qt.init [])
    as (tail & Hrun & _ & _ & _ & Hnone).
  exists tail. split; [exact Hrun|].
  apply Hnone. exists (Py.IsScanning (Py.Fail "port closed")), "port closed".
  split; [|reflexivity].
  vm_compute in Hrun. injection Hrun as Htail. rewrite <- Htail.
  apply list_elem_of_here.
Defined.

(** ** What the window shows when a scanner thread ends *)

Lemma gui_receive_app (w : Gui.MainWindow.t) (tr1 tr2 : list Py.event) :
  gui_receive w (tr1 ++ tr2) = gui_receive (gui_receive w tr1) tr2.
Proof. apply fold_left_app. Qed.

Lemma guitoo_receive_app (w : GuiToo.MainWindow.t) (tr1 tr2 : list Py.event) :
  guitoo_receive w (tr1 ++ tr2) = guitoo_receive (guitoo_receive w tr1) tr2.
Proof. apply fold_left_app. Qed.

Lemma last_snoc_inv {A} (l : list A) (x : A) :
  last l = Some x -> exists l', l = l' ++ [x].
Proof.
  intros Hlast. destruct l as [|y l] using rev_ind; [done|].
  rewrite last_snoc in Hlast. injection Hlast as ->. by exists l.
Qed.

(** A finished [run] ends with its epilogue, and what precedes the
    epilogue ends with the report of the failure, if there was one. *)
Lemma run_with_ends (env : Env.t) (port connected_text : string) (interval : Q)
    (fuel : nat) (o : Py.outcome unit) (tr : list Py.event) :
  run_with env port connected_text interval fuel [] = Some (o, tr) ->
  exists pre r,
    tr = pre ++ epilogue r
    /\ take (length tr - 2) tr = pre
    /\ (forall e msg, e ∈ tr -> failed_in_try e = Some msg ->
          exists pre', pre = pre' ++ [scanner_error msg])
    /\ (forall p, Py.Connect p (Py.Ok false) ∈ tr ->
          exists pre',
            pre = pre' ++ [Py.Callback "__error__" ("Failed to connect to " +:+ port)]).
Proof.
  intros Hrun. apply run_with_reported in Hrun
    as (_ & _ & pre & r & -> & Hrefused & Hraised & _).
  exists pre, r. split; [done|]. split; [|split].
  - rewrite length_app. cbn [epilogue length].
    replace (length pre + 2 - 2)%nat with (length pre) by lia.
    by rewrite take_app_length.
  - intros e msg He Hmsg. apply last_snoc_inv. apply (Hraised e); [|done].
    apply elem_of_app in He as [He|He]; [done|].
    unfold epilogue in He. in_trace; by subst.
  - intros p Hp. apply last_snoc_inv. apply (Hrefused p).
    apply elem_of_app in Hp as [Hp|Hp]; [done|].
    unfold epilogue in Hp. in_trace.
Qed.

(** X11. Whatever happened to a scanner thread that has ended, once its
    window has applied, in order, the messages the thread sent, the status
    line reads [Disconnected]: the error of a failed vendor call, or of a
    refused connection, is what the line shows before the two events of the
    [finally] part, and is overwritten by the status that part sends last.
    This holds in both GUI variants. *)
Theorem final_status_disconnected (env : Env.t) (port : string) (interval : Q)
    (fuel : nat) (o o2 : Py.outcome unit) (tr tr2 : list Py.event)
    (w : Gui.MainWindow.t) (w2 : GuiToo.MainWindow.t) :
  Gui.ScannerThread.run env port fuel [] = Some (o, tr) ->
  GuiToo.ScannerThread.run env port interval fuel [] = Some (o2, tr2) ->
  let shown := fun n => Gui.MainWindow.status_label (gui_receive w (take n tr)) in
  let shown2 :=
    fun n => GuiToo.MainWindow.status_label (guitoo_receive w2 (take n tr2)) in
  shown (length tr) = "Disconnected"
  /\ shown2 (length tr2) = "Disconnected"
  /\ (forall e msg, e ∈ tr -> failed_in_try e = Some msg ->
        shown (length tr - 2)%nat = "ERROR: Scanner error: " +:+ msg)
  /\ (forall e msg, e ∈ tr2 -> failed_in_try e = Some msg ->
        shown2 (length tr2 - 2)%nat = "ERROR: Scanner error: " +:+ msg)
  /\ (forall p, Py.Connect p (Py.Ok false) ∈ tr ->
        shown (length tr - 2)%nat = "ERROR: Failed to connect to " +:+ port)
  /\ (forall p, Py.Connect p (Py.Ok false) ∈ tr2 ->
        shown2 (length tr2 - 2)%nat = "ERROR: Failed to connect to " +:+ port).
Proof.
  rewrite gui_run_with, guitoo_run_with. intros Hrun Hrun2 shown shown2.
  apply run_with_ends in Hrun as (pre & r & Htr & Htake & Hraised & Hrefused).
  apply run_with_ends in Hrun2 as (pre2 & r2 & Htr2 & Htake2 & Hraised2 & Hrefused2).
  unfold shown, shown2. rewrite Htake, Htake2, !firstn_all.
  split; [|split; [|split; [|split; [|split]]]].
  - by rewrite Htr, gui_receive_app.
  - by rewrite Htr2, guitoo_receive_app.
  - intros e msg He Hmsg. destruct (Hraised e msg He Hmsg) as [pre' ->].
    by rewrite gui_receive_app.
  - intros e msg He Hmsg. destruct (Hraised2 e msg He Hmsg) as [pre' ->].
    by rewrite guitoo_receive_app.
  - intros p Hp. destruct (Hrefused p Hp) as [pre' ->].
    by rewrite gui_receive_app.
  - intros p Hp. destruct (Hrefused2 p Hp) as [pre' ->].
    by rewrite guitoo_receive_app.
Qed.

Lemma final_status_disconnected_witness :
  let tr := no_scan_trace "Connected to /dev/ttyACM0 — starting scan" in
  Gui.MainWindow.status_label
    (gui_receive Gui.MainWindow.init (take (length tr) tr)) = "Disconnected"
  /\ Gui.MainWindow.status_label
       (gui_receive Gui.MainWindow.init (take (length tr - 2) tr))
     = "ERROR: Scanner error: no device".
Proof.
  destruct (final_status_disconnected no_scan_env "/dev/ttyACM0" (5 # 2) 5
              (Py.Return tt) (Py.Return tt)
              (no_scan_trace "Connected to /dev/ttyACM0 — starting scan")
              (no_scan_trace "Connected to /dev/ttyACM0")
              Gui.MainWindow.init GuiToo.MainWindow.init)
    as (Hlast & _ & Herror & _).
  - vm_compute. reflexivity.
  - vm_compute. reflexivity.
  - split; [exact Hlast|].
    apply (Herror (Py.StartScan (Py.Fail "no device")) "no device").
    + unfold no_scan_trace. do 2 apply list_elem_of_further. apply list_elem_of_here.
    + reflexivity.
Defined.

(** ** What a tick of the extended GUI writes *)





Example tick_logs_two_sweeps :
  Fs.files
    (GuiToo.MainWindow._update_plot "/home/u"
       (fun k => if (k =? 0)%nat then "2024-01-01 00:00:00" else "2024-01-01 00:00:01")
       (GuiToo.MainWindow.with_queue
          (GuiToo.MainWindow.with_logging GuiToo.MainWindow.init true)
          [Msg.PList [-50; -60]%Z; Msg.PList []; Msg.PList [-70]%Z])
       empty_disk).2 !! "/home/u/rssi_log.csv"
  = Some [GuiToo.MainWindow.log_header;
          [Fs.CStr "2024-01-01 00:00:00"; Fs.CFloat 2399; Fs.CInt (-50)];
          [Fs.CStr "2024-01-01 00:00:00"; Fs.CFloat 2485; Fs.CInt (-60)];
          [Fs.CStr "2024-01-01 00:00:01"; Fs.CFloat 2399; Fs.CInt (-70)]].
Proof. vm_compute. reflexivity. Qed.

(** ** A printed line at the head of a longer text *)

Lemma list_ascii_of_string_app (s1 s2 : string) :
  list_ascii_of_string (s1 +:+ s2)
    = list_ascii_of_string s1 ++ list_ascii_of_string s2.
Proof. induction s1 as [|c s1 IH]; [done|]. simpl. by rewrite IH. Qed.

(** When a line feed follows the closing bracket, the greedy group stops
    before the line feed and gives back the bracket. *)
Lemma match_group_line (content rest g : list ascii) :
  Forall (fun c => Re.in_class Re.Dot c = true) content ->
  Re.match_here [Re.Rep Re.Dot 0 true; Re.Chr "]"]
    (content ++ "]"%char :: ascii_of_N 10 :: rest) g
  = Some content.
Proof.
  intros Hall. cbn [Re.match_here].
  assert (Forall (fun c => Re.in_class Re.Dot c = true) (content ++ ["]"%char]))
    as Hline by (apply Forall_app; split; [done|by repeat constructor]).
  replace (content ++ "]"%char :: ascii_of_N 10 :: rest)
    with ((content ++ ["]"%char]) ++ ascii_of_N 10 :: rest)
    by (by rewrite <- app_assoc).
  rewrite (take_while_stop _ _ _ _ Hline) by done.
  rewrite length_app. cbn [length]. rewrite Nat.add_1_r.
  apply give_back_second; [lia| |].
  - replace (S (length content)) with (length (content ++ ["]"%char]))
      by (rewrite length_app; simpl; lia).
    by rewrite drop_app_length.
  - rewrite <- app_assoc. by rewrite drop_app_length, take_app_length.
Qed.

Lemma printed_line_matches_first (count content rest : list ascii) :
  count <> [] -> Forall (fun x => Py.is_digit x = true) count ->
  Forall (fun c => Re.in_class Re.Dot c = true) content ->
  Re.search Console.pattern
    ((list_ascii_of_string "Received " ++ count
      ++ list_ascii_of_string " RSSI level readings: "
      ++ "["%char :: content ++ ["]"%char])
     ++ ascii_of_N 10 :: rest)
  = Some content.
Proof.
  intros Hne Hdigits Hdots. apply search_here.
  unfold Console.pattern, Re.literal.
  rewrite <- !app_assoc. rewrite match_literal.
  change ([Re.Rep Re.Digit 1 false] ++ ?p) with (Re.Rep Re.Digit 1 false :: p).
  change (list_ascii_of_string " RSSI level readings: "
          ++ ("["%char :: content ++ ["]"%char]) ++ ascii_of_N 10 :: rest)
    with (" "%char :: list_ascii_of_string "RSSI level readings: ["
          ++ (content ++ ["]"%char]) ++ ascii_of_N 10 :: rest).
  apply match_digits; [done..|].
  change (" "%char :: list_ascii_of_string "RSSI level readings: ["
          ++ (content ++ ["]"%char]) ++ ascii_of_N 10 :: rest)
    with (list_ascii_of_string " RSSI level readings: ["
          ++ (content ++ ["]"%char]) ++ ascii_of_N 10 :: rest).
  rewrite match_literal, <- app_assoc. by apply match_group_line.
Qed.

(** X13. A text that begins with the line [scan_callback] printed for a
    non-empty sweep, followed by a line feed and anything at all (later
    log lines, other brackets), is read by [parse_rssi_input] as that first
    sweep: the group of the pattern cannot run past the end of the line. *)
Theorem first_printed_line_is_read (limit : nat) (rssi_list : list Z)
    (line rest : string) (tr : Py.trace) :
  rssi_list <> [] ->
  Console.readings_line limit rssi_list = Py.Return line ->
  Console.parse_rssi_input limit (line +:+ String (ascii_of_N 10) rest) tr
    = Some (Py.Return rssi_list, tr).
Proof.
  intros Hne. unfold Console.readings_line, Py.str_list.
  destruct (Py.str_int limit (Z.of_nat (length rssi_list))) as [count|] eqn:Hcount;
    [|done].
  destruct (Py.list_map (Py.str_int limit) rssi_list) as [pieces|] eqn:Hpieces;
    [|done].
  intros Hline.
  assert (line = string_of_list_ascii
                   (list_ascii_of_string "Received " ++ count
                    ++ list_ascii_of_string " RSSI level readings: "
                    ++ "["%char :: Py.join [","; " "]%char pieces ++ ["]"%char]))
    as -> by congruence.
  clear Hline. rewrite parse_rssi_input_unfold. unfold bracket_content.
  rewrite list_ascii_of_string_app, list_ascii_of_string_of_list_ascii.
  assert (count <> [] /\ Forall (fun x => Py.is_digit x = true) count)
    as [Hcount_ne Hcount_digits].
  { revert Hcount. unfold Py.str_int.
    destruct (pretty_Z_chars (Z.of_nat (length rssi_list)))
      as (d & -> & Hd & Hall & _).
    destruct (_ && _); [done|]. intros [= <-].
    destruct (Z.ltb_spec (Z.of_nat (length rssi_list)) 0); [lia|]. done. }
  assert (Forall (fun c => Re.in_class Re.Dot c = true)
            (Py.join [","; " "]%char pieces)) as Hdots.
  { apply join_plain; [done..|].
    apply list_map_Return in Hpieces. clear Hne Hcount.
    induction Hpieces as [|z p l ps Hp _ IH]; [done|].
    constructor; [|done]. by destruct (str_int_plain _ _ _ Hp) as (_ & ? & _). }
  cbn [list_ascii_of_string].
  rewrite printed_line_matches_first by done.
  by rewrite (readings_of_printed limit rssi_list pieces).
Qed.

Lemma first_printed_line_is_read_witness :
  Console.parse_rssi_input 4300
    ("Received 2 RSSI level readings: [-50, -61]"
     +:+ String (ascii_of_N 10) "Received 1 RSSI level readings: [7]") []
  = Some (Py.Return [-50; -61]%Z, []).
Proof.
  apply (first_printed_line_is_read 4300 [-50; -61]%Z
           "Received 2 RSSI level readings: [-50, -61]").
  - discriminate.
  - vm_compute. reflexivity.
Defined.

(** ** Loops that go on *)

Lemma console_monitor_goes_on (env : Env.t) (fuel : nat) :
  forall tr : Py.trace,
    (forall k, (k < fuel)%nat ->
       Env.is_scanning env (length tr + 2 * k) = Py.Ok true
       /\ Env.interrupt env (length tr + 1 + 2 * k) = false) ->
    Console.monitor env fuel tr = None.
Proof.
  induction fuel as [|fuel IH]; intros tr Hall; [done|].
  cbn [Console.monitor].
  destruct (Hall 0%nat) as [Hscan Hint]; [lia|].
  rewrite !Nat.add_0_r in Hscan, Hint.
  unfold Py.bind at 1, Py.call at 1. rewrite Hscan.
  unfold Py.bind at 1, Py.observe at 1. rewrite length_app. cbn [length].
  rewrite Hint. apply IH. intros k Hk.
  rewrite !length_app. cbn [length].
  destruct (Hall (S k)) as [Hs Hi]; [lia|].
  split; [rewrite <- Hs|rewrite <- Hi]; f_equal; lia.
Qed.

(** X14. None of the three monitoring loops has a time limit: as long
    as the connection and the start of the scan succeeded and, at every
    turn, the device answers that it is scanning (and, in the GUI variants,
    the stop flag is clear; in the console variant, no Ctrl-C cuts a sleep
    short), the scanning function is still in its loop after any number of
    turns, and so has not disconnected. *)
Theorem scan_goes_on (env : Env.t) (port : string) (interval : Q) (fuel : nat) :
  gui_still_scanning env port fuel ->
  console_still_scanning env fuel ->
  Gui.ScannerThread.run env port fuel [] = None
  /\ GuiToo.ScannerThread.run env port interval fuel [] = None
  /\ Console.start_scan env fuel [] = None.
Proof.
  intros Hgui (Hc & Hs & Hloop). rewrite gui_run_with, guitoo_run_with.
  split; [by apply run_with_goes_on|]. split; [by apply run_with_goes_on|].
  rewrite console_start_scan_unfold.
  assert (console_attempt env fuel [] = None) as ->; [|done].
  unfold console_attempt, Py.try_except.
  unfold Py.bind at 1, Py.call at 1. cbn [length]. rewrite Hc. cbn [negb app].
  unfold Py.bind at 1, Py.print at 1, Py.emit at 1.
  cbn [app]. unfold Py.bind at 1, Py.call at 1. cbn [length]. rewrite Hs.
  cbn [app]. unfold Py.bind at 1, Py.emit at 1. cbn [app]. unfold Py.bind at 1.
  rewrite console_monitor_goes_on; [done|]. intros k Hk. cbn [length].
  destruct (Hloop k Hk) as [Hsc Hi].
  split; [rewrite <- Hsc|rewrite <- Hi]; f_equal; lia.
Qed.

Lemma scan_goes_on_witness :
  Gui.ScannerThread.run (calm_env 1000) "/dev/ttyACM0" 5 [] = None
  /\ GuiToo.ScannerThread.run (calm_env 1000) "/dev/ttyACM0" (5 # 2) 5 [] = None
  /\ Console.start_scan (calm_env 1000) 5 [] = None.
Proof.
  apply (scan_goes_on (calm_env 1000) "/dev/ttyACM0" (5 # 2) 5).
  - split; [reflexivity|]. split; [reflexivity|]. intros k Hk.
    split; [|reflexivity]. cbn [calm_env Env.stop_event]. apply Nat.leb_gt. lia.
  - split; [reflexivity|]. split; [reflexivity|]. intros k Hk.
    split; reflexivity.
Defined.

(** ** Where the three axes agree *)

Lemma default_ratio (m : nat) :
  (0 < m)%nat ->
  ((2485 - 2399) / inject_Z (Z.of_nat m) == 1 # 2)%Q <-> m = 172%nat.
Proof.
  intros Hm.
  assert (0 < inject_Z (Z.of_nat m))%Q as Hpos.
  { change 0%Q with (inject_Z 0). rewrite <- Zlt_Qlt. lia. }
  split.
  - intros Heq.
    assert (inject_Z (Z.of_nat m) == 172)%Q as Hval.
    { assert (2485 - 2399 == (1 # 2) * inject_Z (Z.of_nat m))%Q as Hmul.
      { rewrite <- Heq. field. lra. }
      lra. }
    unfold Qeq in Hval. simpl in Hval. lia.
  - intros ->. reflexivity.
Qed.

(** X15. With the default settings the basic GUI plots a sweep on the
    very axis the console gives it, and the extended GUI agrees with them,
    point by point, exactly when the sweep has 173 readings: only then does
    the spacing [(2485 - 2399) / (N - 1)] of [linspace] equal the 0.5 MHz
    step. *)
Theorem axes_agree_at_173 (rssi_values : list Z) :
  (2 <= length rssi_values)%nat ->
  Gui.SpectrumCanvas.plot_freqs (Gui.MainWindow.canvas Gui.MainWindow.init)
    rssi_values
  = Console.frequencies rssi_values
  /\ (Forall2 Qeq
        (GuiToo.SpectrumCanvas.plot_freqs
           (GuiToo.MainWindow.canvas GuiToo.MainWindow.init) rssi_values)
        (Console.frequencies rssi_values)
      <-> length rssi_values = 173%nat).
Proof.
  intros Hn. split; [by rewrite gui_plot_freqs_step|].
  unfold GuiToo.SpectrumCanvas.plot_freqs, Console.frequencies.
  cbn [GuiToo.MainWindow.canvas GuiToo.MainWindow.init GuiToo.SpectrumCanvas.init
       GuiToo.SpectrumCanvas.start_freq GuiToo.SpectrumCanvas.end_freq].
  unfold GuiToo.DEFAULT_START_FREQ, GuiToo.DEFAULT_END_FREQ,
    Console.START_FREQ, Console.FREQ_STEP.
  set (n := length rssi_values) in *.
  rewrite Forall2_lookup. split.
  - intros Hall. specialize (Hall 1%nat).
    rewrite step_axis_lookup in Hall by lia.
    destruct (Np.linspace 2399 2485 n !! 1%nat) as [x|] eqn:Hx;
      [|apply lookup_ge_None in Hx; rewrite linspace_length in Hx; lia].
    inversion Hall as [x' y' Hxy|]; subst.
    apply linspace_affine in Hx. rewrite Hx in Hxy.
    assert ((2485 - 2399) / inject_Z (Z.of_nat (n - 1)) == 1 # 2)%Q as Hratio.
    { set (t := ((2485 - 2399) / inject_Z (Z.of_nat (n - 1)))%Q) in *.
      change (inject_Z (Z.of_nat 1)) with 1%Q in Hxy. lra. }
    apply default_ratio in Hratio; lia.
  - intros Hlen i.
    destruct (decide (i < n)%nat) as [Hi|Hi].
    + rewrite step_axis_lookup by done.
      destruct (Np.linspace 2399 2485 n !! i) as [x|] eqn:Hx;
        [|apply lookup_ge_None in Hx; rewrite linspace_length in Hx; lia].
      constructor. apply linspace_affine in Hx. rewrite Hx.
      assert ((2485 - 2399) / inject_Z (Z.of_nat (n - 1)) == 1 # 2)%Q as ->;
        [|reflexivity].
      apply default_ratio; lia.
    + rewrite !(proj2 (lookup_ge_None _ _)); [constructor|..].
      * rewrite length_map, length_seq. lia.
      * rewrite linspace_length. lia.
Qed.

Lemma axes_agree_at_173_witness :
  Forall2 Qeq
    (GuiToo.SpectrumCanvas.plot_freqs
       (GuiToo.MainWindow.canvas GuiToo.MainWindow.init) (replicate 173 (-70)%Z))
    (Console.frequencies (replicate 173 (-70)%Z)).
Proof.
  apply (axes_agree_at_173 (replicate 173 (-70)%Z)).
  - rewrite length_replicate. lia.
  - apply length_replicate.
Defined.
